(** * run_inference.py: the orchestration layer of the AWC wildlife classifier

    A shallow embedding of [src/run_inference.py] and of the parts of the
    Python runtime it leans on (text strings, [pathlib.PurePosixPath] as in
    CPython 3.11, the file calls of Linux over a small file system,
    exceptions), followed by the properties the specification states about
    it.

    Conventions.
    - A Python [str] is a list of Unicode code points ([pystr]); [py "..."]
      turns an ASCII literal into one.
    - Code that may raise runs in the monad [M]: a state (file system and
      trace of observable events) is threaded through, and a computation ends
      in a value or in a raised exception.
    - The collaborators that live outside the repository (the YAML parser,
      image discovery, the detection/classification pipeline) are fields of
      the record [collab]; nothing is assumed about them.
    - The platform is Linux: paths reach the kernel as UTF-8, a name takes
      up to 255 bytes and a path fewer than 4096, and a call fails for the
      path it is given or for what the file system holds.  The process runs
      as the superuser on ordinary file systems, writable and with room, so
      no access is denied; symbolic links are left out.
    - The log records of the trace are what the handlers of the logger
      write: the console shows them, and the log file of the run, a file
      whose content follows the trace, holds them. *)

From Stdlib Require Import String Ascii NArith ZArith Lia.
From stdpp Require Import base option list gmap.

Local Open Scope N_scope.
Local Open Scope list_scope.

(** ** Python strings *)

Module PyStr.

Abbreviation pychar := N.
Abbreviation pystr := (list N).

(** [py] embeds an ASCII literal. *)
Definition py (s : string) : pystr :=
  List.map N_of_ascii (list_ascii_of_string s).

Definition pystr_eqb (a b : pystr) : bool := bool_decide (a = b).

(** [str.isspace] for one code point (CPython's [_PyUnicode_IsWhitespace]). *)
Definition isspace (c : pychar) : bool :=
  ((9 <=? c) && (c <=? 13)) || ((28 <=? c) && (c <=? 32))
  || (c =? 133) || (c =? 160) || (c =? 5760)
  || ((8192 <=? c) && (c <=? 8202))
  || (c =? 8232) || (c =? 8233) || (c =? 8239) || (c =? 8287) || (c =? 12288).

Fixpoint lstrip (s : pystr) : pystr :=
  match s with
  | c :: s' => if isspace c then lstrip s' else s
  | [] => []
  end.

Definition rstrip (s : pystr) : pystr := rev (lstrip (rev s)).

(** [s.strip()] *)
Definition strip (s : pystr) : pystr := rstrip (lstrip s).

(** [s.startswith(p)] *)
Fixpoint startswith (s p : pystr) {struct p} : bool :=
  match p, s with
  | [], _ => true
  | _ :: _, [] => false
  | a :: p', b :: s' => (a =? b) && startswith s' p'
  end.

(** [p in s] for two strings: [p] occurs as a contiguous slice of [s]. *)
Fixpoint contains (s p : pystr) : bool :=
  startswith s p ||
  match s with
  | [] => false
  | _ :: s' => contains s' p
  end.

(** [s.split(sep)] for a one-character separator: never the empty list. *)
Fixpoint split (sep : pychar) (s : pystr) : list pystr :=
  match s with
  | [] => [[]]
  | c :: s' =>
      if c =? sep then [] :: split sep s'
      else match split sep s' with
           | w :: ws => (c :: w) :: ws
           | [] => [[c]]
           end
  end.

(** [sep.join(xs)] *)
Fixpoint join (sep : pystr) (xs : list pystr) : pystr :=
  match xs with
  | [] => []
  | [x] => x
  | x :: xs' => x ++ sep ++ join sep xs'
  end.

(** [s.rfind(c)]: index of the last occurrence of [c], [None] for Python's -1. *)
Fixpoint rfind (c : pychar) (s : pystr) : option nat :=
  match s with
  | [] => None
  | d :: s' =>
      match rfind c s' with
      | Some i => Some (S i)
      | None => if d =? c then Some O else None
      end
  end.

(** [s.lstrip(c)] for one character. *)
Fixpoint lstrip_char (c : pychar) (s : pystr) : pystr :=
  match s with
  | d :: s' => if d =? c then lstrip_char c s' else s
  | [] => []
  end.

Definition SLASH : pychar := 47.
Definition DOT : pychar := 46.
Definition HASH : pychar := 35.
Definition LF : pychar := 10.
Definition CR : pychar := 13.

End PyStr.
Export PyStr.

(** ** Exceptions and values *)

(** The exception classes the program can meet.  [OSError] stands for an
    [OSError] of no more specific class (a name that is too long, say);
    [OtherException] stands for any further subclass of [Exception] that is
    neither a [ValueError] nor a [FileNotFoundError]; [SystemExit] derives
    from [BaseException] only. *)
Inductive exc_class :=
  | FileNotFoundError
  | FileExistsError
  | NotADirectoryError
  | IsADirectoryError
  | OSError
  | ValueError
  | UnicodeDecodeError
  | UnicodeEncodeError
  | KeyError
  | TypeError
  | AttributeError
  | YAMLError
  | OtherException
  | SystemExit (code : Z).

(** An exception object: its class and, where the program builds it, the
    message ([str(e)]); text produced inside a library is not spelled out. *)
Record exn := Exn { exn_class : exc_class; exn_text : option pystr }.

Inductive result (A : Type) :=
  | Ok (a : A)
  | Raise (e : exn).
Arguments Ok {A} a.
Arguments Raise {A} e.

(** [isinstance(e, Exception)] *)
Definition is_Exception (c : exc_class) : bool :=
  match c with SystemExit _ => false | _ => true end.

(** [isinstance(e, FileNotFoundError)] *)
Definition is_FileNotFoundError (c : exc_class) : bool :=
  match c with FileNotFoundError => true | _ => false end.

(** [isinstance(e, ValueError)]: [UnicodeDecodeError] and
    [UnicodeEncodeError] are subclasses. *)
Definition is_ValueError (c : exc_class) : bool :=
  match c with
  | ValueError | UnicodeDecodeError | UnicodeEncodeError => true
  | _ => false
  end.

(** [isinstance(e, OSError)] *)
Definition is_OSError (c : exc_class) : bool :=
  match c with
  | FileNotFoundError | FileExistsError | NotADirectoryError
  | IsADirectoryError | OSError => true
  | _ => false
  end.

#[local] Set Warnings "-register-all".

(** What [yaml.safe_load] can hand back.  A float is kept as its [repr]; a
    mapping keeps its entries under string keys, the only ones the program
    ever looks up.  Timestamps, binary data and sets are left out: the
    program treats them like any other value that is not a string. *)
Inductive pyval :=
  | PyNone
  | PyBool (b : bool)
  | PyInt (z : Z)
  | PyFloat (repr : pystr)
  | PyStr (s : pystr)
  | PyList (xs : list pyval)
  | PyDict (d : gmap pystr pyval).

Definition is_str (s : pystr) (v : pyval) : bool :=
  match v with PyStr t => pystr_eqb s t | _ => false end.

(** [item in container] for a string [item]. *)
Definition py_in (item : pystr) (container : pyval) : result bool :=
  match container with
  | PyDict d => Ok (bool_decide (is_Some (d !! item)))
  | PyList xs => Ok (existsb (is_str item) xs)
  | PyStr s => Ok (contains s item)
  | _ => Raise (Exn TypeError None)
  end.

(** [container[key]] for a string [key]; the text of the [KeyError] is the
    quoted key. *)
Definition py_getitem (container : pyval) (key : pystr) : result pyval :=
  match container with
  | PyDict d =>
      match d !! key with
      | Some v => Ok v
      | None => Raise (Exn KeyError (Some (py "'" ++ key ++ py "'")))
      end
  | _ => Raise (Exn TypeError None)
  end.

(** [container.get(key, default)] *)
Definition py_get (container : pyval) (key : pystr) (dflt : pyval)
  : result pyval :=
  match container with
  | PyDict d => Ok (default dflt (d !! key))
  | _ => Raise (Exn AttributeError None)
  end.

(** ** pathlib: pure paths (POSIX flavour, CPython 3.11) *)

Module Pathlib.

(** A parsed path.  On POSIX the drive is always empty; [parts] are the
    components after the root. *)
Record PurePath := MkPath { root : pystr; parts : list pystr }.

(** [_PosixFlavour.splitroot]: the root and the rest.  Exactly two leading
    slashes are kept apart, any other number collapses to one. *)
Definition splitroot (part : pystr) : pystr * pystr :=
  match part with
  | c :: _ =>
      if c =? SLASH then
        let stripped := lstrip_char SLASH part in
        if Nat.eqb (length part - length stripped) 2
        then ([SLASH; SLASH], stripped)
        else ([SLASH], stripped)
      else ([], part)
  | [] => ([], part)
  end.

(** Components that survive parsing: non-empty and not ["."]. *)
Definition keep_part (x : pystr) : bool :=
  negb (pystr_eqb x []) && negb (pystr_eqb x [DOT]).

(** [parse_parts] on one string argument. *)
Definition parse (s : pystr) : PurePath :=
  match s with
  | [] => MkPath [] []
  | _ => let '(r, rel) := splitroot s in
         MkPath r (List.filter keep_part (split SLASH rel))
  end.

(** [Path(arg)]: only a [str] is accepted. *)
Definition Path (arg : pyval) : result PurePath :=
  match arg with
  | PyStr s => Ok (parse s)
  | _ => Raise (Exn TypeError None)
  end.

(** [str(p)] *)
Definition str (p : PurePath) : pystr :=
  match root p, parts p with
  | [], [] => [DOT]
  | r, ps => r ++ join [SLASH] ps
  end.

(** [p.name] *)
Definition name (p : PurePath) : pystr := List.last (parts p) [].

(** The last suffix of a file name, with its leading dot. *)
Definition name_suffix (n : pystr) : pystr :=
  match rfind DOT n with
  | Some i => if (0 <? i)%nat && (i <? length n - 1)%nat then drop i n else []
  | None => []
  end.

(** [p.suffix] *)
Definition suffix (p : PurePath) : pystr := name_suffix (name p).

(** The file name without its last suffix ([p.stem] is [stem_of p.name]). *)
Definition stem_of (n : pystr) : pystr :=
  match rfind DOT n with
  | Some i => if (0 <? i)%nat && (i <? length n - 1)%nat then take i n else n
  | None => n
  end.

(** [p.with_suffix(suffix)] *)
Definition with_suffix (p : PurePath) (sfx : pystr) : result PurePath :=
  if existsb (N.eqb SLASH) sfx then Raise (Exn ValueError None)
  else if (negb (pystr_eqb sfx []) && negb (startswith sfx [DOT]))
          || pystr_eqb sfx [DOT]
  then Raise (Exn ValueError None)
  else
    let n := name p in
    if pystr_eqb n [] then Raise (Exn ValueError None)
    else
      let old_suffix := suffix p in
      let n' := if pystr_eqb old_suffix [] then n ++ sfx
                else take (length n - length old_suffix) n ++ sfx in
      Ok (MkPath (root p) (removelast (parts p) ++ [n'])).

(** [p.parent] *)
Definition parent (p : PurePath) : PurePath :=
  MkPath (root p) (removelast (parts p)).

(** [p / key] for a string [key] *)
Definition joinpath (p : PurePath) (key : pystr) : PurePath :=
  let q := parse key in
  match root q with
  | [] => MkPath (root p) (parts p ++ parts q)
  | _ => q
  end.

End Pathlib.
Export Pathlib.

(** ** The file system, the trace, and the monad of the program *)

Inductive level := INFO | WARNING | ERROR.

(** A piece of a formatted message: literal text, an interpolated value, or
    the text of an exception. *)
Inductive frag :=
  | Lit (s : pystr)
  | Val (v : pyval)
  | ExcText (e : exn).

(** Keyword arguments of [DetectAndClassify(...)]. *)
Record init_args := InitArgs {
  ia_detector_path : pyval;
  ia_classifier_path : pyval;
  ia_label_names : list pystr;
  ia_classifier_base : pyval;
  ia_detection_threshold : pyval;
  ia_clas_threshold : pyval }.

(** Keyword arguments of [pipeline.predict(...)]. *)
Record predict_args := PredictArgs {
  pa_inp : list pystr;
  pa_clas_bs : pyval;
  pa_topn : pyval;
  pa_output_name : pystr;
  pa_show_progress : bool }.

(** Observable events of a run, oldest first. *)
Inductive event :=
  | EvLog (lvl : level) (exc_info : bool) (msg : list frag)
  | EvMkdir (p : PurePath) (parents exist_ok : bool)
  | EvInit (a : init_args)
  | EvPredict (a : predict_args).

(** What a regular file holds.  [Text t] decodes as UTF-8 to [t];
    [Undecodable] does not decode.  [Logged render] is a file a
    [logging.FileHandler] of [setup_logging] (lines 47-50) appends to: the
    handler writes and flushes one entry per record, so what a reader gets
    depends on the records logged so far; [render tr] is the text after the
    records of [tr] ([None] when what the file held before does not
    decode).  Nothing is assumed about [render]: it stands for the
    formatter, the clock and the earlier content of the file. *)
Inductive file_data :=
  | Text (t : pystr)
  | Undecodable
  | Logged (render : list event -> option pystr).

Inductive node :=
  | Dir
  | File (d : file_data).

(** A file system maps canonical absolute paths (component lists from the
    root, [[]] being the root directory) to nodes.  The platform is Linux
    with CPython 3.11: names are handed to the kernel as UTF-8
    ([os.fsencode]), a name may take [NAME_MAX] bytes and a path less than
    [PATH_MAX].  The process is taken to run as the superuser, on ordinary
    file systems mounted for writing that have room left: the kernel then
    denies no access, and a system call fails only for the path it is
    given and for what the map holds.  Symbolic links are not modelled. *)
Abbreviation fsys := (gmap (list pystr) node).

(** The state of a run: the file system, the working directory, and the
    trace.  The [EvLog] records of the trace are what the handlers of the
    logger were given, in order: the console shows them, and a log file
    (a [Logged] entry of the file system) holds them. *)
Record state := State {
  st_fs : fsys;
  st_cwd : list pystr;
  st_trace : list event }.

(** The collaborators outside the repository.  Each may raise; the pipeline
    may also change the file system. *)
Record collab := Collab {
  safe_load : pystr -> result pyval;
  get_all_image_paths : list pystr -> fsys -> pystr -> result (list pystr);
  DetectAndClassify : list pystr -> fsys -> init_args -> fsys * option exn;
  predict : list pystr -> fsys -> predict_args -> fsys * option exn }.

Definition M (A : Type) : Type := state -> result A * state.

#[global] Instance M_ret : MRet M := fun A x st => (Ok x, st).
#[global] Instance M_bind : MBind M := fun A B f m st =>
  match m st with
  | (Ok a, st') => f a st'
  | (Raise e, st') => (Raise e, st')
  end.

Definition raise {A} (e : exn) : M A := fun st => (Raise e, st).

Definition lift {A} (r : result A) : M A := fun st => (r, st).

(** One more event.  For a log record this is the write of the handlers:
    the map of the file system stays as it is, and a [Logged] file reads
    differently from now on. *)
Definition emit (ev : event) : M unit := fun st =>
  let '(State fs cwd trace) := st in (Ok tt, State fs cwd (trace ++ [ev])).

(** [logger.info], [logger.warning], [logger.error], [logger.exception] *)
Definition logger_info (msg : list frag) : M unit := emit (EvLog INFO false msg).
Definition logger_warning (msg : list frag) : M unit := emit (EvLog WARNING false msg).
Definition logger_error (msg : list frag) : M unit := emit (EvLog ERROR false msg).
Definition logger_exception (msg : list frag) : M unit := emit (EvLog ERROR true msg).

(** [sys.exit(code)] *)
Definition sys_exit {A} (code : Z) : M A := raise (Exn (SystemExit code) None).

(** *** Path resolution *)

Module OS.

Definition DOTDOT : pystr := [DOT; DOT].

(** The limits of the kernel on one name and on a whole path, in bytes. *)
Definition NAME_MAX : nat := 255.
Definition PATH_MAX : nat := 4096.

(** [os.fsencode]: UTF-8 with [surrogateescape].  A lone surrogate other
    than U+DC80..U+DCFF (which stand for one byte each) cannot be encoded. *)
Definition encodable (c : pychar) : bool :=
  (c <? 55296) || ((56448 <=? c) && (c <=? 56575))
  || ((57344 <=? c) && (c <=? 1114111)).

Definition utf8_length (c : pychar) : nat :=
  if c <? 128 then 1
  else if c <? 2048 then 2
  else if (56448 <=? c) && (c <=? 56575) then 1
  else if c <? 65536 then 3
  else 4.

Definition byte_length (s : pystr) : nat := list_sum (List.map utf8_length s).

(** What Python raises on the text of a path before the kernel sees it: a
    [UnicodeEncodeError] when it cannot be encoded, a [ValueError] when it
    holds a null character. *)
Definition fspath_error (s : pystr) : option exc_class :=
  if negb (forallb encodable s) then Some UnicodeEncodeError
  else if existsb (N.eqb 0) s then Some ValueError
  else None.

(** One step of path resolution from the directory [cur]. *)
Definition step (cur : list pystr) (c : pystr) : list pystr :=
  if pystr_eqb c [] || pystr_eqb c [DOT] then cur
  else if pystr_eqb c DOTDOT then removelast cur
  else cur ++ [c].

Inductive lookup_result :=
  | Found (at_ : list pystr) (n : node)
  | ENOENT
  | ENOTDIR
  | ENAMETOOLONG
  | Rejected (c : exc_class).

(** Resolve the components [comps] from [cur]: every component is looked up
    in a directory that exists, and a name of more than [NAME_MAX] bytes is
    refused there. *)
Fixpoint walk (fs : fsys) (cur : list pystr) (comps : list pystr)
  : lookup_result :=
  match fs !! cur with
  | None => ENOENT
  | Some n =>
      match comps with
      | [] => Found cur n
      | c :: cs =>
          match n with
          | Dir =>
              if (NAME_MAX <? byte_length c)%nat then ENAMETOOLONG
              else walk fs (step cur c) cs
          | File _ => ENOTDIR
          end
      end
  end.

(** Where resolution of [p] starts. *)
Definition start (cwd : list pystr) (p : PurePath) : list pystr :=
  match root p with [] => cwd | _ => [] end.

(** What stands in the way of a system call on [p] before any lookup: the
    text [str(p)] is refused by Python ([Rejected]) or is too long for the
    kernel. *)
Definition refused (p : PurePath) : option lookup_result :=
  match fspath_error (str p) with
  | Some c => Some (Rejected c)
  | None =>
      if (PATH_MAX <=? byte_length (str p))%nat then Some ENAMETOOLONG
      else None
  end.

(** [os.stat(p)] *)
Definition stat (cwd : list pystr) (fs : fsys) (p : PurePath) : lookup_result :=
  match refused p with
  | Some r => r
  | None => walk fs (start cwd p) (parts p)
  end.

Definition special (c : pystr) : bool :=
  pystr_eqb c [] || pystr_eqb c [DOT] || pystr_eqb c DOTDOT.

(** The class of the exception for a failed lookup. *)
Definition error_class (r : lookup_result) : exc_class :=
  match r with
  | Found _ _ => FileExistsError
  | ENOENT => FileNotFoundError
  | ENOTDIR => NotADirectoryError
  | ENAMETOOLONG => OSError
  | Rejected c => c
  end.

(** [os.mkdir(p)]: the new file system, or the class of the exception. *)
Definition mkdir (cwd : list pystr) (fs : fsys) (p : PurePath)
  : fsys + exc_class :=
  match refused p with
  | Some r => inr (error_class r)
  | None =>
      match walk fs (start cwd p) (removelast (parts p)) with
      | Found _ (File _) =>
          match parts p with
          | [] => inr FileExistsError
          | _ => inr NotADirectoryError
          end
      | Found d Dir =>
          match parts p with
          | [] => inr FileExistsError
          | _ =>
              let c := List.last (parts p) [] in
              if special c then inr FileExistsError
              else if (NAME_MAX <? byte_length c)%nat then inr OSError
              else match fs !! (d ++ [c]) with
                   | Some _ => inr FileExistsError
                   | None => inl (<[d ++ [c] := Dir]> fs)
                   end
          end
      | r => inr (error_class r)
      end
  end.

End OS.

(** [p.exists()]: [False] when the path is not there or Python refuses its
    text (a [ValueError], which [exists] catches); any other failure of
    [stat] is raised. *)
Definition path_exists (cwd : list pystr) (fs : fsys) (p : PurePath)
  : result bool :=
  match OS.stat cwd fs p with
  | OS.Found _ _ => Ok true
  | OS.ENOENT | OS.ENOTDIR | OS.Rejected _ => Ok false
  | OS.ENAMETOOLONG => Raise (Exn OSError None)
  end.

Definition Path_exists (p : PurePath) : M bool := fun st =>
  (path_exists (st_cwd st) (st_fs st) p, st).

(** [p.is_dir()], with the same handling of failures. *)
Definition is_dir (cwd : list pystr) (fs : fsys) (p : PurePath) : result bool :=
  match OS.stat cwd fs p with
  | OS.Found _ Dir => Ok true
  | OS.Found _ (File _) | OS.ENOENT | OS.ENOTDIR | OS.Rejected _ => Ok false
  | OS.ENAMETOOLONG => Raise (Exn OSError None)
  end.

Definition Path_is_dir (p : PurePath) : M bool := fun st =>
  (is_dir (st_cwd st) (st_fs st) p, st).

(** [open(p, "r", encoding="utf-8")], as far as the content read later. *)
Definition open_read (p : PurePath) : M file_data := fun st =>
  (match OS.stat (st_cwd st) (st_fs st) p with
   | OS.Found _ (File d) => Ok d
   | OS.Found _ Dir => Raise (Exn IsADirectoryError None)
   | r => Raise (Exn (OS.error_class r) None)
   end, st).

(** *** [Path.mkdir] *)

(** What [Path.mkdir] does when [os.mkdir] failed with the class [c] other
    than [FileNotFoundError]: an [OSError] is let go when [exist_ok] is set
    and the path is a directory (finding that out may raise in turn);
    anything else is raised again. *)
Definition mkdir_failed (cwd : list pystr) (fs : fsys) (p : PurePath)
    (exist_ok : bool) (c : exc_class) : fsys * option exn :=
  if is_OSError c && exist_ok then
    match is_dir cwd fs p with
    | Ok true => (fs, None)
    | Ok false => (fs, Some (Exn c None))
    | Raise e => (fs, Some e)
    end
  else (fs, Some (Exn c None)).

(** [p.mkdir(parents=False, exist_ok=exist_ok)]: the file system afterwards
    and the exception raised, if any. *)
Definition mkdir_once (cwd : list pystr) (fs : fsys) (p : PurePath)
    (exist_ok : bool) : fsys * option exn :=
  match OS.mkdir cwd fs p with
  | inl fs' => (fs', None)
  | inr FileNotFoundError => (fs, Some (Exn FileNotFoundError None))
  | inr c => mkdir_failed cwd fs p exist_ok c
  end.

(** [p.mkdir(parents=True, exist_ok=exist_ok)] for [p] with root [r] and
    components [rev rparts]; the recursion goes to [p.parent]. *)
Fixpoint mkdir_parents (cwd : list pystr) (r : pystr) (rparts : list pystr)
    (exist_ok : bool) (fs : fsys) : fsys * option exn :=
  let p := MkPath r (rev rparts) in
  match OS.mkdir cwd fs p with
  | inl fs' => (fs', None)
  | inr FileNotFoundError =>
      match rparts with
      | [] => (fs, Some (Exn FileNotFoundError None))
      | _ :: rparent =>
          match mkdir_parents cwd r rparent true fs with
          | (fs1, None) => mkdir_once cwd fs1 p exist_ok
          | (fs1, Some e) => (fs1, Some e)
          end
      end
  | inr c => mkdir_failed cwd fs p exist_ok c
  end.

(** [p.mkdir(parents=parents, exist_ok=exist_ok)] as the program calls it. *)
Definition Path_mkdir (p : PurePath) (parents exist_ok : bool) : M unit :=
  fun st =>
    let '(fs', r) :=
      if parents
      then mkdir_parents (st_cwd st) (root p) (rev (parts p)) exist_ok (st_fs st)
      else mkdir_once (st_cwd st) (st_fs st) p exist_ok in
    let st' := State fs' (st_cwd st) (st_trace st ++ [EvMkdir p parents exist_ok]) in
    match r with
    | None => (Ok tt, st')
    | Some e => (Raise e, st')
    end.

(** *** Reading text *)

(** The lines a text file yields when iterated, with universal newlines:
    ["\n"], ["\r"] and ["\r\n"] all end a line and are handed over as
    ["\n"]; a last line without terminator is handed over as it is. *)
Fixpoint file_lines_from (cur : pystr) (t : pystr) : list pystr :=
  match t with
  | [] => match cur with [] => [] | _ => [cur] end
  | c :: t' =>
      if c =? LF then (cur ++ [LF]) :: file_lines_from [] t'
      else if c =? CR then
        match t' with
        | d :: t'' =>
            if d =? LF then (cur ++ [LF]) :: file_lines_from [] t''
            else (cur ++ [LF]) :: file_lines_from [] t'
        | [] => [cur ++ [LF]]
        end
      else file_lines_from (cur ++ [c]) t'
  end.

Definition file_lines (t : pystr) : list pystr := file_lines_from [] t.

(** The text of a log file once the records of the state are written. *)
Definition logged_text (render : list event -> option pystr) : M pystr :=
  fun st =>
    match render (st_trace st) with
    | Some t => (Ok t, st)
    | None => (Raise (Exn UnicodeDecodeError None), st)
    end.

(** Iterating an open file: decoding may fail. *)
Definition read_lines (d : file_data) : M (list pystr) :=
  match d with
  | Text t => mret (file_lines t)
  | Undecodable => raise (Exn UnicodeDecodeError None)
  | Logged render => t ← logged_text render; mret (file_lines t)
  end.

(** [yaml.safe_load(f)] on an open file. *)
Definition yaml_safe_load (c : collab) (d : file_data) : M pyval :=
  match d with
  | Text t => lift (safe_load c t)
  | Undecodable => raise (Exn UnicodeDecodeError None)
  | Logged render => t ← logged_text render; lift (safe_load c t)
  end.

(** ** The program: [run_inference.py] *)

Definition str_lit (s : string) : pyval := PyStr (py s).

(** [[x for x in xs if cond(x)]] where the condition may raise. *)
Fixpoint comprehension_if {A} (cond : A -> result bool) (xs : list A)
  : result (list A) :=
  match xs with
  | [] => Ok []
  | x :: xs' =>
      match cond x with
      | Raise e => Raise e
      | Ok b =>
          match comprehension_if cond xs' with
          | Raise e => Raise e
          | Ok ys => Ok (if b then x :: ys else ys)
          end
      end
  end.

Definition py_not_in (container : pyval) (item : pystr) : result bool :=
  match py_in item container with
  | Ok b => Ok (negb b)
  | Raise e => Raise e
  end.

Definition required_fields : list pystr :=
  [py "detector_path"; py "classifier_path"].

(** The required-field check of [load_config] (lines 79-85), on the loaded
    document. *)
Definition check_required (config : pyval) : result pyval :=
  match comprehension_if (py_not_in config) required_fields with
  | Raise e => Raise e
  | Ok [] => Ok config
  | Ok missing =>
      Raise (Exn ValueError
               (Some (py "Missing required config fields: "
                      ++ join (py ", ") missing)))
  end.

(** [load_config(config_path)] *)
Definition load_config (c : collab) (config_path : pystr) : M pyval :=
  let config_file := parse config_path in
  ex ← Path_exists config_file;
  if negb ex
  then raise (Exn FileNotFoundError
                (Some (py "Config file not found: " ++ config_path)))
  else
    f ← open_read config_file;
    config ← yaml_safe_load c f;
    lift (check_required config).

(** The body of the loop of [load_labels]: one line is looked at. *)
Definition load_labels_step (labels : list pystr) (line : pystr)
  : list pystr :=
  let line := strip line in
  if negb (pystr_eqb line []) && negb (startswith line [HASH])
  then labels ++ [line]
  else labels.

(** [load_labels(label_path)].  The argument comes straight from the
    configuration; [Path(label_path)] rejects anything but a [str]. *)
Definition load_labels (label_path : pyval) : M (list pystr) :=
  match label_path with
  | PyStr path_text =>
      let label_file := parse path_text in
      ex ← Path_exists label_file;
      if negb ex
      then raise (Exn FileNotFoundError
                    (Some (py "Labels file not found: " ++ path_text)))
      else
        f ← open_read label_file;
        lines ← read_lines f;
        let labels := fold_left load_labels_step lines [] in
        match labels with
        | [] => raise (Exn ValueError
                         (Some (py "No labels found in " ++ path_text)))
        | _ => mret labels
        end
  | _ => raise (Exn TypeError None)
  end.

(** Command-line arguments after parsing. *)
Record Args := MkArgs {
  args_image_folder : pystr;
  args_config : pystr;
  args_output : option pystr }.

(** Truth value of a [str]. *)
Definition truthy (s : pystr) : bool := negb (pystr_eqb s []).

(** [args.output or config.get("output_name", "results")] (line 188);
    [args.output] is [None] when the option is not given. *)
Definition effective_output_name (output : option pystr) (config : pyval)
  : result pyval :=
  match output with
  | Some s =>
      if truthy s then Ok (PyStr s)
      else py_get config (py "output_name") (str_lit "results")
  | None => py_get config (py "output_name") (str_lit "results")
  end.

(** Lines 218-223: from the requested output name and the image folder to
    the stem handed to the pipeline. *)
Definition resolve_output_stem (output_name : pyval) (image_folder : PurePath)
  : M pystr :=
  p ← lift (Path output_name);
  output_name ← lift (with_suffix p []);
  if pystr_eqb (str (parent output_name)) [DOT]
  then mret (str (joinpath image_folder (name output_name)))
  else
    Path_mkdir (parent output_name) true true;;
    mret (str output_name).

Definition rule (c : string) : frag :=
  Lit (List.concat (List.repeat (py c) 50)).

(** Calls into the pipeline. *)
Definition call_DetectAndClassify (c : collab) (a : init_args) : M unit :=
  fun st =>
    let '(fs', r) := DetectAndClassify c (st_cwd st) (st_fs st) a in
    let st' := State fs' (st_cwd st) (st_trace st ++ [EvInit a]) in
    match r with None => (Ok tt, st') | Some e => (Raise e, st') end.

Definition call_predict (c : collab) (a : predict_args) : M unit :=
  fun st =>
    let '(fs', r) := predict c (st_cwd st) (st_fs st) a in
    let st' := State fs' (st_cwd st) (st_trace st ++ [EvPredict a]) in
    match r with None => (Ok tt, st') | Some e => (Raise e, st') end.

Definition call_get_all_image_paths (c : collab) (folder : pystr)
  : M (list pystr) :=
  fun st => (get_all_image_paths c (st_cwd st) (st_fs st) folder, st).

Definition len {A} (xs : list A) : pyval := PyInt (Z.of_nat (length xs)).

(** The [try] block of [main] (lines 152-235). *)
Definition main_try (c : collab) (args : Args) : M unit :=
  logger_info [Lit (py "Loading config from: "); Lit (args_config args)];;
  config ← load_config c (args_config args);
  label_path ← lift (py_getitem config (py "label_path"));
  logger_info [Lit (py "Loading labels from: "); Val label_path];;
  label_path ← lift (py_getitem config (py "label_path"));
  labels ← load_labels label_path;
  logger_info [Lit (py "Loaded "); Val (len labels); Lit (py " species labels")];;
  let image_folder := parse (args_image_folder args) in
  ex ← Path_exists image_folder;
  if negb ex
  then raise (Exn FileNotFoundError
                (Some (py "Image folder not found: " ++ args_image_folder args)))
  else
  isd ← Path_is_dir image_folder;
  if negb isd
  then raise (Exn ValueError
                (Some (py "Not a directory: " ++ args_image_folder args)))
  else
  logger_info [Lit (py "Scanning for images in: "); Lit (str image_folder)];;
  image_paths ← call_get_all_image_paths c (str image_folder);
  match image_paths with
  | [] =>
      logger_warning
        [Lit (py "No images found! Supported formats: .jpg, .jpeg, .png")];;
      sys_exit 0
  | _ =>
  logger_info [Lit (py "Found "); Val (len image_paths);
               Lit (py " images to process")];;
  detector_path ← lift (py_getitem config (py "detector_path"));
  classifier_path ← lift (py_getitem config (py "classifier_path"));
  classifier_base ← lift (py_get config (py "classifier_base")
                            (str_lit "tf_efficientnet_b5.ns_jft_in1k"));
  detection_threshold ← lift (py_get config (py "detection_threshold")
                                (PyFloat (py "0.1")));
  classification_threshold ← lift (py_get config (py "classification_threshold")
                                     (PyFloat (py "0.5")));
  batch_size ← lift (py_get config (py "classification_batch_size") (PyInt 4));
  topn ← lift (py_get config (py "topn") (PyInt 1));
  output_name ← lift (effective_output_name (args_output args) config);
  logger_info [rule "="];;
  logger_info [Lit (py "Configuration:")];;
  logger_info [Lit (py "  Detector model: "); Val detector_path];;
  logger_info [Lit (py "  Classifier model: "); Val classifier_path];;
  logger_info [Lit (py "  Detection threshold: "); Val detection_threshold];;
  logger_info [Lit (py "  Classification threshold: ");
               Val classification_threshold];;
  logger_info [Lit (py "  Classification batch size: "); Val batch_size];;
  logger_info [Lit (py "  Top-N predictions: "); Val topn];;
  logger_info [Lit (py "  Output name: "); Val output_name];;
  logger_info [rule "="];;
  logger_info [Lit (py "Loading models (this may take a moment)...")];;
  call_DetectAndClassify c
    (InitArgs detector_path classifier_path labels classifier_base
       detection_threshold classification_threshold);;
  logger_info [Lit (py "Models loaded successfully!")];;
  logger_info [Lit (py "Starting detection and classification...")];;
  logger_info [rule "-"];;
  output_name ← resolve_output_stem output_name image_folder;
  call_predict c (PredictArgs image_paths batch_size topn output_name true);;
  logger_info [rule "-"];;
  logger_info [Lit (py "Results saved to: "); Lit output_name; Lit (py ".csv and ");
               Lit output_name; Lit (py ".json")];;
  logger_info [Lit (py "Done!")]
  end.

(** The three [except] clauses of [main] (lines 237-245). *)
Definition main_except (e : exn) : M unit :=
  if is_FileNotFoundError (exn_class e) then
    logger_error [Lit (py "File not found: "); ExcText e];;
    sys_exit 1
  else if is_ValueError (exn_class e) then
    logger_error [Lit (py "Configuration error: "); ExcText e];;
    sys_exit 1
  else if is_Exception (exn_class e) then
    logger_exception [Lit (py "Unexpected error: "); ExcText e];;
    sys_exit 1
  else raise e.

(** [main()], from after argument parsing and logging setup. *)
Definition main (c : collab) (args : Args) : M unit := fun st =>
  match main_try c args st with
  | (Ok tt, st') => (Ok tt, st')
  | (Raise e, st') => main_except e st'
  end.

(** The exit status of the process that ran [main]. *)
Definition exit_status (r : result unit) : Z :=
  match r with
  | Ok _ => 0
  | Raise e => match exn_class e with SystemExit code => code | _ => 1 end
  end.

(** ** Notions used to state the properties *)

(** A line that survives the filter of [load_labels], once stripped. *)
Definition is_label (line : pystr) : bool :=
  negb (pystr_eqb line []) && negb (startswith line [HASH]).

(** The required fields a mapping lacks, in the order of [required_fields]. *)
Definition missing_fields (d : gmap pystr pyval) : list pystr :=
  List.filter (fun field => bool_decide (d !! field = None)) required_fields.

(** The path [p.with_suffix('')] evaluates to when [p] has a name. *)
Definition without_suffix (p : PurePath) : PurePath :=
  MkPath (root p) (removelast (parts p) ++ [stem_of (name p)]).

(** A path component as parsing leaves it: non-empty, not ["."], without
    separator. *)
Definition valid_part (x : pystr) : Prop :=
  x <> [] /\ x <> [DOT] /\ ~ In SLASH x.

Definition valid_root (r : pystr) : Prop :=
  r = [] \/ r = [SLASH] \/ r = [SLASH; SLASH].

(** A path in the normal form [parse] produces. *)
Definition valid_path (p : PurePath) : Prop :=
  valid_root (root p) /\ Forall valid_part (parts p).






(** A requested output name with a real directory component: once parsed it
    has a final component and something before it. *)
Definition explicit_path (requested : pystr) : Prop :=
  parts (parse requested) <> []
  /\ (root (parse requested) <> [] \/ 2 <= length (parts (parse requested)))%nat.

(** The three ways a failed run is reported. *)
Inductive category := FileNotFound | ConfigurationError | UnexpectedError.

Definition classify (e : exn) : category :=
  if is_FileNotFoundError (exn_class e) then FileNotFound
  else if is_ValueError (exn_class e) then ConfigurationError
  else UnexpectedError.

(** The log record of a failed run: the prefix tells the category, and only
    the unexpected ones carry the traceback. *)
Definition report (e : exn) : event :=
  match classify e with
  | FileNotFound => EvLog ERROR false [Lit (py "File not found: "); ExcText e]
  | ConfigurationError =>
      EvLog ERROR false [Lit (py "Configuration error: "); ExcText e]
  | UnexpectedError =>
      EvLog ERROR true [Lit (py "Unexpected error: "); ExcText e]
  end.

(** The configuration file is there, parses to the mapping [d], and [d] has
    both fields [load_config] asks for. *)
Definition config_loads (c : collab) (cwd : list pystr) (fs : fsys)
    (args : Args) (d : gmap pystr pyval) : Prop :=
  exists k t,
    OS.stat cwd fs (parse (args_config args)) = OS.Found k (File (Text t))
    /\ safe_load c t = Ok (PyDict d)
    /\ missing_fields d = [].

(** The mapping [d] names a label file that is there and holds the labels
    [labels], at least one. *)
Definition labels_load (cwd : list pystr) (fs : fsys) (d : gmap pystr pyval)
    (labels : list pystr) : Prop :=
  exists path k t,
    d !! py "label_path" = Some (PyStr path)
    /\ OS.stat cwd fs (parse path) = OS.Found k (File (Text t))
    /\ List.filter is_label (List.map strip (file_lines t)) = labels
    /\ labels <> [].

Definition is_predict (ev : event) : bool :=
  match ev with EvPredict _ => true | _ => false end.

Definition is_init (ev : event) : bool :=
  match ev with EvInit _ => true | _ => false end.

(** How often the trace records an event of the kind [P]. *)
Definition calls (P : event -> bool) (tr : list event) : nat :=
  length (List.filter P tr).

(** The log records of a run up to image discovery. *)
Definition log_loading_config (args : Args) : event :=
  EvLog INFO false [Lit (py "Loading config from: "); Lit (args_config args)].

Definition log_loading_labels (path : pyval) : event :=
  EvLog INFO false [Lit (py "Loading labels from: "); Val path].

Definition log_loaded (labels : list pystr) : event :=
  EvLog INFO false
    [Lit (py "Loaded "); Val (len labels); Lit (py " species labels")].

Definition log_scanning (args : Args) : event :=
  EvLog INFO false [Lit (py "Scanning for images in: ");
                    Lit (str (parse (args_image_folder args)))].

Definition log_no_images : event :=
  EvLog WARNING false
    [Lit (py "No images found! Supported formats: .jpg, .jpeg, .png")].

(** The computation [m] records at most [n] further events of the kind
    [P], however it ends. *)
Definition adds (P : event -> bool) (n : nat) {A} (m : M A) : Prop :=
  forall st r st',
    m st = (r, st') -> (calls P (st_trace st') <= calls P (st_trace st) + n)%nat.

(** ** A small world for the examples

    The working directory [/home] holds the log file of the run, a
    configuration file, two label files, an image folder and a regular
    file. *)

Module Demo.

Definition cwd : list pystr := [py "home"].

Definition labels_text : pystr :=
  py "# species" ++ [LF] ++ py "  quoll " ++ [CR; LF] ++ [LF]
  ++ py "bilby" ++ [LF] ++ py "quoll".

Definition comments_text : pystr :=
  py "# nothing here" ++ [LF] ++ py "   " ++ [LF] ++ py "  # nor here".

(** What the log file of the examples holds: one line per record. *)
Definition log_text (tr : list event) : option pystr :=
  Some (List.concat
          (List.map (fun ev => match ev with
                               | EvLog _ _ _ => py "record" ++ [LF]
                               | _ => []
                               end) tr)).

Definition fs : fsys :=
  <[ [] := Dir ]>
  (<[ [py "home"] := Dir ]>
  (<[ [py "home"; py "inference_20240309_070500.log"] := File (Logged log_text) ]>
  (<[ [py "home"; py "config.yaml"] := File (Text (py "detector_path: md.pt")) ]>
  (<[ [py "home"; py "labels.txt"] := File (Text labels_text) ]>
  (<[ [py "home"; py "empty.txt"] := File (Text comments_text) ]>
  (<[ [py "home"; py "imgs"] := Dir ]>
  (<[ [py "home"; py "imgs"; py "notes.txt"] := File (Text (py "hello")) ]>
     ∅))))))).

Definition st : state := State fs cwd [].

(** A complete configuration. *)
Definition config : gmap pystr pyval :=
  <[ py "detector_path" := str_lit "md.pt" ]>
  (<[ py "classifier_path" := str_lit "awc.pth" ]>
  (<[ py "label_path" := str_lit "labels.txt" ]>
  (<[ py "output_name" := str_lit "from_config" ]> ∅))).

(** The same without [label_path]. *)
Definition config_no_label_path : gmap pystr pyval :=
  delete (py "label_path") config.

(** Only [classifier_path] is given. *)
Definition config_no_detector : gmap pystr pyval :=
  <[ py "classifier_path" := str_lit "awc.pth" ]> ∅.

(** Collaborators that parse every document to [doc], find the images
    [imgs], and run the pipeline without error. *)
Definition world (doc : result pyval) (imgs : list pystr) : collab :=
  Collab (fun _ => doc)
         (fun _ _ _ => Ok imgs)
         (fun _ fs _ => (fs, None))
         (fun _ fs _ => (fs, None)).

Definition args (output : option pystr) : Args :=
  MkArgs (py "imgs") (py "config.yaml") output.

End Demo.


(** ** Further notions *)

(** A loaded document that is no mapping. *)
Definition not_a_mapping (doc : pyval) : Prop :=
  match doc with PyDict _ => False | _ => True end.

(** A configuration value that is no string. *)
Definition not_a_string (v : pyval) : Prop :=
  match v with PyStr _ => False | _ => True end.

(** *** The order of the pipeline-facing events *)

(** How far a run has got with the pipeline. *)
Inductive phase :=
  | Idle        (* nothing built yet *)
  | Built       (* [DetectAndClassify(...)] was called *)
  | Prepared    (* the output directory was asked for *)
  | Predicted.  (* [pipeline.predict(...)] was called *)

(** The events a phase admits next; log records never change the phase. *)
Definition advance (q : phase) (ev : event) : option phase :=
  match ev, q with
  | EvLog _ _ _, _ => Some q
  | EvInit _, Idle => Some Built
  | EvMkdir _ true true, Built => Some Prepared
  | EvPredict _, Built => Some Predicted
  | EvPredict _, Prepared => Some Predicted
  | _, _ => None
  end.

Fixpoint run_protocol (q : phase) (evs : list event) : option phase :=
  match evs with
  | [] => Some q
  | ev :: evs' =>
      match advance q ev with
      | Some q' => run_protocol q' evs'
      | None => None
      end
  end.

(** Started in phase [q], the computation [m] only appends events the
    protocol admits, keeps the working directory, and, when it returns
    normally, ends in a phase of [ok]. *)
Definition moves (q : phase) (ok : phase -> Prop) {A} (m : M A) : Prop :=
  forall st r st',
    m st = (r, st') ->
    st_cwd st' = st_cwd st
    /\ exists new q',
         st_trace st' = st_trace st ++ new
         /\ run_protocol q new = Some q'
         /\ (forall x, r = Ok x -> ok q').

(** A computation that records log records at most. *)
Definition quiet {A} (m : M A) : Prop := forall q, moves q (eq q) m.

Definition is_call (ev : event) : bool :=
  match ev with EvLog _ _ _ => false | _ => true end.

(** The calls a run may make, in the only orders it makes them. *)
Definition protocol_shape (calls_made : list event) : Prop :=
  match calls_made with
  | [] => True
  | [EvInit _] => True
  | [EvInit _; EvMkdir _ true true] => True
  | [EvInit _; EvPredict _] => True
  | [EvInit _; EvMkdir _ true true; EvPredict _] => True
  | _ => False
  end.

(** *** The pipeline stage of a run *)

Definition log_found (images : list pystr) : event :=
  EvLog INFO false
    [Lit (py "Found "); Val (len images); Lit (py " images to process")].

(** The keyword arguments the constructor gets: the two model paths of the
    configuration, the labels, and three settings that fall back on the
    defaults of lines 181-183. *)
Definition init_args_of (d : gmap pystr pyval) (detector classifier : pyval)
    (labels : list pystr) : init_args :=
  InitArgs detector classifier labels
    (default (str_lit "tf_efficientnet_b5.ns_jft_in1k")
       (d !! py "classifier_base"))
    (default (PyFloat (py "0.1")) (d !! py "detection_threshold"))
    (default (PyFloat (py "0.5")) (d !! py "classification_threshold")).

Definition batch_size_of (d : gmap pystr pyval) : pyval :=
  default (PyInt 4) (d !! py "classification_batch_size").

Definition topn_of (d : gmap pystr pyval) : pyval :=
  default (PyInt 1) (d !! py "topn").

(** The parameter summary and the announcement that precede the
    constructor (lines 190-203). *)
Definition log_summary (a : init_args) (batch_size topn output_name : pyval)
  : list event :=
  [EvLog INFO false [rule "="];
   EvLog INFO false [Lit (py "Configuration:")];
   EvLog INFO false [Lit (py "  Detector model: "); Val (ia_detector_path a)];
   EvLog INFO false [Lit (py "  Classifier model: "); Val (ia_classifier_path a)];
   EvLog INFO false [Lit (py "  Detection threshold: ");
                     Val (ia_detection_threshold a)];
   EvLog INFO false [Lit (py "  Classification threshold: ");
                     Val (ia_clas_threshold a)];
   EvLog INFO false [Lit (py "  Classification batch size: "); Val batch_size];
   EvLog INFO false [Lit (py "  Top-N predictions: "); Val topn];
   EvLog INFO false [Lit (py "  Output name: "); Val output_name];
   EvLog INFO false [rule "="];
   EvLog INFO false [Lit (py "Loading models (this may take a moment)...")]].

(** The records between the constructor and the resolution of the output
    name (lines 211-215). *)
Definition log_starting : list event :=
  [EvLog INFO false [Lit (py "Models loaded successfully!")];
   EvLog INFO false [Lit (py "Starting detection and classification...")];
   EvLog INFO false [rule "-"]].

(** The records after [predict] returned (lines 233-235). *)
Definition log_saved (stem : pystr) : list event :=
  [EvLog INFO false [rule "-"];
   EvLog INFO false [Lit (py "Results saved to: "); Lit stem;
                     Lit (py ".csv and "); Lit stem; Lit (py ".json")];
   EvLog INFO false [Lit (py "Done!")]].

(** Everything up to the pipeline is in order: configuration and labels
    load, the image folder is a directory, and discovery finds the images
    [images], at least one. *)
Definition ready (c : collab) (cwd : list pystr) (fs : fsys) (args : Args)
    (d : gmap pystr pyval) (labels images : list pystr) : Prop :=
  config_loads c cwd fs args d
  /\ labels_load cwd fs d labels
  /\ (exists k,
        OS.stat cwd fs (parse (args_image_folder args)) = OS.Found k Dir)
  /\ get_all_image_paths c cwd fs (str (parse (args_image_folder args)))
     = Ok images
  /\ images <> [].

(** Lines 211-235: what the [try] block does once the constructor has
    returned. *)
Definition main_after_init (c : collab) (image_folder : PurePath)
    (image_paths : list pystr) (batch_size topn output_name : pyval) : M unit :=
  logger_info [Lit (py "Models loaded successfully!")];;
  logger_info [Lit (py "Starting detection and classification...")];;
  logger_info [rule "-"];;
  output_name ← resolve_output_stem output_name image_folder;
  call_predict c (PredictArgs image_paths batch_size topn output_name true);;
  logger_info [rule "-"];;
  logger_info [Lit (py "Results saved to: "); Lit output_name; Lit (py ".csv and ");
               Lit output_name; Lit (py ".json")];;
  logger_info [Lit (py "Done!")].

(** How a run ends on the exception [e] (lines 237-245): status 1 after a
    record for an [Exception]; anything else passes through unrecorded. *)
Definition final (e : exn) : result unit :=
  if is_Exception (exn_class e) then Raise (Exn (SystemExit 1) None) else Raise e.

Definition reported (e : exn) : list event :=
  if is_Exception (exn_class e) then [report e] else [].

(** The records of a run up to the constructor. *)
Definition before_init (args : Args) (d : gmap pystr pyval) (path : pystr)
    (labels images : list pystr) (a : init_args) (out : pyval) : list event :=
  [log_loading_config args; log_loading_labels (PyStr path); log_loaded labels;
   log_scanning args; log_found images]
  ++ log_summary a (batch_size_of d) (topn_of d) out.

(** *** How a run can end *)

(** The collaborators raise nothing but [Exception]s. *)
Definition well_behaved (c : collab) : Prop :=
  (forall t e, safe_load c t = Raise e -> is_Exception (exn_class e) = true)
  /\ (forall cwd fs folder e,
        get_all_image_paths c cwd fs folder = Raise e ->
        is_Exception (exn_class e) = true)
  /\ (forall cwd fs a fs' e,
        DetectAndClassify c cwd fs a = (fs', Some e) ->
        is_Exception (exn_class e) = true)
  /\ (forall cwd fs a fs' e,
        predict c cwd fs a = (fs', Some e) ->
        is_Exception (exn_class e) = true).

(** The computation [m] ends in a state of [ok] when it returns, and with
    an exception and a state of [bad] when it raises. *)
Definition ends (ok : state -> Prop) (bad : exn -> state -> Prop) {A} (m : M A)
  : Prop :=
  forall st r st',
    m st = (r, st') ->
    match r with Ok _ => ok st' | Raise e => bad e st' end.

Definition anywhere : state -> Prop := fun _ => True.

(** What the [try] block of [main] may raise: an [Exception], or the
    [SystemExit] of the no-images branch right after its warning. *)
Definition raised (e : exn) (st : state) : Prop :=
  is_Exception (exn_class e) = true
  \/ (e = Exn (SystemExit 0) None /\ last (st_trace st) = Some log_no_images).

Definition log_done : event := EvLog INFO false [Lit (py "Done!")].

(** *** What a run does to the files *)

(** From [fs] to [fs'] nothing was removed or replaced, and what was added
    are directories. *)
Definition grows (fs fs' : fsys) : Prop :=
  fs ⊆ fs'
  /\ forall k n, fs' !! k = Some n -> fs !! k = Some n \/ n = Dir.

(** The pipeline leaves the files as they are. *)
Definition passive (c : collab) : Prop :=
  (forall cwd fs a, fst (DetectAndClassify c cwd fs a) = fs)
  /\ (forall cwd fs a, fst (predict c cwd fs a) = fs).

(** What a reader of a file gets once the records of [tr] are logged
    ([None] when the bytes do not decode). *)
Definition content (d : file_data) (tr : list event) : option pystr :=
  match d with
  | Text t => Some t
  | Undecodable => None
  | Logged render => render tr
  end.

(** A log file that is written as [logging.FileHandler] writes it (opened
    in mode ['a'], one entry per record): what it holds stays, and each
    event adds an entry at its end (an empty one when the event is not a
    log record). *)
Definition appended (render : list event -> option pystr) : Prop :=
  forall tr ev t,
    render tr = Some t -> exists entry, render (tr ++ [ev]) = Some (t ++ entry).

(** From [st] to [st'] the file system grew and the trace was extended. *)
Definition follows (st st' : state) : Prop :=
  grows (st_fs st) (st_fs st')
  /\ exists new, st_trace st' = st_trace st ++ new.

Definition keeps {A} (m : M A) : Prop :=
  forall st r st', m st = (r, st') -> follows st st'.

(** The byte-order mark, as the text of a file decoded as UTF-8 has it. *)
Definition BOM : pychar := 65279.

(** ** The default log file of [setup_logging] (lines 31-33)

    Only the choice of the file name is modelled; the handlers that
    [setup_logging] installs are the logging library's business. *)

(** What [datetime.now()] returns, to the second. *)
Record datetime := DateTime {
  dt_year : N;
  dt_month : N;
  dt_day : N;
  dt_hour : N;
  dt_minute : N;
  dt_second : N }.

(** A date and time of the common era with a four-digit year. *)
Definition four_digit_year (t : datetime) : Prop :=
  1000 <= dt_year t <= 9999
  /\ 1 <= dt_month t <= 12
  /\ 1 <= dt_day t <= 31
  /\ dt_hour t <= 23
  /\ dt_minute t <= 59
  /\ dt_second t <= 59.

Definition digit (d : N) : pychar := 48 + d.

(** The last [width] decimal digits of [n], zero-padded: what [%m], [%d],
    [%H], [%M] and [%S] print with width 2, and [%Y] with width 4 for the
    years above. *)
Fixpoint zero_padded (width : nat) (n : N) : pystr :=
  match width with
  | O => []
  | S w => zero_padded w (n / 10) ++ [digit (n mod 10)]
  end.

(** [t.strftime("%Y%m%d_%H%M%S")] *)
Definition strftime_stamp (t : datetime) : pystr :=
  zero_padded 4 (dt_year t) ++ zero_padded 2 (dt_month t)
  ++ zero_padded 2 (dt_day t) ++ py "_"
  ++ zero_padded 2 (dt_hour t) ++ zero_padded 2 (dt_minute t)
  ++ zero_padded 2 (dt_second t).

(** The file [setup_logging(log_file)] logs to when called at [now]. *)
Definition log_file_of (log_file : option pystr) (now : datetime) : pystr :=
  match log_file with
  | Some f => f
  | None => py "inference_" ++ strftime_stamp now ++ py ".log"
  end.

(** ** Further example worlds *)

Module Cases.

(** A label file saved with a byte-order mark, its first line a comment. *)
Definition bom_text : pystr := BOM :: py "# species" ++ [LF] ++ py "quoll".

(** The demo file system with two more files: one that is not valid UTF-8
    and the label file with the byte-order mark. *)
Definition fs : fsys :=
  <[ [py "home"; py "latin1.txt"] := File Undecodable ]>
  (<[ [py "home"; py "bom.txt"] := File (Text bom_text) ]> Demo.fs).

(** The complete configuration with another [label_path]. *)
Definition config_with_label_path (v : pyval) : gmap pystr pyval :=
  <[ py "label_path" := v ]> Demo.config.

Definition args_with_config (path : string) : Args :=
  MkArgs (py "imgs") (py path) None.

Definition labels : list pystr := [py "quoll"; py "bilby"; py "quoll"].

Definition images : list pystr := [py "imgs/a.jpg"].

(** Collaborators that load the complete configuration and find one image;
    the constructor and [predict] end as given and write nothing. *)
Definition world (init_error predict_error : option exn) : collab :=
  Collab (fun _ => Ok (PyDict Demo.config))
         (fun _ _ _ => Ok images)
         (fun _ fs _ => (fs, init_error))
         (fun _ fs _ => (fs, predict_error)).

(** The constructor arguments of a run in the demo world. *)
Definition built : init_args :=
  init_args_of Demo.config (str_lit "md.pt") (str_lit "awc.pth") labels.

End Cases.

(** * Properties *)

(** ** Strings *)

Lemma pystr_eqb_eq (a b : pystr) : pystr_eqb a b = true <-> a = b.
Proof. unfold pystr_eqb. apply bool_decide_eq_true. Qed.

Lemma pystr_eqb_refl (a : pystr) : pystr_eqb a a = true.
Proof. now apply pystr_eqb_eq. Qed.

Lemma pystr_eqb_neq (a b : pystr) : a <> b -> pystr_eqb a b = false.
Proof. intros H. unfold pystr_eqb. now apply bool_decide_eq_false. Qed.

Lemma lstrip_snoc_keep (s : pystr) (c : pychar) :
  isspace c = false -> lstrip (s ++ [c]) = lstrip s ++ [c].
Proof.
  intros Hc. induction s as [|d s IH]; simpl.
  - now rewrite Hc.
  - destruct (isspace d); [exact IH | reflexivity].
Qed.

Lemma rstrip_cons_keep (c : pychar) (s : pystr) :
  isspace c = false -> rstrip (c :: s) = c :: rstrip s.
Proof.
  intros Hc. unfold rstrip. simpl rev at 2.
  rewrite lstrip_snoc_keep by exact Hc.
  now rewrite rev_app_distr.
Qed.

(** A line is skipped as blank exactly when it holds only whitespace. *)
Lemma strip_blank (s : pystr) : lstrip s = [] -> strip s = [].
Proof. intros H. unfold strip. now rewrite H. Qed.

(** A line whose first non-blank character is [#] is still one after
    stripping. *)
Lemma strip_comment (s rest : pystr) :
  lstrip s = HASH :: rest -> startswith (strip s) [HASH] = true.
Proof.
  intros H. unfold strip. rewrite H.
  rewrite rstrip_cons_keep by reflexivity.
  cbn [startswith]. now rewrite N.eqb_refl.
Qed.

(** ** Running the monad symbolically *)

(** One step of evaluation: the monadic operations are unfolded and the
    state projections computed, so that states stay in the form
    [State fs cwd trace]. *)
Ltac msimpl :=
  progress (unfold mbind, M_bind, mret, M_ret, raise, lift, read_lines,
              yaml_safe_load, Path_exists, Path_is_dir, open_read, sys_exit,
              logger_info, logger_warning, logger_error, logger_exception,
              emit, call_get_all_image_paths;
            cbv beta iota zeta delta [st_fs st_cwd st_trace negb]).

(** ** Label loading *)

(** The loop of [load_labels] appends, in order, the stripped lines that are
    labels. *)
Lemma load_labels_fold (lines : list pystr) (acc : list pystr) :
  fold_left load_labels_step lines acc
  = acc ++ List.filter is_label (List.map strip lines).
Proof.
  revert acc. induction lines as [|l lines IH]; intros acc; simpl.
  - now rewrite app_nil_r.
  - rewrite IH. unfold load_labels_step, is_label.
    destruct (negb (pystr_eqb (strip l) []) && negb (startswith (strip l) [HASH])).
    + now rewrite <- app_assoc.
    + reflexivity.
Qed.

(** What [load_labels] does on a readable text file. *)
Lemma load_labels_text (path : pystr) (st : state) (k : list pystr) (t : pystr) :
  OS.stat (st_cwd st) (st_fs st) (parse path) = OS.Found k (File (Text t)) ->
  load_labels (PyStr path) st =
    (match List.filter is_label (List.map strip (file_lines t)) with
     | [] => Raise (Exn ValueError (Some (py "No labels found in " ++ path)))
     | labels => Ok labels
     end, st).
Proof.
  intros H. destruct st as [fs cwd tr]. cbn [st_fs st_cwd] in H.
  unfold load_labels.
  repeat (msimpl || unfold path_exists || rewrite H).
  rewrite load_labels_fold. cbn [app].
  destruct (List.filter is_label (List.map strip (file_lines t))); reflexivity.
Qed.

Lemma filter_all_false {A} (f : A -> bool) (l : list A) :
  (forall x, In x l -> f x = false) -> List.filter f l = [].
Proof.
  induction l as [|a l IH]; intros H; simpl; [reflexivity|].
  rewrite (H a) by now left. apply IH. intros x Hx. apply H. now right.
Qed.

(** C4: on an existing label file with at least one line that is a label
    once stripped, [load_labels] returns exactly the stripped label lines, in
    file order, repetitions kept, blank and comment lines dropped. *)
Theorem load_labels_file_order
    (path : pystr) (st : state) (k : list pystr) (t : pystr) (line : pystr) :
  OS.stat (st_cwd st) (st_fs st) (parse path) = OS.Found k (File (Text t)) ->
  In line (file_lines t) ->
  strip line <> [] ->
  startswith (strip line) [HASH] = false ->
  load_labels (PyStr path) st
  = (Ok (List.filter is_label (List.map strip (file_lines t))), st).
Proof.
  intros Hstat Hin Hne Hhash.
  rewrite (load_labels_text path st k t Hstat).
  assert (Hl : In (strip line)
                  (List.filter is_label (List.map strip (file_lines t)))).
  { apply filter_In. split.
    - now apply in_map.
    - unfold is_label. rewrite Hhash, pystr_eqb_neq by exact Hne. reflexivity. }
  destruct (List.filter is_label (List.map strip (file_lines t))).
  - destruct Hl.
  - reflexivity.
Qed.

Lemma load_labels_file_order_witness :
  load_labels (str_lit "labels.txt") Demo.st
  = (Ok [py "quoll"; py "bilby"; py "quoll"], Demo.st).
Proof.
  apply (load_labels_file_order (py "labels.txt") Demo.st
           [py "home"; py "labels.txt"] Demo.labels_text (py "bilby" ++ [LF])).
  - vm_compute. reflexivity.
  - vm_compute. tauto.
  - vm_compute. discriminate.
  - vm_compute. reflexivity.
Defined.

(** C5: on an existing label file whose lines are all blank or have [#] as
    first non-blank character, [load_labels] raises a [ValueError] ("No
    labels found") and returns no list. *)
Theorem load_labels_empty_set
    (path : pystr) (st : state) (k : list pystr) (t : pystr) :
  OS.stat (st_cwd st) (st_fs st) (parse path) = OS.Found k (File (Text t)) ->
  (forall line, In line (file_lines t) ->
     lstrip line = [] \/ head (lstrip line) = Some HASH) ->
  load_labels (PyStr path) st
  = (Raise (Exn ValueError (Some (py "No labels found in " ++ path))), st).
Proof.
  intros Hstat Hall.
  rewrite (load_labels_text path st k t Hstat).
  rewrite filter_all_false; [reflexivity|].
  intros x Hx. apply in_map_iff in Hx. destruct Hx as [l [<- Hl]].
  unfold is_label. destruct (Hall l Hl) as [Hb|Hc].
  - rewrite (strip_blank l Hb). reflexivity.
  - destruct (lstrip l) as [|c rest] eqn:E; [discriminate|].
    injection Hc as ->.
    rewrite (strip_comment l rest E). apply andb_false_r.
Qed.

Lemma load_labels_empty_set_witness :
  load_labels (str_lit "empty.txt") Demo.st
  = (Raise (Exn ValueError (Some (py "No labels found in empty.txt"))), Demo.st).
Proof.
  apply (load_labels_empty_set (py "empty.txt") Demo.st
           [py "home"; py "empty.txt"] Demo.comments_text).
  - vm_compute. reflexivity.
  - intros line Hin.
    assert (Hlines : file_lines Demo.comments_text
                     = [py "# nothing here" ++ [LF]; py "   " ++ [LF];
                        py "  # nor here"])
      by (vm_compute; reflexivity).
    rewrite Hlines in Hin.
    destruct Hin as [<-|[<-|[<-|[]]]];
      [right|left|right]; vm_compute; reflexivity.
Defined.

(** ** Configuration loading *)

(** The required-field check on a mapping. *)
Lemma check_required_dict (d : gmap pystr pyval) :
  check_required (PyDict d)
  = match missing_fields d with
    | [] => Ok (PyDict d)
    | missing =>
        Raise (Exn ValueError
                 (Some (py "Missing required config fields: "
                        ++ join (py ", ") missing)))
    end.
Proof.
  unfold check_required, missing_fields, required_fields.
  cbn [comprehension_if List.filter py_not_in py_in].
  destruct (d !! py "detector_path") as [v1|];
    destruct (d !! py "classifier_path") as [v2|]; reflexivity.
Qed.

(** [missing_fields] is the set of required fields without an entry. *)
Lemma missing_fields_spec (d : gmap pystr pyval) (field : pystr) :
  In field (missing_fields d) <-> In field required_fields /\ d !! field = None.
Proof.
  unfold missing_fields. rewrite filter_In.
  now rewrite bool_decide_eq_true.
Qed.

(** What [load_config] does once the file is there and parses. *)
Lemma load_config_loaded (c : collab) (path : pystr) (st : state)
    (k : list pystr) (t : pystr) (doc : pyval) :
  OS.stat (st_cwd st) (st_fs st) (parse path) = OS.Found k (File (Text t)) ->
  safe_load c t = Ok doc ->
  load_config c path st = (check_required doc, st).
Proof.
  intros Hstat Hyaml. destruct st as [fs cwd tr]. cbn [st_fs st_cwd] in Hstat.
  unfold load_config.
  repeat (msimpl || unfold path_exists || rewrite Hstat || rewrite Hyaml).
  reflexivity.
Qed.

(** C3: when the configuration file parses to a mapping, [load_config]
    raises a [ValueError] naming every missing field among [detector_path]
    and [classifier_path] (all of them, in that order, and nothing else) as
    soon as one is missing, and returns the mapping itself when none is. *)
Theorem load_config_missing_fields (c : collab) (path : pystr) (st : state)
    (k : list pystr) (t : pystr) (d : gmap pystr pyval) :
  OS.stat (st_cwd st) (st_fs st) (parse path) = OS.Found k (File (Text t)) ->
  safe_load c t = Ok (PyDict d) ->
  (forall field,
     In field (missing_fields d)
     <-> In field [py "detector_path"; py "classifier_path"]
         /\ d !! field = None)
  /\ (missing_fields d <> [] ->
      load_config c path st
      = (Raise (Exn ValueError
                  (Some (py "Missing required config fields: "
                         ++ join (py ", ") (missing_fields d)))), st))
  /\ (missing_fields d = [] -> load_config c path st = (Ok (PyDict d), st)).
Proof.
  intros Hstat Hyaml.
  rewrite (load_config_loaded c path st k t _ Hstat Hyaml).
  rewrite check_required_dict.
  split; [|split].
  - intros field. apply missing_fields_spec.
  - intros Hne. destruct (missing_fields d); [contradiction|reflexivity].
  - intros ->. reflexivity.
Qed.

Lemma load_config_missing_fields_witness :
  load_config (Demo.world (Ok (PyDict Demo.config_no_detector)) [])
    (py "config.yaml") Demo.st
  = (Raise (Exn ValueError
              (Some (py "Missing required config fields: detector_path"))),
     Demo.st).
Proof.
  destruct (load_config_missing_fields
              (Demo.world (Ok (PyDict Demo.config_no_detector)) [])
              (py "config.yaml") Demo.st
              [py "home"; py "config.yaml"] (py "detector_path: md.pt")
              Demo.config_no_detector) as [_ [Hraise _]].
  - vm_compute. reflexivity.
  - reflexivity.
  - rewrite Hraise.
    + vm_compute. reflexivity.
    + vm_compute. discriminate.
Defined.

(** ** The effective output name *)

(** C8, as the code has it: a non-empty [--output] wins; without one (or
    with an empty one) the configuration's [output_name] is used when the key
    is present, and ["results"] otherwise. *)
Theorem effective_output_name_precedence
    (output : option pystr) (d : gmap pystr pyval) :
  (forall s, output = Some s -> s <> [] ->
     effective_output_name output (PyDict d) = Ok (PyStr s))
  /\ (output = None \/ output = Some [] ->
      forall v, d !! py "output_name" = Some v ->
        effective_output_name output (PyDict d) = Ok v)
  /\ (output = None \/ output = Some [] ->
      d !! py "output_name" = None ->
      effective_output_name output (PyDict d) = Ok (str_lit "results")).
Proof.
  split; [|split].
  - intros s -> Hs. unfold effective_output_name, truthy.
    rewrite pystr_eqb_neq by exact Hs. reflexivity.
  - intros [-> | ->] v Hv; unfold effective_output_name, py_get;
      try change (truthy []) with false; cbv iota; now rewrite Hv.
  - intros [-> | ->] Hv; unfold effective_output_name, py_get;
      try change (truthy []) with false; cbv iota; now rewrite Hv.
Qed.

Lemma effective_output_name_precedence_witness :
  effective_output_name (Some (py "night_run")) (PyDict Demo.config)
  = Ok (str_lit "night_run")
  /\ effective_output_name None (PyDict Demo.config) = Ok (str_lit "from_config")
  /\ effective_output_name None (PyDict Demo.config_no_detector)
     = Ok (str_lit "results").
Proof.
  split; [|split].
  - destruct (effective_output_name_precedence
                (Some (py "night_run")) Demo.config) as [Hcli _].
    apply Hcli; [reflexivity | discriminate].
  - destruct (effective_output_name_precedence None Demo.config)
      as [_ [Hcfg _]].
    apply Hcfg; [now left | vm_compute; reflexivity].
  - destruct (effective_output_name_precedence None Demo.config_no_detector)
      as [_ [_ Hdflt]].
    apply Hdflt; [now left | vm_compute; reflexivity].
Defined.

(** C8, as the specification words it, fails: an explicit but empty
    [--output ''] is supplied and yet not used. *)
Lemma effective_output_name_empty_override :
  effective_output_name (Some []) (PyDict Demo.config) = Ok (str_lit "from_config")
  /\ effective_output_name (Some []) (PyDict Demo.config) <> Ok (PyStr []).
Proof.
  split.
  - vm_compute. reflexivity.
  - vm_compute. discriminate.
Defined.

(** ** Pure paths *)

Lemma split_no_sep (sep : pychar) (s : pystr) :
  ~ In sep s -> split sep s = [s].
Proof.
  induction s as [|c s IH]; intros H; simpl; [reflexivity|].
  destruct (N.eqb_spec c sep) as [->|Hc].
  - exfalso. apply H. now left.
  - rewrite IH; [reflexivity|]. intros Hin. apply H. now right.
Qed.

Lemma split_parts_no_sep (sep : pychar) (s : pystr) :
  Forall (fun x => ~ In sep x) (split sep s).
Proof.
  induction s as [|c s IH]; simpl.
  - constructor; [intros []|constructor].
  - destruct (N.eqb_spec c sep) as [->|Hc].
    + constructor; [intros []|exact IH].
    + destruct (split sep s) as [|w ws].
      * constructor; [|constructor]. intros [H|[]]. congruence.
      * inversion IH as [|? ? Hw Hws]; subst.
        constructor; [|exact Hws]. intros [H|H]; [congruence|tauto].
Qed.

Lemma keep_part_true (x : pystr) :
  keep_part x = true <-> x <> [] /\ x <> [DOT].
Proof.
  unfold keep_part. rewrite andb_true_iff, !negb_true_iff.
  unfold pystr_eqb. now rewrite !bool_decide_eq_false.
Qed.

Lemma splitroot_valid (s : pystr) : valid_root (fst (splitroot s)).
Proof.
  unfold splitroot, valid_root. destruct s as [|c s]; [now left|].
  destruct (c =? SLASH); [|now left].
  destruct (Nat.eqb _ 2); simpl; tauto.
Qed.

(** [parse] always yields a path in normal form. *)
Lemma parse_valid (s : pystr) : valid_path (parse s).
Proof.
  unfold parse. destruct s as [|c s].
  - split; [now left|constructor].
  - pose proof (splitroot_valid (c :: s)) as Hr.
    destruct (splitroot (c :: s)) as [r rel]. split; [exact Hr|].
    cbn [parts]. apply List.Forall_forall. intros x Hx.
    apply filter_In in Hx. destruct Hx as [Hx Hk].
    apply keep_part_true in Hk. destruct Hk as [H1 H2].
    repeat split; try assumption.
    pose proof (split_parts_no_sep SLASH rel) as Hall.
    rewrite List.Forall_forall in Hall. now apply Hall.
Qed.

(** A non-empty name without separator, other than ["."], parses to
    itself. *)
Lemma parse_bare (s : pystr) :
  ~ In SLASH s -> s <> [] -> s <> [DOT] -> parse s = MkPath [] [s].
Proof.
  intros Hs Hne Hdot. unfold parse. destruct s as [|c s]; [contradiction|].
  unfold splitroot. destruct (N.eqb_spec c SLASH) as [->|Hc].
  - exfalso. apply Hs. now left.
  - rewrite split_no_sep by exact Hs. cbn [List.filter].
    assert (Hk : keep_part (c :: s) = true) by now apply keep_part_true.
    now rewrite Hk.
Qed.

(** [with_suffix('')] on a path that has a name drops the last suffix of
    that name and nothing else. *)
Lemma with_suffix_empty (p : PurePath) :
  name p <> [] -> with_suffix p [] = Ok (without_suffix p).
Proof.
  intros Hn. unfold with_suffix, without_suffix.
  cbn [existsb]. change (startswith [] [DOT]) with false.
  change (pystr_eqb [] [DOT]) with false. change (pystr_eqb [] []) with true.
  cbn [negb andb orb].
  rewrite (pystr_eqb_neq _ _ Hn).
  f_equal. f_equal. f_equal. f_equal.
  unfold suffix, name_suffix, stem_of.
  destruct (rfind DOT (name p)) as [i|] eqn:Hi.
  - destruct ((0 <? i)%nat && (i <? length (name p) - 1)%nat) eqn:Hc.
    + apply andb_true_iff in Hc. destruct Hc as [H0 H1].
      apply Nat.ltb_lt in H0, H1.
      rewrite pystr_eqb_neq.
      * rewrite length_drop, app_nil_r. f_equal. lia.
      * intros Hd. apply (f_equal (@length _)) in Hd.
        rewrite length_drop in Hd. simpl in Hd. lia.
    + rewrite pystr_eqb_refl. apply app_nil_r.
  - rewrite pystr_eqb_refl. apply app_nil_r.
Qed.

Lemma last_snoc {A} (l : list A) (x d : A) : List.last (l ++ [x]) d = x.
Proof. apply last_last. Qed.

Lemma name_without_suffix (p : PurePath) :
  name (without_suffix p) = stem_of (name p).
Proof. unfold name, without_suffix. cbn [parts]. apply last_last. Qed.

Lemma parent_without_suffix (p : PurePath) :
  parent (without_suffix p) = parent p.
Proof.
  unfold parent, without_suffix. cbn [parts root].
  now rewrite removelast_last.
Qed.

Lemma join_cons_cons (sep x y : pystr) (l : list pystr) :
  join sep (x :: y :: l) = x ++ sep ++ join sep (y :: l).
Proof. reflexivity. Qed.

(** Only the empty relative path is written ["."]. *)
Lemma str_dot (p : PurePath) :
  valid_path p -> (str p = [DOT] <-> root p = [] /\ parts p = []).
Proof.
  intros [Hr Hp]. destruct p as [r ps]. cbn [root parts] in *. split.
  - unfold str. cbn [root parts]. intros H.
    destruct Hr as [-> | [-> | ->]]; [|discriminate H|discriminate H].
    destruct ps as [|x ps]; [tauto|]. exfalso.
    inversion Hp as [|? ? [Hx1 [Hx2 Hx3]] Hps]; subst.
    destruct ps as [|y ps].
    + cbn in H. contradiction.
    + rewrite join_cons_cons in H. cbn [app] in H.
      destruct x as [|c x]; [contradiction|].
      cbn in H. injection H as _ H. destruct x; discriminate H.
  - intros [-> ->]. reflexivity.
Qed.

Lemma removelast_valid (ps : list pystr) :
  Forall valid_part ps -> Forall valid_part (removelast ps).
Proof.
  intros H. apply List.Forall_forall. intros x Hx.
  rewrite List.Forall_forall in H. apply H.
  revert Hx. clear. induction ps as [|a ps IH]; [intros []|].
  destruct ps as [|b ps]; [intros []|].
  cbn [removelast]. intros [<-|Hx]; [now left|right; now apply IH].
Qed.

Lemma parent_valid (p : PurePath) : valid_path p -> valid_path (parent p).
Proof. intros [Hr Hp]. split; [exact Hr|]. now apply removelast_valid. Qed.

(** ** Path resolution and directory creation *)




(** [refused] never answers with an entry. *)
Lemma refused_shape (p : PurePath) (r : OS.lookup_result) :
  OS.refused p = Some r ->
  r = OS.ENAMETOOLONG
  \/ r = OS.Rejected UnicodeEncodeError
  \/ r = OS.Rejected ValueError.
Proof.
  unfold OS.refused, OS.fspath_error.
  destruct (negb (forallb OS.encodable (str p))); [intros [= <-]; tauto|].
  destruct (existsb (N.eqb 0) (str p)); [intros [= <-]; tauto|].
  destruct (_ <=? _)%nat; [|discriminate]. intros [= <-]. now left.
Qed.




Section FileSystem.
Variable cwd : list pystr.

Lemma walk_nil (fs : fsys) (cur : list pystr) :
  OS.walk fs cur [] = match fs !! cur with
                      | Some n => OS.Found cur n
                      | None => OS.ENOENT
                      end.
Proof. reflexivity. Qed.

Lemma walk_cons (fs : fsys) (cur : list pystr) (c : pystr) (cs : list pystr) :
  OS.walk fs cur (c :: cs)
  = match fs !! cur with
    | Some Dir =>
        if (OS.NAME_MAX <? OS.byte_length c)%nat then OS.ENAMETOOLONG
        else OS.walk fs (OS.step cur c) cs
    | Some (File _) => OS.ENOTDIR
    | None => OS.ENOENT
    end.
Proof. cbn [OS.walk]. destruct (fs !! cur) as [[|]|]; reflexivity. Qed.

(** Resolving one more component. *)
Lemma walk_snoc (fs : fsys) (cs : list pystr) (c : pystr) :
  forall cur,
    OS.walk fs cur (cs ++ [c])
    = match OS.walk fs cur cs with
      | OS.Found d Dir =>
          if (OS.NAME_MAX <? OS.byte_length c)%nat then OS.ENAMETOOLONG
          else match fs !! OS.step d c with
               | Some n => OS.Found (OS.step d c) n
               | None => OS.ENOENT
               end
      | OS.Found d (File _) => OS.ENOTDIR
      | r => r
      end.
Proof.
  induction cs as [|a cs IH]; intros cur.
  - cbn [app]. rewrite walk_cons, !walk_nil.
    destruct (fs !! cur) as [[|]|]; reflexivity.
  - cbn [app]. rewrite !walk_cons.
    destruct (fs !! cur) as [[|]|]; [|reflexivity|reflexivity].
    destruct (OS.NAME_MAX <? OS.byte_length a)%nat; [reflexivity|apply IH].
Qed.



Lemma step_plain (cur : list pystr) (c : pystr) :
  OS.special c = false -> OS.step cur c = cur ++ [c].
Proof.
  unfold OS.special, OS.step. intros H.
  apply orb_false_iff in H. destruct H as [H1 H3].
  now rewrite H1, H3.
Qed.

Lemma removelast_snoc {A} (l : list A) (x : A) : removelast (l ++ [x]) = l.
Proof. apply removelast_last. Qed.

Lemma match_snoc {A B} (l : list A) (x : A) (a b : B) :
  match l ++ [x] with [] => a | _ :: _ => b end = b.
Proof. destruct l; reflexivity. Qed.


Lemma stat_found (fs : fsys) (p : PurePath) (k : list pystr) (n : node) :
  OS.stat cwd fs p = OS.Found k n ->
  OS.refused p = None
  /\ OS.walk fs (OS.start cwd p) (parts p) = OS.Found k n.
Proof.
  unfold OS.stat. destruct (OS.refused p) as [r|] eqn:E; [|now split].
  intros ->. destruct (refused_shape _ _ E) as [H|[H|H]]; discriminate.
Qed.


(** When [os.mkdir] succeeds. *)
Lemma os_mkdir_inl (fs fs' : fsys) (r : pystr) (ps : list pystr) (c : pystr) :
  OS.mkdir cwd fs (MkPath r (ps ++ [c])) = inl fs' ->
  exists d,
    OS.refused (MkPath r (ps ++ [c])) = None
    /\ OS.walk fs (OS.start cwd (MkPath r (ps ++ [c]))) ps = OS.Found d Dir
    /\ OS.special c = false
    /\ (OS.NAME_MAX <? OS.byte_length c)%nat = false
    /\ fs !! (d ++ [c]) = None
    /\ fs' = <[d ++ [c] := Dir]> fs.
Proof.
  unfold OS.mkdir. destruct (OS.refused _); [discriminate|].
  cbn [parts]. rewrite removelast_snoc, last_snoc.
  destruct (OS.walk fs _ ps) as [d [|fd]| | | |]; try discriminate.
  - rewrite match_snoc.
    destruct (OS.special c); [discriminate|].
    destruct (_ <? _)%nat; [discriminate|].
    destruct (fs !! (d ++ [c])) eqn:El; [discriminate|].
    intros [= <-]. now exists d.
  - now rewrite match_snoc.
Qed.

Lemma os_mkdir_nil (fs : fsys) (r : pystr) :
  forall fs', OS.mkdir cwd fs (MkPath r []) <> inl fs'.
Proof.
  intros fs'. unfold OS.mkdir. destruct (OS.refused _); [discriminate|].
  cbn [parts removelast].
  destruct (OS.walk fs _ []) as [d [|fd]| | | |]; discriminate.
Qed.



Lemma mkdir_failed_same (fs fs' : fsys) (p : PurePath) (exist_ok : bool)
    (c : exc_class) (oe : option exn) :
  mkdir_failed cwd fs p exist_ok c = (fs', oe) -> fs' = fs.
Proof.
  unfold mkdir_failed. destruct (is_OSError c && exist_ok).
  - destruct (is_dir cwd fs p) as [[|]|e]; now intros [= <- _].
  - now intros [= <- _].
Qed.


Lemma mkdir_parents_eq (r : pystr) (rparts : list pystr) (exist_ok : bool)
    (fs : fsys) :
  mkdir_parents cwd r rparts exist_ok fs
  = let p := MkPath r (rev rparts) in
    match OS.mkdir cwd fs p with
    | inl fs' => (fs', None)
    | inr FileNotFoundError =>
        match rparts with
        | [] => (fs, Some (Exn FileNotFoundError None))
        | _ :: rparent =>
            match mkdir_parents cwd r rparent true fs with
            | (fs1, None) => mkdir_once cwd fs1 p exist_ok
            | (fs1, Some e) => (fs1, Some e)
            end
        end
    | inr c => mkdir_failed cwd fs p exist_ok c
    end.
Proof. destruct rparts; reflexivity. Qed.



(** On a path that is there, file or directory, [os.mkdir] fails with
    [FileExistsError]. *)
Lemma os_mkdir_existing (fs : fsys) (p : PurePath) (k : list pystr) (n : node) :
  OS.stat cwd fs p = OS.Found k n ->
  OS.mkdir cwd fs p = inr FileExistsError.
Proof.
  intros H. apply stat_found in H. destruct H as [Href Hw].
  unfold OS.mkdir. rewrite Href. destruct p as [r ps]. cbn [parts] in *.
  destruct ps as [|c ps0 _] using rev_ind.
  - cbn [removelast]. rewrite Hw. now destruct n.
  - revert Hw. rewrite walk_snoc, removelast_snoc, last_snoc.
    destruct (OS.walk fs _ ps0) as [d [|fd]| | | |]; try discriminate.
    rewrite match_snoc.
    destruct (_ <? _)%nat; [discriminate|].
    destruct (fs !! OS.step d c) as [m|] eqn:E; [|discriminate]. intros _.
    destruct (OS.special c) eqn:Hc; [reflexivity|].
    rewrite (step_plain _ _ Hc) in E. now rewrite E.
Qed.





End FileSystem.

Section Creation.
Variable cwd : list pystr.












End Creation.

(** ** Writing a path and reading it back *)

Lemma split_app_sep (sep : pychar) (x rest : pystr) :
  ~ In sep x -> split sep (x ++ sep :: rest) = x :: split sep rest.
Proof.
  induction x as [|c x IH]; intros H; cbn [app split].
  - now rewrite N.eqb_refl.
  - destruct (N.eqb_spec c sep) as [->|Hc].
    + exfalso. apply H. now left.
    + rewrite IH; [reflexivity|]. intros Hin. apply H. now right.
Qed.

Lemma split_join (sep : pychar) (xs : list pystr) :
  xs <> [] -> Forall (fun x => ~ In sep x) xs ->
  split sep (join [sep] xs) = xs.
Proof.
  induction xs as [|x xs IH]; intros Hne Hall; [contradiction|].
  inversion Hall as [|? ? Hx Hxs]; subst.
  destruct xs as [|y xs].
  - cbn [join]. now apply split_no_sep.
  - rewrite join_cons_cons. cbn [app]. rewrite split_app_sep by exact Hx.
    rewrite IH; [reflexivity|discriminate|exact Hxs].
Qed.

Lemma filter_all_true {A} (f : A -> bool) (l : list A) :
  Forall (fun x => f x = true) l -> List.filter f l = l.
Proof.
  induction 1 as [|x l Hx Hl IH]; cbn [List.filter]; [reflexivity|].
  now rewrite Hx, IH.
Qed.

Lemma valid_parts_kept (ps : list pystr) :
  Forall valid_part ps -> List.filter keep_part ps = ps.
Proof.
  intros H. apply filter_all_true. revert H. apply List.Forall_impl.
  intros x [H1 [H2 _]]. now apply keep_part_true.
Qed.

Lemma valid_parts_no_slash (ps : list pystr) :
  Forall valid_part ps -> Forall (fun x => ~ In SLASH x) ps.
Proof. apply List.Forall_impl. now intros x [_ [_ H]]. Qed.

(** The text of a non-empty list of components starts with a character of
    the first component. *)
Lemma join_valid_head (x : pystr) (xs : list pystr) :
  valid_part x ->
  exists c rest, join [SLASH] (x :: xs) = c :: rest /\ c <> SLASH.
Proof.
  intros [Hne [_ Hs]]. destruct x as [|c x]; [contradiction|].
  assert (c <> SLASH) by (intros ->; apply Hs; now left).
  destruct xs as [|y xs].
  - now exists c, x.
  - rewrite join_cons_cons. cbn [app]. now eexists c, _.
Qed.

(** [parse] undoes [str] on paths in normal form. *)
Lemma parse_str (p : PurePath) : valid_path p -> parse (str p) = p.
Proof.
  destruct p as [r ps]. intros [Hr Hps]. cbn [root parts] in *.
  destruct ps as [|x xs].
  - destruct Hr as [-> | [-> | ->]]; vm_compute; reflexivity.
  - inversion Hps as [|? ? Hx Hxs]; subst.
    destruct (join_valid_head x xs Hx) as [c [rest [Hj Hc]]].
    assert (Hsplit : List.filter keep_part (split SLASH (join [SLASH] (x :: xs)))
                     = x :: xs).
    { rewrite split_join; [now apply valid_parts_kept|discriminate|].
      now apply valid_parts_no_slash. }
    apply N.eqb_neq in Hc.
    destruct Hr as [-> | [-> | ->]]; unfold str; cbn [root parts app].
    + unfold parse. rewrite Hj. unfold splitroot. rewrite Hc.
      rewrite <- Hj. now rewrite Hsplit.
    + unfold parse, splitroot. rewrite N.eqb_refl.
      cbn [lstrip_char]. rewrite N.eqb_refl, Hj. cbn [lstrip_char].
      rewrite Hc.
      replace (length (SLASH :: c :: rest) - length (c :: rest))%nat
        with 1%nat by (cbn [length]; lia).
      cbn [Nat.eqb]. rewrite <- Hj. now rewrite Hsplit.
    + unfold parse, splitroot. rewrite N.eqb_refl.
      cbn [lstrip_char]. rewrite !N.eqb_refl, Hj. cbn [lstrip_char].
      rewrite Hc.
      replace (length (SLASH :: SLASH :: c :: rest) - length (c :: rest))%nat
        with 2%nat by (cbn [length]; lia).
      cbn [Nat.eqb]. rewrite <- Hj. now rewrite Hsplit.
Qed.

(** ** Output-stem resolution *)

Lemma stem_suffix (n : pystr) : stem_of n ++ name_suffix n = n.
Proof.
  unfold stem_of, name_suffix. destruct (rfind DOT n) as [i|].
  - destruct ((0 <? i)%nat && (i <? length n - 1)%nat).
    + apply take_drop.
    + apply app_nil_r.
  - apply app_nil_r.
Qed.


Lemma stem_not_nil (n : pystr) : n <> [] -> stem_of n <> [].
Proof.
  intros Hn. unfold stem_of. destruct (rfind DOT n) as [i|]; [|exact Hn].
  destruct ((0 <? i)%nat && (i <? length n - 1)%nat) eqn:Hc; [|exact Hn].
  apply andb_true_iff in Hc. destruct Hc as [H0 H1].
  apply Nat.ltb_lt in H0, H1.
  intros E. apply (f_equal (@length _)) in E.
  rewrite length_take in E. simpl in E. lia.
Qed.

Lemma stem_no_slash (n : pystr) : ~ In SLASH n -> ~ In SLASH (stem_of n).
Proof.
  intros Hn Hin. apply Hn. rewrite <- (stem_suffix n). apply in_or_app. now left.
Qed.

Lemma name_valid (p : PurePath) :
  valid_path p -> parts p <> [] -> valid_part (name p).
Proof.
  intros [_ Hps] Hne. rewrite List.Forall_forall in Hps. apply Hps.
  unfold name. destruct (exists_last Hne) as [l [x ->]].
  rewrite last_snoc. apply in_or_app. right. now left.
Qed.

Lemma name_nil (p : PurePath) :
  valid_path p -> (name p = [] <-> parts p = []).
Proof.
  intros Hv. split.
  - intros Hn. destruct (parts p) as [|x xs] eqn:E; [reflexivity|].
    assert (Hne : parts p <> []) by (rewrite E; discriminate).
    destruct (name_valid p Hv Hne) as [H _]. contradiction.
  - unfold name. now intros ->.
Qed.

(** Lines 218-223 unfolded: a path without name is refused; otherwise the
    branch is chosen by the text of the parent. *)
Lemma resolve_output_stem_eq (requested : pystr) (folder : PurePath) (st : state) :
  resolve_output_stem (PyStr requested) folder st
  = let p := parse requested in
    if pystr_eqb (name p) [] then (Raise (Exn ValueError None), st)
    else if pystr_eqb (str (parent p)) [DOT]
    then (Ok (str (joinpath folder (stem_of (name p)))), st)
    else let '(r, st') := Path_mkdir (parent p) true true st in
         (match r with
          | Ok _ => Ok (str (without_suffix p))
          | Raise e => Raise e
          end, st').
Proof.
  destruct st as [fs cwd tr]. unfold resolve_output_stem, Path. msimpl.
  destruct (pystr_eqb (name (parse requested)) []) eqn:Hn.
  - apply pystr_eqb_eq in Hn. unfold with_suffix.
    cbn [existsb]. change (startswith [] [DOT]) with false.
    change (pystr_eqb [] [DOT]) with false. change (pystr_eqb [] []) with true.
    cbn [negb andb orb]. rewrite Hn. reflexivity.
  - assert (Hne : name (parse requested) <> []).
    { intros E. rewrite E in Hn. discriminate. }
    rewrite (with_suffix_empty _ Hne).
    rewrite parent_without_suffix, name_without_suffix.
    destruct (pystr_eqb (str (parent (parse requested))) [DOT]); [reflexivity|].
    unfold Path_mkdir. cbv beta iota zeta.
    destruct (mkdir_parents _ _ _ _ _) as [fs' [e|]]; reflexivity.
Qed.

Lemma joinpath_name (folder : PurePath) (m : pystr) :
  valid_part m -> joinpath folder m = MkPath (root folder) (parts folder ++ [m]).
Proof.
  intros [H1 [H2 H3]]. unfold joinpath. now rewrite parse_bare.
Qed.


Lemma stem_valid (n : pystr) :
  valid_part n -> stem_of n <> [DOT] -> valid_part (stem_of n).
Proof.
  intros [H1 [_ H3]] Hd. repeat split.
  - now apply stem_not_nil.
  - exact Hd.
  - now apply stem_no_slash.
Qed.

Lemma without_suffix_valid (p : PurePath) :
  valid_path p -> parts p <> [] -> stem_of (name p) <> [DOT] ->
  valid_path (without_suffix p).
Proof.
  intros Hv Hne Hd. pose proof (name_valid p Hv Hne) as Hn.
  destruct Hv as [Hr Hps]. split; [exact Hr|]. cbn [parts without_suffix].
  apply Forall_app. split.
  - now apply removelast_valid.
  - constructor; [|constructor]. now apply stem_valid.
Qed.




(** C10: the requested name ["./results"] takes the bare-file-name branch,
    for every image folder and in every state: the stem is the image folder
    joined with ["results"], and the state (file system and trace) is left
    as it was, so no directory is created. *)
Theorem dot_slash_results_is_bare (folder : PurePath) (st : state) :
  resolve_output_stem (str_lit "./results") folder st
  = (Ok (str (joinpath folder (py "results"))), st)
  /\ joinpath folder (py "results")
     = MkPath (root folder) (parts folder ++ [py "results"]).
Proof.
  split.
  - unfold str_lit. rewrite resolve_output_stem_eq. cbv zeta.
    replace (parse (py "./results")) with (MkPath [] [py "results"])
      by (vm_compute; reflexivity).
    cbn [name parts List.last parent removelast root].
    replace (pystr_eqb (py "results") []) with false by (vm_compute; reflexivity).
    replace (stem_of (py "results")) with (py "results")
      by (vm_compute; reflexivity).
    reflexivity.
  - apply joinpath_name. repeat split; vm_compute; intuition discriminate.
Qed.

(** C9, as the code has it: the final component of the resolved stem is the
    final component of the requested name without its last suffix; earlier
    suffixes stay, so the stem is suffix-free only when that component had at
    most one. *)
Theorem stem_drops_last_suffix
    (requested : pystr) (folder : PurePath) (st st' : state) (s : pystr) :
  valid_path folder ->
  resolve_output_stem (PyStr requested) folder st = (Ok s, st') ->
  stem_of (name (parse requested)) <> [DOT] ->
  name (parse s) = stem_of (name (parse requested))
  /\ stem_of (name (parse requested)) ++ name_suffix (name (parse requested))
     = name (parse requested)
  /\ suffix (parse s) = name_suffix (stem_of (name (parse requested))).
Proof.
  intros Hfolder Hres Hdot.
  pose proof (parse_valid requested) as Hv.
  rewrite resolve_output_stem_eq in Hres. cbv zeta in Hres.
  destruct (pystr_eqb (name (parse requested)) []) eqn:Hn; [discriminate|].
  assert (Hparts : parts (parse requested) <> []).
  { intros E. apply (name_nil _ Hv) in E. rewrite E in Hn. discriminate. }
  assert (Hname : name (parse s) = stem_of (name (parse requested))).
  { destruct (pystr_eqb (str (parent (parse requested))) [DOT]).
    - injection Hres as <- _.
      pose proof (stem_valid _ (name_valid _ Hv Hparts) Hdot) as Hm.
      rewrite (joinpath_name folder _ Hm).
      rewrite parse_str.
      + unfold name. cbn [parts]. apply last_snoc.
      + destruct Hfolder as [Hr Hps]. split; [exact Hr|].
        cbn [parts]. apply Forall_app. split; [exact Hps|].
        constructor; [exact Hm|constructor].
    - destruct (Path_mkdir _ true true st) as [[u|e] st1]; [|discriminate].
      injection Hres as <- _.
      rewrite parse_str by now apply without_suffix_valid.
      apply name_without_suffix. }
  split; [exact Hname|]. split; [apply stem_suffix|].
  unfold suffix. now rewrite Hname.
Qed.

Lemma stem_drops_last_suffix_witness :
  name (parse (py "imgs/a.tar")) = py "a.tar"
  /\ py "a.tar" ++ py ".gz" = py "a.tar.gz"
  /\ suffix (parse (py "imgs/a.tar")) = py ".tar".
Proof.
  apply (stem_drops_last_suffix (py "a.tar.gz") (parse (py "imgs"))
           Demo.st Demo.st (py "imgs/a.tar")).
  - apply parse_valid.
  - vm_compute. reflexivity.
  - vm_compute. discriminate.
Defined.

(** C9, as the specification words it, fails: for ["a.tar.gz"] the stem
    still carries the suffix [".tar"]. *)
Lemma stem_keeps_earlier_suffix :
  resolve_output_stem (str_lit "a.tar.gz") (parse (py "imgs")) Demo.st
  = (Ok (py "imgs/a.tar"), Demo.st)
  /\ suffix (parse (py "imgs/a.tar")) = py ".tar"
  /\ suffix (parse (py "imgs/a.tar")) <> [].
Proof.
  repeat split; vm_compute; (reflexivity || discriminate).
Defined.

(** ** Whole runs *)

Section Runs.
Variable c : collab.
Variable args : Args.
Variable cwd : list pystr.
Variable fs : fsys.

Lemma stat_exists (p : PurePath) (k : list pystr) (n : node) :
  OS.stat cwd fs p = OS.Found k n -> path_exists cwd fs p = Ok true.
Proof. unfold path_exists. now intros ->. Qed.

Lemma stat_is_dir (p : PurePath) (k : list pystr) :
  OS.stat cwd fs p = OS.Found k Dir -> is_dir cwd fs p = Ok true.
Proof. unfold is_dir. now intros ->. Qed.

Lemma load_config_run (d : gmap pystr pyval) (tr : list event) :
  config_loads c cwd fs args d ->
  load_config c (args_config args) (State fs cwd tr)
  = (Ok (PyDict d), State fs cwd tr).
Proof.
  intros [k [t [Hstat [Hyaml Hmiss]]]].
  rewrite (load_config_loaded c _ (State fs cwd tr) k t (PyDict d) Hstat Hyaml).
  now rewrite check_required_dict, Hmiss.
Qed.

Lemma load_labels_run (path : pystr) (k : list pystr) (t : pystr)
    (tr : list event) :
  OS.stat cwd fs (parse path) = OS.Found k (File (Text t)) ->
  List.filter is_label (List.map strip (file_lines t)) <> [] ->
  load_labels (PyStr path) (State fs cwd tr)
  = (Ok (List.filter is_label (List.map strip (file_lines t))),
     State fs cwd tr).
Proof.
  intros Hstat Hne.
  rewrite (load_labels_text path (State fs cwd tr) k t Hstat).
  destruct (List.filter is_label (List.map strip (file_lines t)));
    [contradiction|reflexivity].
Qed.

(** C6: when configuration and labels load, the image folder is a
    directory and discovery finds no image in it, the run logs the warning
    and ends with exit status 0; neither the pipeline constructor nor its
    predict operation is called, and the file system is left alone. *)
Theorem no_images_clean_exit (tr : list event) (d : gmap pystr pyval)
    (labels : list pystr) (k : list pystr) :
  config_loads c cwd fs args d ->
  labels_load cwd fs d labels ->
  OS.stat cwd fs (parse (args_image_folder args)) = OS.Found k Dir ->
  get_all_image_paths c cwd fs (str (parse (args_image_folder args))) = Ok [] ->
  exists path,
    d !! py "label_path" = Some (PyStr path)
    /\ main c args (State fs cwd tr)
       = (Raise (Exn (SystemExit 0) None),
          State fs cwd
            (tr ++ [log_loading_config args; log_loading_labels (PyStr path);
                    log_loaded labels; log_scanning args; log_no_images]))
    /\ exit_status (fst (main c args (State fs cwd tr))) = 0%Z
    /\ calls is_predict (st_trace (snd (main c args (State fs cwd tr))))
       = calls is_predict tr
    /\ calls is_init (st_trace (snd (main c args (State fs cwd tr))))
       = calls is_init tr.
Proof.
  intros Hcfg [path [kl [t [Hlp [Hstat [Hlabels Hne]]]]]] Hdir Hnone.
  exists path. split; [exact Hlp|].
  assert (Hrun : main c args (State fs cwd tr)
       = (Raise (Exn (SystemExit 0) None),
          State fs cwd
            (tr ++ [log_loading_config args; log_loading_labels (PyStr path);
                    log_loaded labels; log_scanning args; log_no_images]))).
  { unfold main, main_try. msimpl.
    rewrite (load_config_run d _ Hcfg). cbv beta iota zeta.
    unfold py_getitem. rewrite Hlp. cbv beta iota zeta.
    rewrite (load_labels_run path kl t _ Hstat) by now rewrite Hlabels.
    cbv beta iota zeta.
    rewrite (stat_exists _ _ _ Hdir), (stat_is_dir _ _ Hdir).
    cbn [negb]. rewrite Hnone. cbv beta iota zeta.
    unfold main_except. cbn [exn_class is_FileNotFoundError is_ValueError
                               is_Exception].
    rewrite Hlabels, <- !app_assoc. reflexivity. }
  rewrite Hrun. cbn [fst snd exit_status exn_class st_trace].
  split; [reflexivity|]. split; [reflexivity|].
  unfold calls. rewrite !List.filter_app. cbn [List.filter is_predict is_init
    log_loading_config log_loading_labels log_loaded log_scanning log_no_images].
  now rewrite !app_nil_r.
Qed.

(** C2: a configuration that has [detector_path] and [classifier_path] but
    no [label_path] passes [load_config]; the run then fails on the lookup
    with a [KeyError], which is reported as an unexpected error (with
    traceback), not as a configuration error; the exit status is 1. *)
Theorem missing_label_path_unexpected (tr : list event)
    (d : gmap pystr pyval) :
  config_loads c cwd fs args d ->
  d !! py "label_path" = None ->
  let e := Exn KeyError (Some (py "'label_path'")) in
  main c args (State fs cwd tr)
  = (Raise (Exn (SystemExit 1) None),
     State fs cwd
       (tr ++ [log_loading_config args;
               EvLog ERROR true [Lit (py "Unexpected error: "); ExcText e]]))
  /\ exit_status (fst (main c args (State fs cwd tr))) = 1%Z
  /\ classify e = UnexpectedError.
Proof.
  intros Hcfg Hlp e.
  assert (Hrun : main c args (State fs cwd tr)
    = (Raise (Exn (SystemExit 1) None),
       State fs cwd
         (tr ++ [log_loading_config args;
                 EvLog ERROR true [Lit (py "Unexpected error: "); ExcText e]]))).
  { unfold main, main_try. msimpl.
    rewrite (load_config_run d _ Hcfg). cbv beta iota zeta.
    unfold py_getitem. rewrite Hlp. cbv beta iota zeta.
    unfold main_except. cbn [exn_class is_FileNotFoundError is_ValueError
                               is_Exception].
    msimpl. rewrite <- !app_assoc. reflexivity. }
  rewrite Hrun. repeat split.
Qed.

(** *** The causes the taxonomy names *)

Lemma main_except_reports (e : exn) (st : state) :
  is_Exception (exn_class e) = true ->
  main_except e st
  = (Raise (Exn (SystemExit 1) None),
     State (st_fs st) (st_cwd st) (st_trace st ++ [report e])).
Proof.
  intros He. destruct st as [fs0 cwd0 tr0].
  unfold main_except, report, classify.
  destruct (is_FileNotFoundError (exn_class e)); [reflexivity|].
  destruct (is_ValueError (exn_class e)); [reflexivity|].
  now rewrite He.
Qed.

Lemma main_reports (tr : list event) (e : exn) (st' : state) :
  main_try c args (State fs cwd tr) = (Raise e, st') ->
  is_Exception (exn_class e) = true ->
  main c args (State fs cwd tr)
  = (Raise (Exn (SystemExit 1) None),
     State (st_fs st') (st_cwd st') (st_trace st' ++ [report e])).
Proof.
  intros Htry He. unfold main. rewrite Htry. now apply main_except_reports.
Qed.

Lemma classify_spec (e : exn) :
  (classify e = FileNotFound <-> exn_class e = FileNotFoundError)
  /\ (classify e = ConfigurationError
      <-> exn_class e = ValueError \/ exn_class e = UnicodeDecodeError
          \/ exn_class e = UnicodeEncodeError).
Proof.
  unfold classify. destruct (exn_class e); cbn; split; split;
    try discriminate; try tauto; intros [H|[H|H]]; discriminate.
Qed.

(** [exists] and [is_dir] raise on one cause only: a name or a path of too
    many bytes, an [OSError] of no more specific class. *)
Lemma path_exists_raises (p : PurePath) (e : exn) :
  path_exists cwd fs p = Raise e ->
  e = Exn OSError None /\ OS.stat cwd fs p = OS.ENAMETOOLONG.
Proof.
  unfold path_exists.
  destruct (OS.stat cwd fs p) as [k n| | | |x]; try discriminate.
  now intros [= <-].
Qed.

Lemma config_path_refused (tr : list event) (e : exn) :
  path_exists cwd fs (parse (args_config args)) = Raise e ->
  main_try c args (State fs cwd tr)
  = (Raise e, State fs cwd (tr ++ [log_loading_config args])).
Proof.
  intros H. unfold main_try, load_config. msimpl. now rewrite H.
Qed.

Lemma config_file_missing (tr : list event) :
  path_exists cwd fs (parse (args_config args)) = Ok false ->
  main_try c args (State fs cwd tr)
  = (Raise (Exn FileNotFoundError
              (Some (py "Config file not found: " ++ args_config args))),
     State fs cwd (tr ++ [log_loading_config args])).
Proof.
  intros H. unfold main_try, load_config. msimpl. now rewrite H.
Qed.

Lemma label_file_missing (tr : list event) (d : gmap pystr pyval)
    (path : pystr) :
  config_loads c cwd fs args d ->
  d !! py "label_path" = Some (PyStr path) ->
  path_exists cwd fs (parse path) = Ok false ->
  main_try c args (State fs cwd tr)
  = (Raise (Exn FileNotFoundError
              (Some (py "Labels file not found: " ++ path))),
     State fs cwd
       (tr ++ [log_loading_config args; log_loading_labels (PyStr path)])).
Proof.
  intros Hcfg Hlp H. unfold main_try. msimpl.
  rewrite (load_config_run d _ Hcfg). cbv beta iota zeta.
  unfold py_getitem. rewrite Hlp. cbv beta iota zeta.
  unfold load_labels. msimpl. rewrite H. cbn [negb].
  now rewrite <- !app_assoc.
Qed.

Lemma main_try_to_folder (tr : list event) (d : gmap pystr pyval)
    (labels : list pystr) :
  config_loads c cwd fs args d ->
  labels_load cwd fs d labels ->
  path_exists cwd fs (parse (args_image_folder args)) = Ok false
  \/ (path_exists cwd fs (parse (args_image_folder args)) = Ok true
      /\ is_dir cwd fs (parse (args_image_folder args)) = Ok false) ->
  exists path,
    d !! py "label_path" = Some (PyStr path)
    /\ main_try c args (State fs cwd tr)
       = (Raise
            (match path_exists cwd fs (parse (args_image_folder args)) with
             | Ok false =>
                 Exn FileNotFoundError
                   (Some (py "Image folder not found: "
                          ++ args_image_folder args))
             | _ =>
                 Exn ValueError
                   (Some (py "Not a directory: " ++ args_image_folder args))
             end),
          State fs cwd
            (tr ++ [log_loading_config args; log_loading_labels (PyStr path);
                    log_loaded labels])).
Proof.
  intros Hcfg [path [kl [t [Hlp [Hstat [Hlabels Hne]]]]]] Hbad.
  exists path. split; [exact Hlp|].
  unfold main_try. msimpl.
  rewrite (load_config_run d _ Hcfg). cbv beta iota zeta.
  unfold py_getitem. rewrite Hlp. cbv beta iota zeta.
  rewrite (load_labels_run path kl t _ Hstat) by now rewrite Hlabels.
  cbv beta iota zeta. rewrite Hlabels.
  destruct Hbad as [Hbad|[Hex Hbad]].
  - rewrite Hbad. cbn [negb]. now rewrite <- !app_assoc.
  - rewrite Hex. cbn [negb]. rewrite Hbad. cbn [negb].
    now rewrite <- !app_assoc.
Qed.

Lemma required_field_missing (tr : list event) (k : list pystr) (t : pystr)
    (d : gmap pystr pyval) :
  OS.stat cwd fs (parse (args_config args)) = OS.Found k (File (Text t)) ->
  safe_load c t = Ok (PyDict d) ->
  missing_fields d <> [] ->
  main_try c args (State fs cwd tr)
  = (Raise (Exn ValueError
              (Some (py "Missing required config fields: "
                     ++ join (py ", ") (missing_fields d)))),
     State fs cwd (tr ++ [log_loading_config args])).
Proof.
  intros Hstat Hyaml Hmiss. unfold main_try. msimpl.
  rewrite (load_config_loaded c _ (State fs cwd _) k t (PyDict d) Hstat Hyaml).
  rewrite check_required_dict.
  destruct (missing_fields d); [contradiction|reflexivity].
Qed.

Lemma document_malformed (tr : list event) (k : list pystr) (t : pystr)
    (e : exn) :
  OS.stat cwd fs (parse (args_config args)) = OS.Found k (File (Text t)) ->
  safe_load c t = Raise e ->
  main_try c args (State fs cwd tr)
  = (Raise e, State fs cwd (tr ++ [log_loading_config args])).
Proof.
  intros Hstat Hyaml. unfold main_try, load_config.
  repeat (msimpl || rewrite (stat_exists _ _ _ Hstat) || rewrite Hstat
          || rewrite Hyaml || (progress cbv beta iota)).
  reflexivity.
Qed.

End Runs.

(** ** No step is repeated: counting pipeline calls *)

(** Reading leaves the state alone. *)
Lemma read_lines_silent (d : file_data) (st : state) :
  snd (read_lines d st) = st.
Proof.
  destruct d as [t| |render]; try reflexivity.
  unfold read_lines, logged_text, mbind, M_bind.
  destruct (render (st_trace st)); reflexivity.
Qed.

Lemma yaml_safe_load_silent (c : collab) (d : file_data) (st : state) :
  snd (yaml_safe_load c d st) = st.
Proof.
  destruct d as [t| |render]; try reflexivity.
  unfold yaml_safe_load, logged_text, mbind, M_bind.
  destruct (render (st_trace st)); reflexivity.
Qed.

Create HintDb adds.

Section Counting.
Variable P : event -> bool.

Lemma calls_snoc (tr : list event) (ev : event) :
  calls P (tr ++ [ev]) = (calls P tr + if P ev then 1 else 0)%nat.
Proof.
  unfold calls. rewrite List.filter_app, length_app. cbn [List.filter].
  now destruct (P ev).
Qed.

(** A computation that leaves the state alone records nothing. *)
Lemma adds_silent {A} (m : M A) :
  (forall st, snd (m st) = st) -> adds P 0 m.
Proof.
  intros H st r st' E. specialize (H st). rewrite E in H. cbn in H.
  subst st'. lia.
Qed.

Lemma adds_ret {A} (x : A) : adds P 0 (mret x).
Proof. now apply adds_silent. Qed.

Lemma adds_raise {A} (e : exn) : adds P 0 (@raise A e).
Proof. now apply adds_silent. Qed.

Lemma adds_sys_exit {A} (code : Z) : adds P 0 (@sys_exit A code).
Proof. now apply adds_silent. Qed.

Lemma adds_lift {A} (r : result A) : adds P 0 (lift r).
Proof. now apply adds_silent. Qed.

Lemma adds_Path_exists (p : PurePath) : adds P 0 (Path_exists p).
Proof. now apply adds_silent. Qed.

Lemma adds_Path_is_dir (p : PurePath) : adds P 0 (Path_is_dir p).
Proof. now apply adds_silent. Qed.

Lemma adds_open_read (p : PurePath) : adds P 0 (open_read p).
Proof. now apply adds_silent. Qed.

Lemma adds_read_lines (d : file_data) : adds P 0 (read_lines d).
Proof. apply adds_silent. apply read_lines_silent. Qed.

Lemma adds_yaml_safe_load (c : collab) (d : file_data) :
  adds P 0 (yaml_safe_load c d).
Proof. apply adds_silent. apply yaml_safe_load_silent. Qed.

Lemma adds_discovery (c : collab) (folder : pystr) :
  adds P 0 (call_get_all_image_paths c folder).
Proof. now apply adds_silent. Qed.

Lemma adds_weaken {A} (m : M A) (n : nat) : adds P 0 m -> adds P n m.
Proof. intros H st r st' E. specialize (H st r st' E). lia. Qed.

(** Sequencing: the counts add up.  Two instances drive the proofs below:
    a silent step before anything, and one counted step before silence. *)
Lemma adds_bind {A B} (m : M A) (f : A -> M B) (a b : nat) :
  adds P a m -> (forall x, adds P b (f x)) -> adds P (a + b) (m ≫= f).
Proof.
  intros Hm Hf st r st'. unfold mbind, M_bind.
  destruct (m st) as [[x|e] st1] eqn:E.
  - intros E2. specialize (Hm st _ _ E). specialize (Hf x st1 _ _ E2). lia.
  - intros [= <- <-]. specialize (Hm st _ _ E). lia.
Qed.

Lemma adds_bind_0 {A B} (m : M A) (f : A -> M B) (n : nat) :
  adds P 0 m -> (forall x, adds P n (f x)) -> adds P n (m ≫= f).
Proof. intros Hm Hf. now apply (adds_bind m f 0 n). Qed.

Lemma adds_bind_1 {A B} (m : M A) (f : A -> M B) :
  adds P 1 m -> (forall x, adds P 0 (f x)) -> adds P 1 (m ≫= f).
Proof. intros Hm Hf. now apply (adds_bind m f 1 0). Qed.

Lemma adds_emit (ev : event) : P ev = false -> adds P 0 (emit ev).
Proof.
  intros H [fs cwd tr] r st'. unfold emit. intros [= <- <-]. cbn [st_trace].
  rewrite calls_snoc, H. lia.
Qed.

End Counting.

#[export] Hint Resolve adds_ret adds_raise adds_sys_exit adds_lift
  adds_Path_exists adds_Path_is_dir adds_open_read adds_read_lines
  adds_yaml_safe_load adds_discovery : adds.

Ltac adds_go :=
  repeat first
    [ progress intros
    | progress cbv zeta
    | apply adds_bind_0; [solve [auto with adds] | ]
    | apply adds_bind_1; [solve [auto with adds] | ]
    | solve [auto with adds]
    | apply adds_weaken; solve [auto with adds]
    | match goal with
      | |- adds _ _ (if ?b then _ else _) => destruct b
      | |- adds _ _ (match ?x with _ => _ end) => destruct x
      end ].

Section PredictOnce.
Variable c : collab.

Lemma adds_log (lvl : level) (b : bool) (msg : list frag) :
  adds is_predict 0 (emit (EvLog lvl b msg)).
Proof. now apply adds_emit. Qed.

Lemma adds_logger_info (msg : list frag) : adds is_predict 0 (logger_info msg).
Proof. apply adds_log. Qed.

Lemma adds_logger_warning (msg : list frag) :
  adds is_predict 0 (logger_warning msg).
Proof. apply adds_log. Qed.

Lemma adds_logger_error (msg : list frag) :
  adds is_predict 0 (logger_error msg).
Proof. apply adds_log. Qed.

Lemma adds_logger_exception (msg : list frag) :
  adds is_predict 0 (logger_exception msg).
Proof. apply adds_log. Qed.

Lemma adds_Path_mkdir (p : PurePath) (parents exist_ok : bool) :
  adds is_predict 0 (Path_mkdir p parents exist_ok).
Proof.
  intros st r st'. unfold Path_mkdir.
  destruct (if parents then _ else _) as [fs' [e|]];
    intros [= <- <-]; cbn [st_trace]; rewrite calls_snoc; cbn; lia.
Qed.

Lemma adds_init (a : init_args) :
  adds is_predict 0 (call_DetectAndClassify c a).
Proof.
  intros st r st'. unfold call_DetectAndClassify.
  destruct (DetectAndClassify c _ _ a) as [fs' [e|]];
    intros [= <- <-]; cbn [st_trace]; rewrite calls_snoc; cbn; lia.
Qed.

Lemma adds_predict (a : predict_args) : adds is_predict 1 (call_predict c a).
Proof.
  intros st r st'. unfold call_predict.
  destruct (predict c _ _ a) as [fs' [e|]];
    intros [= <- <-]; cbn [st_trace]; rewrite calls_snoc; cbn; lia.
Qed.

Hint Resolve adds_logger_info adds_logger_warning adds_logger_error
  adds_logger_exception adds_Path_mkdir adds_init adds_predict : adds.

Lemma adds_load_config (path : pystr) :
  adds is_predict 0 (load_config c path).
Proof. unfold load_config. adds_go. Qed.

Lemma adds_load_labels (v : pyval) : adds is_predict 0 (load_labels v).
Proof. unfold load_labels. adds_go. Qed.

Lemma adds_resolve (v : pyval) (folder : PurePath) :
  adds is_predict 0 (resolve_output_stem v folder).
Proof. unfold resolve_output_stem. adds_go. Qed.

Hint Resolve adds_load_config adds_load_labels adds_resolve : adds.

Lemma adds_main_try (args : Args) : adds is_predict 1 (main_try c args).
Proof. unfold main_try. adds_go. Qed.

Lemma adds_main_except (e : exn) : adds is_predict 0 (main_except e).
Proof. unfold main_except. adds_go. Qed.

(** In a run the predict operation is called at most once. *)
Lemma predict_at_most_once (args : Args) : adds is_predict 1 (main c args).
Proof.
  intros st r st'. unfold main.
  destruct (main_try c args st) as [[[]|e] st1] eqn:E.
  - intros [= <- <-]. exact (adds_main_try args st _ _ E).
  - intros E2. pose proof (adds_main_try args st _ _ E).
    pose proof (adds_main_except e st1 _ _ E2). lia.
Qed.

End PredictOnce.

(** ** The failure taxonomy *)

(** C7, as the code has it.  Every exception (subclass of [Exception]) that
    leaves the [try] block ends the run at once: one error record is logged,
    in exactly one of three categories chosen by the class of the exception,
    and the exit status is 1.  A configuration file, label file or image
    folder that [exists()] finds missing is a [FileNotFoundError] ("File not
    found"); a missing [detector_path] or [classifier_path] and an image
    folder that is not a directory are [ValueError]s ("Configuration
    error").  Whatever the YAML parser raises on a document is passed on
    unchanged and reported by its class: "Configuration error" when it is a
    [ValueError], "Unexpected error", with traceback, when it is the
    parser's own [YAMLError].  A path that [exists()] cannot look up (too
    many bytes) is not a missing file: the [OSError] is an "Unexpected
    error".  Nothing is retried: the predict operation is called at most
    once. *)
Theorem exception_taxonomy
    (c : collab) (args : Args) (cwd : list pystr) (fs : fsys) (tr : list event) :
  (forall e st',
     main_try c args (State fs cwd tr) = (Raise e, st') ->
     is_Exception (exn_class e) = true ->
     main c args (State fs cwd tr)
     = (Raise (Exn (SystemExit 1) None),
        State (st_fs st') (st_cwd st') (st_trace st' ++ [report e]))
     /\ exit_status (fst (main c args (State fs cwd tr))) = 1%Z)
  /\ (forall e,
        (classify e = FileNotFound <-> exn_class e = FileNotFoundError)
        /\ (classify e = ConfigurationError
            <-> exn_class e = ValueError \/ exn_class e = UnicodeDecodeError
                \/ exn_class e = UnicodeEncodeError))
  /\ (path_exists cwd fs (parse (args_config args)) = Ok false ->
      main_try c args (State fs cwd tr)
      = (Raise (Exn FileNotFoundError
                  (Some (py "Config file not found: " ++ args_config args))),
         State fs cwd (tr ++ [log_loading_config args])))
  /\ (forall d path,
        config_loads c cwd fs args d ->
        d !! py "label_path" = Some (PyStr path) ->
        path_exists cwd fs (parse path) = Ok false ->
        main_try c args (State fs cwd tr)
        = (Raise (Exn FileNotFoundError
                    (Some (py "Labels file not found: " ++ path))),
           State fs cwd
             (tr ++ [log_loading_config args; log_loading_labels (PyStr path)])))
  /\ (forall d labels,
        config_loads c cwd fs args d ->
        labels_load cwd fs d labels ->
        path_exists cwd fs (parse (args_image_folder args)) = Ok false ->
        exists st',
          main_try c args (State fs cwd tr)
          = (Raise (Exn FileNotFoundError
                      (Some (py "Image folder not found: "
                             ++ args_image_folder args))), st'))
  /\ (forall d labels,
        config_loads c cwd fs args d ->
        labels_load cwd fs d labels ->
        path_exists cwd fs (parse (args_image_folder args)) = Ok true ->
        is_dir cwd fs (parse (args_image_folder args)) = Ok false ->
        exists st',
          main_try c args (State fs cwd tr)
          = (Raise (Exn ValueError
                      (Some (py "Not a directory: " ++ args_image_folder args))),
             st'))
  /\ (forall k t d,
        OS.stat cwd fs (parse (args_config args)) = OS.Found k (File (Text t)) ->
        safe_load c t = Ok (PyDict d) ->
        missing_fields d <> [] ->
        main_try c args (State fs cwd tr)
        = (Raise (Exn ValueError
                    (Some (py "Missing required config fields: "
                           ++ join (py ", ") (missing_fields d)))),
           State fs cwd (tr ++ [log_loading_config args])))
  /\ (forall k t e,
        OS.stat cwd fs (parse (args_config args)) = OS.Found k (File (Text t)) ->
        safe_load c t = Raise e ->
        main_try c args (State fs cwd tr)
        = (Raise e, State fs cwd (tr ++ [log_loading_config args]))
        /\ (exn_class e = YAMLError -> classify e = UnexpectedError)
        /\ (exn_class e = ValueError -> classify e = ConfigurationError))
  /\ (forall e,
        path_exists cwd fs (parse (args_config args)) = Raise e ->
        main_try c args (State fs cwd tr)
        = (Raise e, State fs cwd (tr ++ [log_loading_config args]))
        /\ classify e = UnexpectedError)
  /\ (forall r st',
        main c args (State fs cwd tr) = (r, st') ->
        (calls is_predict (st_trace st') <= calls is_predict tr + 1)%nat).
Proof.
  split; [|split; [|split; [|split; [|split; [|split; [|split; [|split;
    [|split]]]]]]]].
  - intros e st' Htry He.
    rewrite (main_reports c args cwd fs tr e st' Htry He).
    split; reflexivity.
  - apply classify_spec.
  - apply config_file_missing.
  - intros d path. apply label_file_missing.
  - intros d labels Hcfg Hlab Hex.
    destruct (main_try_to_folder c args cwd fs tr d labels Hcfg Hlab)
      as [path [_ Hrun]]; [now left|].
    rewrite Hex in Hrun. eauto.
  - intros d labels Hcfg Hlab Hex Hdir.
    destruct (main_try_to_folder c args cwd fs tr d labels Hcfg Hlab)
      as [path [_ Hrun]]; [now right|].
    rewrite Hex in Hrun. eauto.
  - intros k t d. apply required_field_missing.
  - intros k t e Hstat Hyaml. split; [|split].
    + now apply (document_malformed c args cwd fs tr k t e).
    + unfold classify. now intros ->.
    + unfold classify. now intros ->.
  - intros e He. split.
    + now apply config_path_refused.
    + apply path_exists_raises in He. now destruct He as [-> _].
  - intros r st' Hrun.
    exact (predict_at_most_once c args (State fs cwd tr) r st' Hrun).
Qed.

Lemma exception_taxonomy_witness :
  main (Demo.world (Raise (Exn YAMLError None)) []) (Demo.args None) Demo.st
  = (Raise (Exn (SystemExit 1) None),
     State Demo.fs Demo.cwd
       [log_loading_config (Demo.args None);
        EvLog ERROR true
          [Lit (py "Unexpected error: "); ExcText (Exn YAMLError None)]])
  /\ main_try (Demo.world (Ok (PyDict Demo.config_no_detector)) [])
       (Demo.args None) Demo.st
     = (Raise (Exn ValueError
                 (Some (py "Missing required config fields: detector_path"))),
        State Demo.fs Demo.cwd [log_loading_config (Demo.args None)]).
Proof.
  split.
  - destruct (exception_taxonomy (Demo.world (Raise (Exn YAMLError None)) [])
                (Demo.args None) Demo.cwd Demo.fs [])
      as [Hreport [_ [_ [_ [_ [_ [_ [Hyaml _]]]]]]]].
    destruct (Hyaml [py "home"; py "config.yaml"] (py "detector_path: md.pt")
                (Exn YAMLError None)) as [Htry _].
    + vm_compute. reflexivity.
    + reflexivity.
    + destruct (Hreport _ _ Htry) as [Hmain _]; [reflexivity|].
      exact Hmain.
  - destruct (exception_taxonomy
                (Demo.world (Ok (PyDict Demo.config_no_detector)) [])
                (Demo.args None) Demo.cwd Demo.fs [])
      as [_ [_ [_ [_ [_ [_ [Hfields _]]]]]]].
    unfold Demo.st.
    rewrite (Hfields [py "home"; py "config.yaml"] (py "detector_path: md.pt")
               Demo.config_no_detector).
    + vm_compute. reflexivity.
    + vm_compute. reflexivity.
    + reflexivity.
    + vm_compute. discriminate.
Defined.

(** C7, as the specification words it, fails on the malformed document: the
    parser's error is no [ValueError], so the run reports "Unexpected
    error", not "Configuration error". *)
Lemma malformed_document_is_unexpected :
  snd (main (Demo.world (Raise (Exn YAMLError None)) []) (Demo.args None) Demo.st)
  = State Demo.fs Demo.cwd
      [log_loading_config (Demo.args None);
       EvLog ERROR true
         [Lit (py "Unexpected error: "); ExcText (Exn YAMLError None)]]
  /\ classify (Exn YAMLError None) <> ConfigurationError.
Proof.
  split.
  - vm_compute. reflexivity.
  - vm_compute. discriminate.
Defined.

Lemma no_images_clean_exit_witness :
  main (Demo.world (Ok (PyDict Demo.config)) []) (Demo.args None) Demo.st
  = (Raise (Exn (SystemExit 0) None),
     State Demo.fs Demo.cwd
       [log_loading_config (Demo.args None);
        log_loading_labels (str_lit "labels.txt");
        log_loaded [py "quoll"; py "bilby"; py "quoll"];
        log_scanning (Demo.args None); log_no_images]).
Proof.
  destruct (no_images_clean_exit (Demo.world (Ok (PyDict Demo.config)) [])
              (Demo.args None) Demo.cwd Demo.fs [] Demo.config
              [py "quoll"; py "bilby"; py "quoll"] [py "home"; py "imgs"])
    as [path [Hpath [Hrun _]]].
  - exists [py "home"; py "config.yaml"], (py "detector_path: md.pt").
    repeat split; vm_compute; reflexivity.
  - exists (py "labels.txt"), [py "home"; py "labels.txt"], Demo.labels_text.
    repeat split; vm_compute; (reflexivity || discriminate).
  - vm_compute. reflexivity.
  - reflexivity.
  - vm_compute in Hpath. injection Hpath as <-. exact Hrun.
Defined.

Lemma missing_label_path_unexpected_witness :
  main (Demo.world (Ok (PyDict Demo.config_no_label_path)) [py "imgs/a.jpg"])
    (Demo.args None) Demo.st
  = (Raise (Exn (SystemExit 1) None),
     State Demo.fs Demo.cwd
       [log_loading_config (Demo.args None);
        EvLog ERROR true
          [Lit (py "Unexpected error: ");
           ExcText (Exn KeyError (Some (py "'label_path'")))]]).
Proof.
  destruct (missing_label_path_unexpected
              (Demo.world (Ok (PyDict Demo.config_no_label_path)) [py "imgs/a.jpg"])
              (Demo.args None) Demo.cwd Demo.fs [] Demo.config_no_label_path)
    as [Hrun _].
  - exists [py "home"; py "config.yaml"], (py "detector_path: md.pt").
    repeat split; vm_compute; reflexivity.
  - vm_compute. reflexivity.
  - exact Hrun.
Defined.

(** ** Worked examples *)

Example parse_and_write_back :
  List.map (fun s => str (parse (py s)))
    ["foo.csv"; "./results"; "out//results/"; "/"; "//x"; "///x"; "a/../b"]%string
  = List.map py ["foo.csv"; "results"; "out/results"; "/"; "//x"; "/x"; "a/../b"]%string.
Proof. vm_compute. reflexivity. Qed.

Example stems :
  List.map (fun s => stem_of (py s))
    ["foo.csv"; "a.tar.gz"; ".bashrc"; "foo."; "results"]%string
  = List.map py ["foo"; "a.tar"; ".bashrc"; "foo."; "results"]%string.
Proof. vm_compute. reflexivity. Qed.

Example lines_of_a_file :
  file_lines (py "a" ++ [CR; LF] ++ py "b" ++ [CR] ++ py "c" ++ [LF; LF] ++ py "d")
  = [py "a" ++ [LF]; py "b" ++ [LF]; py "c" ++ [LF]; [LF]; py "d"].
Proof. vm_compute. reflexivity. Qed.

(** A run that finds two images: the pipeline is built once, predict is
    called once with the images, the default batch size and top-N, and the
    stem [imgs/from_config]; the run returns normally. *)
Example full_run :
  let images := [py "imgs/a.jpg"; py "imgs/b.png"] in
  let run := main (Demo.world (Ok (PyDict Demo.config)) images)
               (Demo.args None) Demo.st in
  exit_status (fst run) = 0%Z
  /\ List.filter is_predict (st_trace (snd run))
     = [EvPredict (PredictArgs images (PyInt 4) (PyInt 1)
                     (py "imgs/from_config") true)]
  /\ calls is_init (st_trace (snd run)) = 1%nat
  /\ List.last (st_trace (snd run)) log_no_images
     = EvLog INFO false [Lit (py "Done!")].
Proof. vm_compute. repeat split. Qed.

(** An empty configuration file loads as [None]: the membership test of
    the required-field check raises a [TypeError], and the run ends as an
    unexpected error. *)
Example empty_document_run :
  snd (main (Demo.world (Ok PyNone) []) (Demo.args None) Demo.st)
  = State Demo.fs Demo.cwd
      [log_loading_config (Demo.args None);
       EvLog ERROR true [Lit (py "Unexpected error: "); ExcText (Exn TypeError None)]].
Proof. vm_compute. reflexivity. Qed.

(** What the platform does with names: 255 bytes are a name, 256 are not
    (be it 128 letters of two bytes each), and the limit is met only where
    the name is looked up, in a directory that is there; a null character
    makes [exists()] answer [False]. *)
Example names_at_the_limit :
  let a := List.repeat 97 in
  path_exists Demo.cwd Demo.fs (parse (a 255%nat)) = Ok false
  /\ path_exists Demo.cwd Demo.fs (parse (a 256%nat)) = Raise (Exn OSError None)
  /\ is_dir Demo.cwd Demo.fs (parse (List.repeat 233 128%nat))
     = Raise (Exn OSError None)
  /\ path_exists Demo.cwd Demo.fs (parse (py "missing/" ++ a 256%nat)) = Ok false
  /\ path_exists Demo.cwd Demo.fs (parse (py "config.yaml/" ++ a 256%nat)) = Ok false
  /\ path_exists Demo.cwd Demo.fs (parse (py "a" ++ [0] ++ py "b")) = Ok false.
Proof. vm_compute. repeat split. Qed.

(** An output name under a directory whose name has 256 bytes: the
    directory before it is made, then [mkdir] raises an [OSError]. *)
Example long_directory_name :
  let dir := py "x/" ++ List.repeat 97 256%nat in
  resolve_output_stem (PyStr (dir ++ py "/results")) (parse (py "imgs")) Demo.st
  = (Raise (Exn OSError None),
     State (<[ [py "home"; py "x"] := Dir ]> Demo.fs) Demo.cwd
       [EvMkdir (parse dir) true true]).
Proof. vm_compute. reflexivity. Qed.

(** Output names Python refuses before the kernel sees them, and one of
    more than [PATH_MAX] bytes: nothing is made; the null character gives a
    [ValueError], a lone surrogate a [UnicodeEncodeError]. *)
Example refused_output_names :
  let resolve requested :=
    resolve_output_stem (PyStr requested) (parse (py "imgs")) Demo.st in
  let b := List.repeat 98 200%nat in
  let deep := join [SLASH] (List.repeat b 21%nat) in
  resolve (py "out" ++ [0] ++ py "/results")
  = (Raise (Exn ValueError None),
     State Demo.fs Demo.cwd [EvMkdir (parse (py "out" ++ [0])) true true])
  /\ resolve (py "out" ++ [55296] ++ py "/results")
     = (Raise (Exn UnicodeEncodeError None),
        State Demo.fs Demo.cwd [EvMkdir (parse (py "out" ++ [55296])) true true])
  /\ resolve (deep ++ py "/results")
     = (Raise (Exn OSError None),
        State Demo.fs Demo.cwd [EvMkdir (parse deep) true true]).
Proof. vm_compute. repeat split. Qed.

(** A configuration path that [exists()] cannot look up: no "File not
    found", the run ends as an unexpected error. *)
Example long_config_path_run :
  let args := MkArgs (py "imgs") (List.repeat 97 256%nat) None in
  snd (main (Demo.world (Ok (PyDict Demo.config)) []) args Demo.st)
  = State Demo.fs Demo.cwd
      [log_loading_config args;
       EvLog ERROR true [Lit (py "Unexpected error: "); ExcText (Exn OSError None)]].
Proof. vm_compute. reflexivity. Qed.

(** * Further properties of the code *)

(** ** Stripping *)

Lemma lstrip_head (s : pystr) (c : pychar) (r : pystr) :
  lstrip s = c :: r -> isspace c = false.
Proof.
  induction s as [|d s IH]; cbn [lstrip]; [discriminate|].
  destruct (isspace d) eqn:E; [exact IH|]. now intros [= <- _].
Qed.

Lemma lstrip_fixed (s : pystr) :
  match s with [] => True | c :: _ => isspace c = false end -> lstrip s = s.
Proof. destruct s as [|c s]; [reflexivity|]. cbn [lstrip]. now intros ->. Qed.

(** [lstrip] cuts a prefix of blanks. *)
Lemma lstrip_split (s : pystr) :
  exists a, s = a ++ lstrip s /\ Forall (fun c => isspace c = true) a.
Proof.
  induction s as [|d s [a [E Ha]]].
  - now exists [].
  - cbn [lstrip]. destruct (isspace d) eqn:Ed.
    + exists (d :: a). split; [cbn; now f_equal|now constructor].
    + now exists [].
Qed.

(** [rstrip] cuts a suffix of blanks. *)
Lemma rstrip_split (s : pystr) :
  exists b, s = rstrip s ++ b /\ Forall (fun c => isspace c = true) b.
Proof.
  unfold rstrip. destruct (lstrip_split (rev s)) as [a [E Ha]].
  exists (rev a). split.
  - rewrite <- rev_app_distr, <- E. now rewrite rev_involutive.
  - apply List.Forall_forall. intros x Hx. apply in_rev in Hx.
    rewrite List.Forall_forall in Ha. now apply Ha.
Qed.

Lemma rstrip_last (s r : pystr) (c : pychar) :
  rstrip s = r ++ [c] -> isspace c = false.
Proof.
  unfold rstrip. intros E. apply (f_equal (@rev _)) in E.
  rewrite rev_involutive, rev_app_distr in E. cbn in E.
  now apply lstrip_head in E.
Qed.

Lemma rstrip_fixed (s : pystr) :
  (forall r c, s = r ++ [c] -> isspace c = false) -> rstrip s = s.
Proof.
  intros H. unfold rstrip. rewrite lstrip_fixed; [apply rev_involutive|].
  destruct (rev s) as [|c t] eqn:E; [exact I|].
  apply (H (rev t) c). apply (f_equal (@rev _)) in E.
  now rewrite rev_involutive in E.
Qed.

(** A stripped string starts and ends with a character that is no blank. *)
Lemma strip_head (s : pystr) (c : pychar) (r : pystr) :
  strip s = c :: r -> isspace c = false.
Proof.
  unfold strip. destruct (lstrip s) as [|d t] eqn:E; [discriminate|].
  pose proof (lstrip_head s d t E) as Hd.
  rewrite rstrip_cons_keep by exact Hd. now intros [= <- _].
Qed.

Lemma strip_last (s r : pystr) (c : pychar) :
  strip s = r ++ [c] -> isspace c = false.
Proof. unfold strip. apply rstrip_last. Qed.

(** Stripping twice is stripping once. *)
Lemma strip_idempotent (s : pystr) : strip (strip s) = strip s.
Proof.
  unfold strip at 1. rewrite lstrip_fixed.
  - apply rstrip_fixed. intros r c E. now apply (strip_last s r c).
  - destruct (strip s) as [|c r] eqn:E; [exact I|]. now apply (strip_head s c r).
Qed.

(** A stripped string sits inside the original, between blanks. *)
Lemma strip_split (s : pystr) :
  exists a b, s = a ++ strip s ++ b
              /\ Forall (fun c => isspace c = true) a
              /\ Forall (fun c => isspace c = true) b.
Proof.
  destruct (lstrip_split s) as [a [Ea Ha]].
  destruct (rstrip_split (lstrip s)) as [b [Eb Hb]].
  exists a, b. unfold strip. now rewrite <- Eb.
Qed.

(** ** Lines of a file *)

(** Every line a file yields is a body without line break, followed by at
    most one ["\n"]. *)
Lemma file_lines_from_shape (t cur : pystr) :
  ~ In LF cur -> ~ In CR cur ->
  Forall (fun line => exists body,
            (line = body \/ line = body ++ [LF])
            /\ ~ In LF body /\ ~ In CR body)
         (file_lines_from cur t).
Proof.
  revert cur.
  induction t as [t IH] using (induction_ltof1 _ (@length _)).
  unfold ltof in IH. intros cur Hlf Hcr.
  destruct t as [|c t']; cbn [file_lines_from].
  - destruct cur; constructor; [|constructor]. eexists. eauto.
  - destruct (N.eqb_spec c LF) as [->|Hc1].
    + constructor; [eexists; eauto|]. apply IH; [cbn; lia|intros []|intros []].
    + destruct (N.eqb_spec c CR) as [->|Hc2].
      * destruct t' as [|d t''].
        -- constructor; [eexists; eauto|constructor].
        -- destruct (d =? LF).
           ++ constructor; [eexists; eauto|].
              apply IH; [cbn; lia|intros []|intros []].
           ++ constructor; [eexists; eauto|].
              apply IH; [cbn; lia|intros []|intros []].
      * apply IH; [cbn; lia| |].
        -- intros H. apply in_app_or in H. destruct H as [H|[H|[]]]; congruence.
        -- intros H. apply in_app_or in H. destruct H as [H|[H|[]]]; congruence.
Qed.

Lemma file_lines_shape (t : pystr) :
  Forall (fun line => exists body,
            (line = body \/ line = body ++ [LF])
            /\ ~ In LF body /\ ~ In CR body)
         (file_lines t).
Proof. apply file_lines_from_shape; intros []. Qed.

Lemma rstrip_snoc_blank (s : pystr) (c : pychar) :
  isspace c = true -> rstrip (s ++ [c]) = rstrip s.
Proof.
  intros Hc. unfold rstrip. rewrite rev_app_distr. cbn [rev app lstrip].
  now rewrite Hc.
Qed.

Lemma lstrip_snoc_blank (s : pystr) (c : pychar) :
  isspace c = true ->
  lstrip (s ++ [c]) = match lstrip s with [] => [] | _ => lstrip s ++ [c] end.
Proof.
  intros Hc. induction s as [|d s IH]; cbn [app lstrip].
  - now rewrite Hc.
  - destruct (isspace d); [exact IH|reflexivity].
Qed.

(** A blank at the end does not change what stripping gives. *)
Lemma strip_snoc_blank (s : pystr) (c : pychar) :
  isspace c = true -> strip (s ++ [c]) = strip s.
Proof.
  intros Hc. unfold strip. rewrite (lstrip_snoc_blank s c Hc).
  destruct (lstrip s) as [|d t]; [reflexivity|].
  now apply rstrip_snoc_blank.
Qed.

Lemma strip_subset (s : pystr) (x : pychar) : In x (strip s) -> In x s.
Proof.
  destruct (strip_split s) as [a [b [E _]]]. intros Hx. rewrite E.
  apply in_or_app. right. apply in_or_app. now left.
Qed.

(** A stripped line holds no line break. *)
Lemma strip_line_no_break (line body : pystr) :
  (line = body \/ line = body ++ [LF]) -> ~ In LF body -> ~ In CR body ->
  ~ In LF (strip line) /\ ~ In CR (strip line).
Proof.
  intros Hline Hlf Hcr.
  assert (E : strip line = strip body).
  { destruct Hline as [->| ->]; [reflexivity|]. now apply strip_snoc_blank. }
  rewrite E. split; intros H; apply strip_subset in H; tauto.
Qed.

(** ** What the loaders return and what they leave alone *)

Lemma load_labels_ok_inv (v : pyval) (st st' : state) (labels : list pystr) :
  load_labels v st = (Ok labels, st') ->
  exists t,
    labels = List.filter is_label (List.map strip (file_lines t))
    /\ labels <> [] /\ st' = st.
Proof.
  destruct v as [| | | |path| |]; try discriminate.
  destruct st as [fs cwd tr]. unfold load_labels. msimpl.
  unfold path_exists. cbn [st_cwd st_fs].
  destruct (OS.stat cwd fs (parse path)) as [k [|[t| |render]]| | | |] eqn:Hstat;
    repeat (msimpl || rewrite Hstat || (progress cbv beta iota));
    try discriminate.
  - rewrite load_labels_fold. cbn [app].
    destruct (List.filter is_label (List.map strip (file_lines t)))
      as [|l ls] eqn:E; [discriminate|].
    intros [= <- <-]. exists t. rewrite E. now repeat split.
  - unfold logged_text. cbn [st_trace].
    destruct (render tr) as [t|]; [|discriminate].
    repeat (msimpl || (progress cbv beta iota)).
    rewrite load_labels_fold. cbn [app].
    destruct (List.filter is_label (List.map strip (file_lines t)))
      as [|l ls] eqn:E; [discriminate|].
    intros [= <- <-]. exists t. rewrite E. now repeat split.
Qed.

(** X1: whatever [load_labels] returns is a non-empty list of labels, each
    of them non-empty, free of surrounding blanks (stripping it again changes
    nothing), not a comment, and without line break. *)
Theorem load_labels_wellformed
    (v : pyval) (st st' : state) (labels : list pystr) :
  load_labels v st = (Ok labels, st') ->
  labels <> []
  /\ Forall (fun label =>
               label <> []
               /\ strip label = label
               /\ startswith label [HASH] = false
               /\ ~ In LF label /\ ~ In CR label) labels.
Proof.
  intros H. apply load_labels_ok_inv in H.
  destruct H as [t [-> [Hne _]]].
  split; [exact Hne|].
  apply List.Forall_forall. intros label Hin.
  apply filter_In in Hin. destruct Hin as [Hin Hlab].
  apply in_map_iff in Hin. destruct Hin as [line [<- Hline]].
  unfold is_label in Hlab. apply andb_true_iff in Hlab.
  destruct Hlab as [H1 H2]. apply negb_true_iff in H1, H2.
  pose proof (file_lines_shape t) as Hshape.
  rewrite List.Forall_forall in Hshape.
  destruct (Hshape line Hline) as [body [Hb [Hlf Hcr]]].
  destruct (strip_line_no_break line body Hb Hlf Hcr) as [Hn1 Hn2].
  repeat split; try assumption.
  - intros E. rewrite E in H1. discriminate.
  - apply strip_idempotent.
Qed.

Lemma load_labels_wellformed_witness :
  [py "quoll"; py "bilby"; py "quoll"] <> []
  /\ Forall (fun label =>
               label <> []
               /\ strip label = label
               /\ startswith label [HASH] = false
               /\ ~ In LF label /\ ~ In CR label)
            [py "quoll"; py "bilby"; py "quoll"].
Proof.
  apply (load_labels_wellformed (str_lit "labels.txt") Demo.st Demo.st).
  vm_compute. reflexivity.
Defined.

Lemma bind_silent {A B} (m : M A) (f : A -> M B) :
  (forall st, snd (m st) = st) ->
  (forall x st, snd (f x st) = st) ->
  forall st, snd ((m ≫= f) st) = st.
Proof.
  intros Hm Hf st. unfold mbind, M_bind. specialize (Hm st).
  destruct (m st) as [[x|e] st1]; cbn [snd] in Hm; subst st1; [apply Hf|].
  reflexivity.
Qed.

Lemma load_config_read_only (c : collab) (config_path : pystr) (st : state) :
  snd (load_config c config_path st) = st.
Proof.
  revert st. unfold load_config. cbv zeta.
  apply bind_silent; [reflexivity|]. intros ex.
  destruct (negb ex); [reflexivity|].
  apply bind_silent; [reflexivity|]. intros f.
  apply bind_silent; [apply yaml_safe_load_silent|reflexivity].
Qed.

Lemma load_labels_read_only (label_path : pyval) (st : state) :
  snd (load_labels label_path st) = st.
Proof.
  revert st. destruct label_path as [| | | |path| |]; try reflexivity.
  unfold load_labels. cbv zeta.
  apply bind_silent; [reflexivity|]. intros ex.
  destruct (negb ex); [reflexivity|].
  apply bind_silent; [reflexivity|]. intros f.
  apply bind_silent; [apply read_lines_silent|]. intros lines.
  destruct (fold_left load_labels_step lines []); reflexivity.
Qed.

(** X2: the two loaders only read: whatever they are given and however
    they end, the file system and the trace are left as they were. *)
Theorem loaders_read_only
    (c : collab) (config_path : pystr) (label_path : pyval) (st : state) :
  snd (load_config c config_path st) = st
  /\ snd (load_labels label_path st) = st.
Proof.
  split; [apply load_config_read_only|apply load_labels_read_only].
Qed.

(** ** Runs that stop at a file that cannot be read *)

Ltac run_main tac :=
  unfold main, main_try, load_config, load_labels;
  repeat (msimpl || tac || (progress cbv beta iota));
  unfold main_except;
  cbn [exn_class is_FileNotFoundError is_ValueError is_Exception];
  repeat (msimpl || (progress cbv beta iota));
  rewrite <- ?app_assoc; try reflexivity.

Section UnreadableFiles.
Variable c : collab.
Variable args : Args.
Variable cwd : list pystr.
Variable fs : fsys.
Variable tr : list event.

Lemma getitem_found (d : gmap pystr pyval) (key : pystr) (v : pyval) :
  d !! key = Some v -> py_getitem (PyDict d) key = Ok v.
Proof. unfold py_getitem. now intros ->. Qed.

(** X3: a directory where a file is expected passes the existence check
    and fails on opening: for the configuration path as for the label path
    the run ends with exit status 1 and the record "Unexpected error"
    carrying an [IsADirectoryError], not "File not found". *)
Theorem directory_in_place_of_file :
  (forall k,
     OS.stat cwd fs (parse (args_config args)) = OS.Found k Dir ->
     main c args (State fs cwd tr)
     = (Raise (Exn (SystemExit 1) None),
        State fs cwd
          (tr ++ [log_loading_config args;
                  EvLog ERROR true [Lit (py "Unexpected error: ");
                                    ExcText (Exn IsADirectoryError None)]])))
  /\ (forall d path k,
        config_loads c cwd fs args d ->
        d !! py "label_path" = Some (PyStr path) ->
        OS.stat cwd fs (parse path) = OS.Found k Dir ->
        main c args (State fs cwd tr)
        = (Raise (Exn (SystemExit 1) None),
           State fs cwd
             (tr ++ [log_loading_config args; log_loading_labels (PyStr path);
                     EvLog ERROR true [Lit (py "Unexpected error: ");
                                       ExcText (Exn IsADirectoryError None)]]))).
Proof.
  split.
  - intros k Hstat.
    run_main ltac:(first [rewrite (stat_exists _ _ _ _ _ Hstat) | rewrite Hstat]).
  - intros d path k Hcfg Hlp Hstat.
    unfold main, main_try. msimpl.
    rewrite (load_config_run c args cwd fs d _ Hcfg). cbv beta iota.
    rewrite (getitem_found d _ _ Hlp).
    run_main ltac:(first [rewrite (stat_exists _ _ _ _ _ Hstat) | rewrite Hstat]).
Qed.


End UnreadableFiles.

(** ** Documents and values of the wrong kind *)

Section WrongKind.
Variable c : collab.
Variable args : Args.
Variable cwd : list pystr.
Variable fs : fsys.
Variable tr : list event.

Lemma check_required_scalar (doc : pyval) :
  match doc with
  | PyNone | PyBool _ | PyInt _ | PyFloat _ => True
  | _ => False
  end ->
  check_required doc = Raise (Exn TypeError None).
Proof. destruct doc; intros []; reflexivity. Qed.

(** On a document that is no mapping the check either raises or hands the
    document back. *)
Lemma check_required_other (doc : pyval) :
  not_a_mapping doc ->
  check_required doc = Ok doc
  \/ check_required doc = Raise (Exn TypeError None)
  \/ exists text, check_required doc = Raise (Exn ValueError (Some text)).
Proof.
  destruct doc as [| | | |s|xs|d]; intros H; try destruct H;
    try (right; left; reflexivity).
  - unfold check_required, required_fields.
    cbn [comprehension_if py_not_in py_in].
    destruct (contains s (py "detector_path")),
             (contains s (py "classifier_path")); cbn [negb];
      first [left; reflexivity | right; right; eexists; reflexivity].
  - unfold check_required, required_fields.
    cbn [comprehension_if py_not_in py_in].
    destruct (existsb (is_str (py "detector_path")) xs),
             (existsb (is_str (py "classifier_path")) xs); cbn [negb];
      first [left; reflexivity | right; right; eexists; reflexivity].
Qed.

Lemma getitem_other (doc : pyval) (key : pystr) :
  not_a_mapping doc -> py_getitem doc key = Raise (Exn TypeError None).
Proof. destruct doc; intros H; try destruct H; reflexivity. Qed.

(** X5: a configuration document that is no mapping never gets past the
    configuration stage, even when [load_config] lets it through (a list or
    a text that mentions both field names): the run logs one error record,
    "Configuration error" or "Unexpected error", and ends with exit
    status 1 before any label file, image folder or pipeline is touched. *)
Theorem non_mapping_document_rejected (k : list pystr) (t : pystr) (doc : pyval) :
  OS.stat cwd fs (parse (args_config args)) = OS.Found k (File (Text t)) ->
  safe_load c t = Ok doc ->
  not_a_mapping doc ->
  exists e,
    main c args (State fs cwd tr)
    = (Raise (Exn (SystemExit 1) None),
       State fs cwd (tr ++ [log_loading_config args; report e]))
    /\ (exn_class e = TypeError \/ exn_class e = ValueError)
    /\ (match doc with
        | PyNone | PyBool _ | PyInt _ | PyFloat _ => exn_class e = TypeError
        | _ => True
        end).
Proof.
  intros Hstat Hyaml Hdoc.
  assert (Htry : exists e,
             main_try c args (State fs cwd tr)
             = (Raise e, State fs cwd (tr ++ [log_loading_config args]))
             /\ (exn_class e = TypeError \/ exn_class e = ValueError)
             /\ (match doc with
                 | PyNone | PyBool _ | PyInt _ | PyFloat _ =>
                     exn_class e = TypeError
                 | _ => True
                 end)).
  { unfold main_try. msimpl.
    rewrite (load_config_loaded c _ (State fs cwd _) k t doc Hstat Hyaml).
    destruct (check_required_other doc Hdoc) as [E|[E|[text E]]]; rewrite E.
    - cbv beta iota. rewrite (getitem_other doc _ Hdoc).
      eexists. split; [reflexivity|]. split; [now left|].
      destruct doc; exact I || reflexivity.
    - eexists. split; [reflexivity|]. split; [now left|].
      destruct doc; exact I || reflexivity.
    - eexists. split; [reflexivity|]. split; [now right|].
      destruct doc; try exact I; discriminate E. }
  destruct Htry as [e [Htry [Hclass Hscalar]]].
  exists e. split; [|split; assumption].
  rewrite (main_reports c args cwd fs tr e _ Htry).
  - cbn [st_fs st_cwd st_trace]. now rewrite <- app_assoc.
  - destruct Hclass as [-> | ->]; reflexivity.
Qed.

(** X6: when the configuration gives [label_path] a value that is no
    string (a number, a list, nothing at all), [load_labels] fails on
    building the path: the run logs "Unexpected error" with a [TypeError]
    and ends with exit status 1; the file system is not consulted for it. *)
Theorem label_path_not_a_string (d : gmap pystr pyval) (v : pyval) :
  config_loads c cwd fs args d ->
  d !! py "label_path" = Some v ->
  not_a_string v ->
  main c args (State fs cwd tr)
  = (Raise (Exn (SystemExit 1) None),
     State fs cwd
       (tr ++ [log_loading_config args; log_loading_labels v;
               EvLog ERROR true [Lit (py "Unexpected error: ");
                                 ExcText (Exn TypeError None)]])).
Proof.
  intros Hcfg Hlp Hv.
  unfold main, main_try. msimpl.
  rewrite (load_config_run c args cwd fs d _ Hcfg). cbv beta iota.
  rewrite (getitem_found d _ _ Hlp). cbv beta iota.
  destruct v; try destruct Hv; run_main idtac.
Qed.

End WrongKind.

(** ** The order of calls in a run *)

Create HintDb quiet.
Create HintDb moves.

Lemma run_protocol_app (q : phase) (a b : list event) :
  run_protocol q (a ++ b)
  = match run_protocol q a with
    | Some q' => run_protocol q' b
    | None => None
    end.
Proof.
  revert q. induction a as [|ev a IH]; intros q; cbn [app run_protocol].
  - reflexivity.
  - destruct (advance q ev); [apply IH|reflexivity].
Qed.

Lemma moves_bind {A B} (q : phase) (ok1 ok2 : phase -> Prop)
    (m : M A) (f : A -> M B) :
  moves q ok1 m ->
  (forall x q1, ok1 q1 -> moves q1 ok2 (f x)) ->
  moves q ok2 (m ≫= f).
Proof.
  intros Hm Hf st r st'. unfold mbind, M_bind.
  destruct (m st) as [[x|e] st1] eqn:E.
  - intros E2. destruct (Hm st _ _ E) as [Hc1 [new1 [q1 [Ht1 [Hr1 Hok1]]]]].
    destruct (Hf x q1 (Hok1 x eq_refl) st1 _ _ E2)
      as [Hc2 [new2 [q2 [Ht2 [Hr2 Hok2]]]]].
    split; [congruence|]. exists (new1 ++ new2), q2.
    rewrite Ht2, Ht1, <- app_assoc, run_protocol_app, Hr1. now repeat split.
  - intros [= <- <-]. destruct (Hm st _ _ E) as [Hc1 [new1 [q1 [Ht1 [Hr1 _]]]]].
    split; [exact Hc1|]. exists new1, q1. repeat split; try assumption.
    discriminate.
Qed.

Lemma moves_bind_quiet {A B} (q : phase) (ok : phase -> Prop)
    (m : M A) (f : A -> M B) :
  quiet m -> (forall x, moves q ok (f x)) -> moves q ok (m ≫= f).
Proof.
  intros Hm Hf. apply (moves_bind q (eq q) ok); [apply Hm|].
  now intros x q1 <-.
Qed.

Lemma quiet_bind {A B} (m : M A) (f : A -> M B) :
  quiet m -> (forall x, quiet (f x)) -> quiet (m ≫= f).
Proof. intros Hm Hf q. apply moves_bind_quiet; [exact Hm|]. intros x. apply Hf. Qed.

(** A computation that leaves the state alone is quiet. *)
Lemma quiet_silent {A} (m : M A) : (forall st, snd (m st) = st) -> quiet m.
Proof.
  intros H q st r st' E. specialize (H st). rewrite E in H. cbn in H. subst st'.
  split; [reflexivity|]. exists [], q. rewrite app_nil_r. now repeat split.
Qed.

Lemma quiet_ret {A} (x : A) : quiet (mret x).
Proof. now apply quiet_silent. Qed.

Lemma quiet_lift {A} (r : result A) : quiet (lift r).
Proof. now apply quiet_silent. Qed.

Lemma quiet_raise {A} (e : exn) : quiet (@raise A e).
Proof. now apply quiet_silent. Qed.

Lemma quiet_sys_exit {A} (code : Z) : quiet (@sys_exit A code).
Proof. now apply quiet_silent. Qed.

Lemma quiet_Path_exists (p : PurePath) : quiet (Path_exists p).
Proof. now apply quiet_silent. Qed.

Lemma quiet_Path_is_dir (p : PurePath) : quiet (Path_is_dir p).
Proof. now apply quiet_silent. Qed.

Lemma quiet_discovery (c : collab) (folder : pystr) :
  quiet (call_get_all_image_paths c folder).
Proof. now apply quiet_silent. Qed.

Lemma quiet_load_config (c : collab) (path : pystr) : quiet (load_config c path).
Proof. apply quiet_silent. apply load_config_read_only. Qed.

Lemma quiet_load_labels (v : pyval) : quiet (load_labels v).
Proof. apply quiet_silent. apply load_labels_read_only. Qed.

Lemma quiet_log (lvl : level) (b : bool) (msg : list frag) :
  quiet (emit (EvLog lvl b msg)).
Proof.
  intros q [fs cwd tr] r st'. unfold emit. intros [= <- <-].
  split; [reflexivity|]. exists [EvLog lvl b msg], q. now repeat split.
Qed.

Lemma quiet_logger_info (msg : list frag) : quiet (logger_info msg).
Proof. apply quiet_log. Qed.

Lemma quiet_logger_warning (msg : list frag) : quiet (logger_warning msg).
Proof. apply quiet_log. Qed.

Lemma quiet_logger_error (msg : list frag) : quiet (logger_error msg).
Proof. apply quiet_log. Qed.

Lemma quiet_logger_exception (msg : list frag) : quiet (logger_exception msg).
Proof. apply quiet_log. Qed.

#[export] Hint Resolve quiet_ret quiet_lift quiet_raise quiet_sys_exit
  quiet_Path_exists quiet_Path_is_dir quiet_discovery quiet_load_config
  quiet_load_labels quiet_logger_info quiet_logger_warning quiet_logger_error
  quiet_logger_exception : quiet.

(** What never returns normally satisfies every promise about the phase. *)
Lemma moves_never_ok {A} (q : phase) (ok : phase -> Prop) (m : M A) :
  quiet m -> (forall st x, fst (m st) <> Ok x) -> moves q ok m.
Proof.
  intros Hm Hne st r st' E. destruct (Hm q st r st' E) as [Hc [new [q' [Ht [Hr _]]]]].
  split; [exact Hc|]. exists new, q'. repeat split; try assumption.
  intros x ->. exfalso. apply (Hne st x). now rewrite E.
Qed.

Lemma moves_raise {A} (q : phase) (ok : phase -> Prop) (e : exn) :
  moves q ok (@raise A e).
Proof. apply moves_never_ok; [apply quiet_raise|discriminate]. Qed.

Lemma moves_sys_exit {A} (q : phase) (ok : phase -> Prop) (code : Z) :
  moves q ok (@sys_exit A code).
Proof. apply moves_never_ok; [apply quiet_sys_exit|discriminate]. Qed.

Lemma moves_quiet {A} (q : phase) (m : M A) : quiet m -> moves q (eq q) m.
Proof. intros H. apply H. Qed.

Lemma moves_init (c : collab) (a : init_args) :
  moves Idle (eq Built) (call_DetectAndClassify c a).
Proof.
  intros st r st'. unfold call_DetectAndClassify.
  destruct (DetectAndClassify c _ _ a) as [fs' [e|]]; intros [= <- <-];
    (split; [reflexivity|]); exists [EvInit a], Built; now repeat split.
Qed.

Lemma moves_predict (c : collab) (a : predict_args) (q : phase) :
  q = Built \/ q = Prepared ->
  moves q (eq Predicted) (call_predict c a).
Proof.
  intros Hq st r st'. unfold call_predict.
  destruct (predict c _ _ a) as [fs' [e|]]; intros [= <- <-];
    (split; [reflexivity|]); exists [EvPredict a], Predicted;
    destruct Hq as [-> | ->]; now repeat split.
Qed.

Lemma moves_mkdir (p : PurePath) :
  moves Built (eq Prepared) (Path_mkdir p true true).
Proof.
  intros st r st'. unfold Path_mkdir.
  destruct (mkdir_parents _ _ _ _ _) as [fs' [e|]]; intros [= <- <-];
    (split; [reflexivity|]); exists [EvMkdir p true true], Prepared;
    now repeat split.
Qed.

Lemma moves_resolve (v : pyval) (folder : PurePath) :
  moves Built (fun q => q = Built \/ q = Prepared) (resolve_output_stem v folder).
Proof.
  unfold resolve_output_stem.
  apply moves_bind_quiet; [auto with quiet|]. intros p.
  apply moves_bind_quiet; [auto with quiet|]. intros p'.
  destruct (pystr_eqb _ _).
  - intros st r st' E. destruct (quiet_ret (str (joinpath folder (name p'))) Built st r st' E)
      as [Hc [new [q' [Ht [Hr Hok]]]]].
    split; [exact Hc|]. exists new, q'. repeat split; try assumption.
    intros x Hx. left. symmetry. now apply (Hok x).
  - apply (moves_bind Built (eq Prepared)); [apply moves_mkdir|].
    intros [] q1 <-. intros st r st' E.
    destruct (quiet_ret (str p') Prepared st r st' E) as [Hc [new [q' [Ht [Hr Hok]]]]].
    split; [exact Hc|]. exists new, q'. repeat split; try assumption.
    intros x Hx. right. symmetry. now apply (Hok x).
Qed.

Ltac moves_go :=
  repeat first
    [ progress intros
    | progress cbv zeta
    | apply moves_raise
    | apply moves_sys_exit
    | apply moves_bind_quiet; [solve [auto with quiet] | ]
    | apply moves_quiet; solve [auto with quiet]
    | match goal with
      | |- moves _ _ (if ?b then _ else _) => destruct b
      | |- moves _ _ (match ?x with _ => _ end) => destruct x
      end ].

Lemma moves_main_try (c : collab) (args : Args) :
  moves Idle (eq Predicted) (main_try c args).
Proof.
  unfold main_try. moves_go.
  apply (moves_bind Idle (eq Built)); [apply moves_init|]. intros [] q1 <-.
  moves_go.
  apply (moves_bind Built (fun q => q = Built \/ q = Prepared));
    [apply moves_resolve|].
  intros stem q1 Hq1.
  apply (moves_bind q1 (eq Predicted)); [now apply moves_predict|].
  intros [] q2 <-. moves_go.
Qed.

Lemma quiet_main_except (e : exn) : quiet (main_except e).
Proof.
  unfold main_except.
  destruct (is_FileNotFoundError _); [apply quiet_bind; auto with quiet|].
  destruct (is_ValueError _); [apply quiet_bind; auto with quiet|].
  destruct (is_Exception _); [apply quiet_bind; auto with quiet|].
  auto with quiet.
Qed.

(** The calls that lead from one phase to another. *)
Lemma protocol_from_Predicted (evs : list event) (q' : phase) :
  run_protocol Predicted evs = Some q' ->
  q' = Predicted /\ List.filter is_call evs = [].
Proof.
  induction evs as [|ev evs IH]; cbn [run_protocol List.filter].
  - now intros [= <-].
  - destruct ev as [lvl b msg|p pa eo|a|a]; cbn [advance is_call];
      try discriminate; try (destruct pa, eo; discriminate). exact IH.
Qed.

Lemma protocol_from_Prepared (evs : list event) (q' : phase) :
  run_protocol Prepared evs = Some q' ->
  (q' = Prepared /\ List.filter is_call evs = [])
  \/ (q' = Predicted /\ exists b, List.filter is_call evs = [EvPredict b]).
Proof.
  induction evs as [|ev evs IH]; cbn [run_protocol List.filter].
  - intros [= <-]. now left.
  - destruct ev as [lvl b msg|p pa eo|a|a]; cbn [advance is_call];
      try discriminate; try (destruct pa, eo; discriminate).
    + exact IH.
    + intros H. apply protocol_from_Predicted in H as [-> ->]. right. eauto.
Qed.

Lemma protocol_from_Built (evs : list event) (q' : phase) :
  run_protocol Built evs = Some q' ->
  (q' = Built /\ List.filter is_call evs = [])
  \/ (q' = Prepared /\ exists p, List.filter is_call evs = [EvMkdir p true true])
  \/ (q' = Predicted /\ exists b, List.filter is_call evs = [EvPredict b])
  \/ (q' = Predicted
      /\ exists p b, List.filter is_call evs = [EvMkdir p true true; EvPredict b]).
Proof.
  induction evs as [|ev evs IH]; cbn [run_protocol List.filter].
  - intros [= <-]. now left.
  - destruct ev as [lvl b msg|p pa eo|a|a]; cbn [advance is_call];
      try discriminate.
    + exact IH.
    + destruct pa, eo; try discriminate. intros H.
      apply protocol_from_Prepared in H as [[-> ->]|[-> [b ->]]]; eauto 8.
    + intros H. apply protocol_from_Predicted in H as [-> ->]. eauto 8.
Qed.

Lemma protocol_from_Idle (evs : list event) (q' : phase) :
  run_protocol Idle evs = Some q' ->
  protocol_shape (List.filter is_call evs)
  /\ (q' = Predicted ->
      calls is_init evs = 1%nat /\ calls is_predict evs = 1%nat
      /\ exists b, last (List.filter is_call evs) = Some (EvPredict b)).
Proof.
  unfold calls.
  induction evs as [|ev evs IH]; cbn [run_protocol List.filter].
  - intros [= <-]. split; [exact I|discriminate].
  - destruct ev as [lvl b msg|p pa eo|a|a]; cbn [advance is_call is_init is_predict];
      try discriminate; try (destruct pa, eo; discriminate).
    + exact IH.
    + intros H. assert (Hlog : forall P, (forall ev, P ev = true -> is_call ev = true) ->
        List.filter P evs = List.filter P (List.filter is_call evs)).
      { intros P HP. clear H IH. induction evs as [|ev evs IH]; [reflexivity|].
        cbn [List.filter]. destruct (P ev) eqn:E.
        - rewrite (HP ev E). cbn [List.filter]. rewrite E. now f_equal.
        - destruct (is_call ev); [cbn [List.filter]; rewrite E|]; exact IH. }
      rewrite (Hlog is_init), (Hlog is_predict);
        [| now intros [] | now intros []].
      apply protocol_from_Built in H
        as [[-> ->]|[[-> [p ->]]|[[-> [b ->]]|[-> [p [b ->]]]]]];
        (split; [exact I|]); try discriminate; intros _; cbn; eauto.
Qed.

Lemma main_except_final (e : exn) (fs : fsys) (cwd : list pystr)
    (tr : list event) :
  main_except e (State fs cwd tr) = (final e, State fs cwd (tr ++ reported e)).
Proof.
  unfold final, reported. destruct (is_Exception (exn_class e)) eqn:He.
  - now rewrite main_except_reports.
  - unfold main_except. destruct (exn_class e); try discriminate.
    cbn. unfold raise. now rewrite app_nil_r.
Qed.

(** X7: whatever the collaborators, the files and the arguments, a run
    calls the pipeline in one order only: the constructor first, then at
    most one request for the output directory (with parents and exist_ok
    set), then at most one [predict]; nothing after [predict] and nothing,
    in particular no directory, before the constructor.  A run that
    returns normally has called the constructor and [predict] exactly
    once each, [predict] last.  The working directory is never changed and
    the events already recorded stay. *)
Theorem main_call_protocol (c : collab) (args : Args) (st : state) :
  st_cwd (snd (main c args st)) = st_cwd st
  /\ exists new,
       st_trace (snd (main c args st)) = st_trace st ++ new
       /\ protocol_shape (List.filter is_call new)
       /\ (fst (main c args st) = Ok tt ->
           calls is_init new = 1%nat /\ calls is_predict new = 1%nat
           /\ exists b, last (List.filter is_call new) = Some (EvPredict b)).
Proof.
  unfold main.
  destruct (main_try c args st) as [[[]|e] st1] eqn:E;
    destruct (moves_main_try c args st _ _ E) as [Hc [new [q [Ht [Hr Hok]]]]].
  - cbn [fst snd]. split; [exact Hc|]. exists new. split; [exact Ht|].
    destruct (protocol_from_Idle new q Hr) as [Hs Hn]. split; [exact Hs|].
    intros _. apply Hn. symmetry. now apply (Hok tt).
  - destruct (main_except e st1) as [r st2] eqn:E2.
    destruct (quiet_main_except e q st1 _ _ E2) as [Hc2 [new2 [q2 [Ht2 [Hr2 Hok2]]]]].
    cbn [fst snd]. split; [congruence|]. exists (new ++ new2).
    split; [rewrite Ht2, Ht; now rewrite app_assoc|].
    assert (Hrun : run_protocol Idle (new ++ new2) = Some q2)
      by now rewrite run_protocol_app, Hr.
    destruct (protocol_from_Idle _ q2 Hrun) as [Hs Hn]. split; [exact Hs|].
    intros ->. exfalso. destruct st1 as [fs1 cwd1 tr1].
    rewrite main_except_final in E2. unfold final in E2.
    destruct (is_Exception (exn_class e)); discriminate.
Qed.

(** ** The pipeline stage *)

Lemma required_present (d : gmap pystr pyval) :
  missing_fields d = [] ->
  exists detector classifier,
    d !! py "detector_path" = Some detector
    /\ d !! py "classifier_path" = Some classifier.
Proof.
  intros Hm.
  assert (H : forall field, In field required_fields -> d !! field <> None).
  { intros field Hin Hnone.
    assert (Hf : In field (missing_fields d)) by now apply missing_fields_spec.
    now rewrite Hm in Hf. }
  destruct (d !! py "detector_path") as [dv|] eqn:E1.
  2:{ exfalso. apply (H (py "detector_path")); [cbn; tauto|exact E1]. }
  destruct (d !! py "classifier_path") as [cv|] eqn:E2.
  2:{ exfalso. apply (H (py "classifier_path")); [cbn; tauto|exact E2]. }
  eauto.
Qed.

Lemma effective_output_name_total (output : option pystr) (d : gmap pystr pyval) :
  exists out, effective_output_name output (PyDict d) = Ok out.
Proof.
  unfold effective_output_name, py_get.
  destruct output as [s|]; [destruct (truthy s)|]; eauto.
Qed.

Lemma resolve_frame (v : pyval) (folder : PurePath) (fs : fsys)
    (cwd : list pystr) (tr : list event) :
  resolve_output_stem v folder (State fs cwd tr)
  = (fst (resolve_output_stem v folder (State fs cwd [])),
     State (st_fs (snd (resolve_output_stem v folder (State fs cwd []))))
       cwd
       (tr ++ st_trace (snd (resolve_output_stem v folder (State fs cwd []))))).
Proof.
  destruct v as [| | | |requested| |];
    try (unfold resolve_output_stem, Path; msimpl; cbn [fst snd st_fs st_trace];
         now rewrite app_nil_r).
  rewrite !resolve_output_stem_eq. cbv zeta.
  destruct (pystr_eqb (name (parse requested)) []);
    [cbn [fst snd st_fs st_trace]; now rewrite app_nil_r|].
  destruct (pystr_eqb (str (parent (parse requested))) [DOT]);
    [cbn [fst snd st_fs st_trace]; now rewrite app_nil_r|].
  unfold Path_mkdir. cbv beta iota zeta delta [st_fs st_cwd st_trace].
  destruct (mkdir_parents _ _ _ _ _) as [fs' [e|]]; reflexivity.
Qed.

Section PipelineStage.
Variable c : collab.
Variable args : Args.
Variable cwd : list pystr.
Variable fs : fsys.
Variable tr : list event.
Variable d : gmap pystr pyval.
Variables labels images : list pystr.
Variables detector classifier out : pyval.
Variable path : pystr.
Hypothesis Hready : ready c cwd fs args d labels images.
Hypothesis Hdetector : d !! py "detector_path" = Some detector.
Hypothesis Hclassifier : d !! py "classifier_path" = Some classifier.
Hypothesis Hlabel_path : d !! py "label_path" = Some (PyStr path).
Hypothesis Hout : effective_output_name (args_output args) (PyDict d) = Ok out.

Let a := init_args_of d detector classifier labels.
Let folder := parse (args_image_folder args).
Let prefix := before_init args d path labels images a out.

Lemma main_try_at_pipeline :
  main_try c args (State fs cwd tr)
  = (call_DetectAndClassify c a;;
     main_after_init c folder images (batch_size_of d) (topn_of d) out)
      (State fs cwd (tr ++ prefix)).
Proof.
  destruct Hready
    as [Hcfg [[path' [kl [t [Hlp [Hstat [Hlabels Hne]]]]]] [[k Hdir] [Himg Hsome]]]].
  assert (path' = path) as -> by congruence.
  unfold main_try. msimpl.
  rewrite (load_config_run c args cwd fs d _ Hcfg). cbv beta iota zeta.
  rewrite !(getitem_found d _ _ Hlp). cbv beta iota zeta.
  rewrite (load_labels_run cwd fs path kl t _ Hstat) by now rewrite Hlabels.
  cbv beta iota zeta.
  rewrite (stat_exists _ _ _ _ _ Hdir), (stat_is_dir _ _ _ _ Hdir).
  cbn [negb]. rewrite Himg. cbv beta iota zeta.
  destruct images as [|i images']; [contradiction|]. cbv beta iota zeta.
  rewrite (getitem_found d _ _ Hdetector), (getitem_found d _ _ Hclassifier).
  unfold py_get. cbv beta iota zeta. rewrite Hout. cbv beta iota zeta.
  rewrite Hlabels.
  unfold prefix, a, folder, main_after_init, before_init, log_summary.
  msimpl. rewrite <- !app_assoc. reflexivity.
Qed.

Lemma main_after_init_run (fs1 fs2 fs3 : fsys) (tr1 mk : list event)
    (stem : pystr) (oe : option exn) :
  resolve_output_stem out folder (State fs1 cwd []) = (Ok stem, State fs2 cwd mk) ->
  predict c cwd fs2 (PredictArgs images (batch_size_of d) (topn_of d) stem true)
  = (fs3, oe) ->
  main_after_init c folder images (batch_size_of d) (topn_of d) out
    (State fs1 cwd tr1)
  = (match oe with None => Ok tt | Some e => Raise e end,
     State fs3 cwd
       (tr1 ++ log_starting ++ mk
        ++ [EvPredict (PredictArgs images (batch_size_of d) (topn_of d) stem true)]
        ++ match oe with None => log_saved stem | Some _ => [] end)).
Proof.
  intros Hres Hpred. unfold main_after_init. msimpl.
  rewrite resolve_frame, Hres. cbn [fst snd st_fs st_trace].
  unfold call_predict. cbv beta iota zeta delta [st_fs st_cwd st_trace].
  rewrite Hpred. destruct oe as [e|]; unfold log_starting, log_saved;
    rewrite <- ?app_assoc; cbn [app]; rewrite <- ?app_assoc; reflexivity.
Qed.

Lemma main_after_init_unresolved (fs1 fs2 : fsys) (tr1 mk : list event) (e : exn) :
  resolve_output_stem out folder (State fs1 cwd []) = (Raise e, State fs2 cwd mk) ->
  main_after_init c folder images (batch_size_of d) (topn_of d) out
    (State fs1 cwd tr1)
  = (Raise e, State fs2 cwd (tr1 ++ log_starting ++ mk)).
Proof.
  intros Hres. unfold main_after_init. msimpl.
  rewrite resolve_frame, Hres. cbn [fst snd st_fs st_trace].
  unfold log_starting. rewrite <- ?app_assoc. reflexivity.
Qed.

Lemma moves_main_after_init (q : pyval) :
  moves Built (eq Predicted)
    (main_after_init c folder images (batch_size_of d) (topn_of d) q).
Proof.
  unfold main_after_init. moves_go.
  apply (moves_bind Built (fun q => q = Built \/ q = Prepared));
    [apply moves_resolve|].
  intros stem q1 Hq1.
  apply (moves_bind q1 (eq Predicted)); [now apply moves_predict|].
  intros [] q2 <-. moves_go.
Qed.

(** X8: once configuration and labels are loaded and images were found,
    the run logs the parameter summary and then calls the constructor with
    the two model paths of the configuration, the labels of the label
    file, and [classifier_base], [detection_threshold] and
    [classification_threshold] from the configuration, or
    ["tf_efficientnet_b5.ns_jft_in1k"], 0.1 and 0.5 where it has none;
    nothing but log records comes before this call. *)
Theorem constructor_call :
  exists rest,
    st_trace (snd (main c args (State fs cwd tr)))
    = tr ++ before_init args d path labels images
              (init_args_of d detector classifier labels) out
         ++ EvInit (init_args_of d detector classifier labels) :: rest.
Proof.
  fold a prefix. unfold main. rewrite main_try_at_pipeline.
  unfold mbind at 1. unfold M_bind, call_DetectAndClassify.
  cbv beta iota zeta delta [st_fs st_cwd st_trace].
  destruct (DetectAndClassify c cwd fs a) as [fs1 [e|]].
  - rewrite main_except_final. exists (reported e). cbn [snd st_trace].
    now rewrite <- !app_assoc.
  - destruct (main_after_init _ _ _ _ _ _ _) as [[[]|e] [fs2 cwd2 tr2]] eqn:E;
      destruct (moves_main_after_init out _ _ _ E) as [_ [new [_ [Ht _]]]];
      cbn [st_trace] in Ht; subst tr2.
    + exists new. cbn [snd st_trace]. now rewrite <- !app_assoc.
    + rewrite main_except_final. exists (new ++ reported e). cbn [snd st_trace].
      now rewrite <- !app_assoc.
Qed.

(** X9: when the constructor raises, the run stops there: an [Exception]
    is reported by its class and the exit status is 1, anything else (a
    [SystemExit] of the library, say) passes through unrecorded; no
    directory is made and [predict] is not called, and the file system is
    the one the constructor left. *)
Theorem constructor_failure (fs1 : fsys) (e : exn) :
  DetectAndClassify c cwd fs (init_args_of d detector classifier labels)
  = (fs1, Some e) ->
  main c args (State fs cwd tr)
  = (final e,
     State fs1 cwd
       (tr ++ before_init args d path labels images
                (init_args_of d detector classifier labels) out
           ++ [EvInit (init_args_of d detector classifier labels)]
           ++ reported e)).
Proof.
  fold a prefix. intros Hinit. unfold main. rewrite main_try_at_pipeline.
  unfold mbind at 1. unfold M_bind, call_DetectAndClassify.
  cbv beta iota zeta delta [st_fs st_cwd st_trace]. rewrite Hinit.
  rewrite main_except_final. now rewrite <- !app_assoc.
Qed.

(** X10: when the constructor returns, the output name resolves to the
    stem [stem] and [predict] returns, the run calls [predict] once, with
    the images found, [classification_batch_size] and [topn] of the
    configuration (4 and 1 where it has none), the stem, and the progress
    bar on; it then logs "Results saved to: stem.csv and stem.json" and
    "Done!" and returns normally. *)
Theorem successful_run (fs1 fs2 fs3 : fsys) (mk : list event) (stem : pystr) :
  DetectAndClassify c cwd fs (init_args_of d detector classifier labels)
  = (fs1, None) ->
  resolve_output_stem out (parse (args_image_folder args)) (State fs1 cwd [])
  = (Ok stem, State fs2 cwd mk) ->
  predict c cwd fs2 (PredictArgs images (batch_size_of d) (topn_of d) stem true)
  = (fs3, None) ->
  main c args (State fs cwd tr)
  = (Ok tt,
     State fs3 cwd
       (tr ++ before_init args d path labels images
                (init_args_of d detector classifier labels) out
           ++ [EvInit (init_args_of d detector classifier labels)]
           ++ log_starting ++ mk
           ++ [EvPredict (PredictArgs images (batch_size_of d) (topn_of d)
                            stem true)]
           ++ log_saved stem)).
Proof.
  fold a prefix folder. intros Hinit Hres Hpred.
  unfold main. rewrite main_try_at_pipeline.
  unfold mbind at 1. unfold M_bind, call_DetectAndClassify.
  cbv beta iota zeta delta [st_fs st_cwd st_trace]. rewrite Hinit.
  rewrite (main_after_init_run fs1 fs2 fs3 _ mk stem None Hres Hpred).
  now rewrite <- !app_assoc.
Qed.

(** X11: when [predict] raises, the run ends right after the call: the
    exception is reported by its class with exit status 1 (or passes
    through, when it is no [Exception]), and neither "Results saved to"
    nor "Done!" is logged. *)
Theorem predict_failure (fs1 fs2 fs3 : fsys) (mk : list event) (stem : pystr)
    (e : exn) :
  DetectAndClassify c cwd fs (init_args_of d detector classifier labels)
  = (fs1, None) ->
  resolve_output_stem out (parse (args_image_folder args)) (State fs1 cwd [])
  = (Ok stem, State fs2 cwd mk) ->
  predict c cwd fs2 (PredictArgs images (batch_size_of d) (topn_of d) stem true)
  = (fs3, Some e) ->
  main c args (State fs cwd tr)
  = (final e,
     State fs3 cwd
       (tr ++ before_init args d path labels images
                (init_args_of d detector classifier labels) out
           ++ [EvInit (init_args_of d detector classifier labels)]
           ++ log_starting ++ mk
           ++ [EvPredict (PredictArgs images (batch_size_of d) (topn_of d)
                            stem true)]
           ++ reported e)).
Proof.
  fold a prefix folder. intros Hinit Hres Hpred.
  unfold main. rewrite main_try_at_pipeline.
  unfold mbind at 1. unfold M_bind, call_DetectAndClassify.
  cbv beta iota zeta delta [st_fs st_cwd st_trace]. rewrite Hinit.
  rewrite (main_after_init_run fs1 fs2 fs3 _ mk stem (Some e) Hres Hpred).
  rewrite main_except_final. rewrite <- !app_assoc. cbn [app].
  now rewrite <- ?app_assoc.
Qed.

(** X12: an output name that cannot be used is found out only after the
    models are loaded.  A name without final component (["."], ["/"],
    [""] from the configuration) makes [with_suffix] raise a [ValueError],
    reported as "Configuration error"; a value that is no string makes
    [Path] raise a [TypeError], reported as "Unexpected error".  Either
    way the exit status is 1, no directory is made and [predict] is not
    called. *)
Theorem unusable_output_name (fs1 : fsys) :
  DetectAndClassify c cwd fs (init_args_of d detector classifier labels)
  = (fs1, None) ->
  forall e,
    (exists requested,
       out = PyStr requested /\ parts (parse requested) = []
       /\ e = Exn ValueError None)
    \/ (not_a_string out /\ e = Exn TypeError None) ->
    main c args (State fs cwd tr)
    = (Raise (Exn (SystemExit 1) None),
       State fs1 cwd
         (tr ++ before_init args d path labels images
                  (init_args_of d detector classifier labels) out
             ++ [EvInit (init_args_of d detector classifier labels)]
             ++ log_starting ++ [report e])).
Proof.
  fold a prefix folder. intros Hinit e He.
  assert (Hres : resolve_output_stem out folder (State fs1 cwd [])
                 = (Raise e, State fs1 cwd [])).
  { destruct He as [[requested [-> [Hparts ->]]]|[Hns ->]].
    - rewrite resolve_output_stem_eq. cbv zeta. unfold name. now rewrite Hparts.
    - destruct out; try contradiction; reflexivity. }
  assert (Hexc : is_Exception (exn_class e) = true)
    by (destruct He as [[? [_ [_ ->]]]|[_ ->]]; reflexivity).
  unfold main. rewrite main_try_at_pipeline.
  unfold mbind at 1. unfold M_bind, call_DetectAndClassify.
  cbv beta iota zeta delta [st_fs st_cwd st_trace]. rewrite Hinit.
  rewrite (main_after_init_unresolved fs1 fs1 _ [] e Hres).
  rewrite main_except_final. unfold final, reported. rewrite Hexc.
  rewrite app_nil_r, <- !app_assoc. reflexivity.
Qed.

End PipelineStage.

(** ** How a run ends *)

Create HintDb ends.

Lemma ends_bind {A B} (ok1 ok : state -> Prop) (bad : exn -> state -> Prop)
    (m : M A) (f : A -> M B) :
  ends ok1 bad m -> (forall x, ends ok bad (f x)) -> ends ok bad (m ≫= f).
Proof.
  intros Hm Hf st r st'. unfold mbind, M_bind.
  destruct (m st) as [[x|e] st1] eqn:E.
  - apply Hf.
  - intros [= <- <-]. exact (Hm st _ _ E).
Qed.

Lemma ends_weaken {A} (ok1 ok : state -> Prop) (bad : exn -> state -> Prop)
    (m : M A) :
  ends ok1 bad m -> (forall st, ok1 st -> ok st) -> ends ok bad m.
Proof.
  intros Hm Hok st r st' E. specialize (Hm st r st' E).
  destruct r; [now apply Hok|exact Hm].
Qed.

Lemma ends_lift {A} (r : result A) :
  (forall e, r = Raise e -> is_Exception (exn_class e) = true) ->
  ends anywhere raised (lift r).
Proof.
  intros H st r' st'. unfold lift. intros [= <- <-].
  destruct r as [x|e]; [exact I|]. left. now apply H.
Qed.

Lemma ends_raise {A} (ok : state -> Prop) (e : exn) :
  is_Exception (exn_class e) = true -> ends ok raised (@raise A e).
Proof. intros H st r st'. unfold raise. intros [= <- <-]. now left. Qed.

Lemma ends_ret {A} (x : A) : ends anywhere raised (mret x).
Proof. intros st r st'. unfold mret, M_ret. now intros [= <- <-]. Qed.

Lemma ends_log (lvl : level) (b : bool) (msg : list frag) :
  ends (fun st => last (st_trace st) = Some (EvLog lvl b msg)) raised
    (emit (EvLog lvl b msg)).
Proof.
  intros [fs cwd tr] r st'. unfold emit. intros [= <- <-].
  cbn [st_trace]. apply list.last_snoc.
Qed.

Lemma ends_log_anywhere (lvl : level) (b : bool) (msg : list frag) :
  ends anywhere raised (emit (EvLog lvl b msg)).
Proof. apply (ends_weaken _ _ _ _ (ends_log lvl b msg)). now intros. Qed.

(** The kernel's resolution never gives Python's answer. *)
Lemma walk_kernel (fs : fsys) (cs : list pystr) :
  forall cur c, OS.walk fs cur cs <> OS.Rejected c.
Proof.
  induction cs as [|x cs IH]; intros cur c.
  - rewrite walk_nil. destruct (fs !! cur); discriminate.
  - rewrite walk_cons. destruct (fs !! cur) as [[|]|]; try discriminate.
    destruct (OS.NAME_MAX <? OS.byte_length x)%nat; [discriminate|apply IH].
Qed.

(** Whatever a lookup fails with is an [Exception]. *)
Lemma stat_class (cwd : list pystr) (fs : fsys) (p : PurePath) :
  is_Exception (OS.error_class (OS.stat cwd fs p)) = true.
Proof.
  unfold OS.stat. destruct (OS.refused p) as [r|] eqn:E.
  - destruct (refused_shape _ _ E) as [-> |[-> | ->]]; reflexivity.
  - destruct (OS.walk fs _ _) as [k n| | | |c] eqn:Ew; try reflexivity.
    now apply walk_kernel in Ew.
Qed.

Lemma path_exists_class (cwd : list pystr) (fs : fsys) (p : PurePath) (e : exn) :
  path_exists cwd fs p = Raise e -> is_Exception (exn_class e) = true.
Proof.
  unfold path_exists. destruct (OS.stat cwd fs p) as [k n| | | |c];
    try discriminate. now intros [= <-].
Qed.

Lemma is_dir_class (cwd : list pystr) (fs : fsys) (p : PurePath) (e : exn) :
  is_dir cwd fs p = Raise e -> is_Exception (exn_class e) = true.
Proof.
  unfold is_dir. destruct (OS.stat cwd fs p) as [k [|d]| | | |c];
    try discriminate. now intros [= <-].
Qed.

Lemma ends_Path_exists (p : PurePath) : ends anywhere raised (Path_exists p).
Proof.
  intros st r st'. unfold Path_exists. intros [= <- <-].
  destruct (path_exists _ _ p) as [b|e] eqn:E; [exact I|].
  left. exact (path_exists_class _ _ _ _ E).
Qed.

Lemma ends_Path_is_dir (p : PurePath) : ends anywhere raised (Path_is_dir p).
Proof.
  intros st r st'. unfold Path_is_dir. intros [= <- <-].
  destruct (is_dir _ _ p) as [b|e] eqn:E; [exact I|].
  left. exact (is_dir_class _ _ _ _ E).
Qed.

Lemma ends_open_read (p : PurePath) : ends anywhere raised (open_read p).
Proof.
  intros st r st'. unfold open_read. intros [= <- <-].
  pose proof (stat_class (st_cwd st) (st_fs st) p) as Hc.
  destruct (OS.stat _ _ _) as [k [|dta]| | | |c]; try exact I; now left.
Qed.

Lemma ends_logged_text (render : list event -> option pystr) :
  ends anywhere raised (logged_text render).
Proof.
  intros st r st'. unfold logged_text.
  destruct (render (st_trace st)); intros [= <- <-]; [exact I|now left].
Qed.

Lemma ends_read_lines (f : file_data) : ends anywhere raised (read_lines f).
Proof.
  destruct f as [t| |render]; [apply ends_ret|now apply ends_raise|].
  eapply ends_bind; [apply ends_logged_text|]. intros t. apply ends_ret.
Qed.

Lemma os_mkdir_error (cwd : list pystr) (fs : fsys) (p : PurePath)
    (k : exc_class) :
  OS.mkdir cwd fs p = inr k -> is_Exception k = true.
Proof.
  unfold OS.mkdir. destruct (OS.refused p) as [r|] eqn:E.
  - intros [= <-].
    destruct (refused_shape _ _ E) as [-> |[-> | ->]]; reflexivity.
  - destruct (OS.walk fs _ _) as [at_ [|dta]| | | |c] eqn:Ew;
      try (intros [= <-]; reflexivity).
    + destruct (parts p); [now intros [= <-]|].
      destruct (OS.special _); [now intros [= <-]|].
      destruct (_ <? _)%nat; [now intros [= <-]|].
      destruct (fs !! _); [now intros [= <-]|discriminate].
    + destruct (parts p); now intros [= <-].
    + now apply walk_kernel in Ew.
Qed.

Lemma mkdir_failed_raises (cwd : list pystr) (fs fs' : fsys) (p : PurePath)
    (exist_ok : bool) (k : exc_class) (e : exn) :
  is_Exception k = true ->
  mkdir_failed cwd fs p exist_ok k = (fs', Some e) ->
  is_Exception (exn_class e) = true.
Proof.
  intros Hk. unfold mkdir_failed. destruct (is_OSError k && exist_ok).
  - destruct (is_dir cwd fs p) as [[|]|e0] eqn:E; try discriminate.
    + now intros [= _ <-].
    + intros [= _ <-]. exact (is_dir_class _ _ _ _ E).
  - now intros [= _ <-].
Qed.

Lemma mkdir_once_raises (cwd : list pystr) (fs fs' : fsys) (p : PurePath)
    (exist_ok : bool) (e : exn) :
  mkdir_once cwd fs p exist_ok = (fs', Some e) ->
  is_Exception (exn_class e) = true.
Proof.
  unfold mkdir_once. destruct (OS.mkdir cwd fs p) as [fs1|k] eqn:E; [discriminate|].
  pose proof (os_mkdir_error _ _ _ _ E) as Hk.
  destruct k; try (now apply mkdir_failed_raises); now intros [= _ <-].
Qed.

Lemma mkdir_parents_raises (cwd : list pystr) (r : pystr) (rparts : list pystr) :
  forall (exist_ok : bool) (fs fs' : fsys) (e : exn),
    mkdir_parents cwd r rparts exist_ok fs = (fs', Some e) ->
    is_Exception (exn_class e) = true.
Proof.
  induction rparts as [|x rparent IH]; intros exist_ok fs fs' e;
    rewrite mkdir_parents_eq; cbv zeta;
    (destruct (OS.mkdir cwd fs _) as [fs1|k] eqn:E; [discriminate|]);
    pose proof (os_mkdir_error _ _ _ _ E) as Hk;
    destruct k; try (now apply mkdir_failed_raises).
  - now intros [= _ <-].
  - destruct (mkdir_parents cwd r rparent true fs) as [fs1 [e1|]] eqn:E1.
    + intros [= _ <-]. exact (IH _ _ _ _ E1).
    + apply mkdir_once_raises.
Qed.

Lemma ends_Path_mkdir (p : PurePath) (parents exist_ok : bool) :
  ends anywhere raised (Path_mkdir p parents exist_ok).
Proof.
  intros st r st'. unfold Path_mkdir.
  destruct parents.
  - destruct (mkdir_parents _ _ _ _ _) as [fs' [e|]] eqn:E; intros [= <- <-];
      [left; exact (mkdir_parents_raises _ _ _ _ _ _ _ E)|exact I].
  - destruct (mkdir_once _ _ _ _) as [fs' [e|]] eqn:E; intros [= <- <-];
      [left; exact (mkdir_once_raises _ _ _ _ _ _ E)|exact I].
Qed.

Lemma getitem_raises (v : pyval) (key : pystr) (e : exn) :
  py_getitem v key = Raise e -> is_Exception (exn_class e) = true.
Proof.
  unfold py_getitem. destruct v as [| | | | | |d]; try (now intros [= <-]).
  destruct (d !! key); [discriminate|now intros [= <-]].
Qed.

Lemma get_raises (v : pyval) (key : pystr) (dflt : pyval) (e : exn) :
  py_get v key dflt = Raise e -> is_Exception (exn_class e) = true.
Proof. unfold py_get. destruct v; try discriminate; now intros [= <-]. Qed.

Lemma effective_output_name_raises (o : option pystr) (v : pyval) (e : exn) :
  effective_output_name o v = Raise e -> is_Exception (exn_class e) = true.
Proof.
  unfold effective_output_name.
  destruct o as [s|]; [destruct (truthy s); [discriminate|]|]; apply get_raises.
Qed.

Lemma Path_raises (v : pyval) (e : exn) :
  Path v = Raise e -> is_Exception (exn_class e) = true.
Proof. unfold Path. destruct v; try discriminate; now intros [= <-]. Qed.

Lemma with_suffix_raises (p : PurePath) (sfx : pystr) (e : exn) :
  with_suffix p sfx = Raise e -> is_Exception (exn_class e) = true.
Proof.
  unfold with_suffix.
  repeat match goal with
         | |- (if ?b then _ else _) = _ -> _ => destruct b
         end; try discriminate; now intros [= <-].
Qed.

Lemma check_required_raises (doc : pyval) (e : exn) :
  check_required doc = Raise e -> is_Exception (exn_class e) = true.
Proof.
  unfold check_required.
  destruct (comprehension_if (py_not_in doc) required_fields) as [[|x xs]|e0] eqn:E;
    try discriminate; try (now intros [= <-]).
  intros [= <-]. revert E. unfold required_fields, comprehension_if, py_not_in, py_in.
  destruct doc; try discriminate; now intros [= <-].
Qed.

#[export] Hint Resolve ends_ret ends_log_anywhere ends_Path_exists
  ends_Path_is_dir ends_open_read ends_read_lines ends_Path_mkdir : ends.
#[export] Hint Resolve getitem_raises get_raises effective_output_name_raises
  Path_raises with_suffix_raises check_required_raises : ends.

Ltac ends_go :=
  repeat first
    [ progress intros
    | progress cbv zeta
    | apply ends_raise; reflexivity
    | solve [eauto with ends]
    | apply ends_lift; solve [eauto with ends]
    | eapply ends_bind; [solve [eauto with ends] | ]
    | eapply ends_bind; [apply ends_lift; solve [eauto with ends] | ]
    | match goal with
      | |- ends _ _ (if ?b then _ else _) => destruct b
      | |- ends _ _ (match ?x with _ => _ end) => destruct x
      end ].

Section Outcomes.
Variable c : collab.
Hypothesis Hc : well_behaved c.

Lemma ends_yaml_safe_load (f : file_data) :
  ends anywhere raised (yaml_safe_load c f).
Proof.
  destruct f as [t| |render]; [|now apply ends_raise|].
  - apply ends_lift. intros e. apply Hc.
  - eapply ends_bind; [apply ends_logged_text|]. intros t.
    apply ends_lift. intros e. apply Hc.
Qed.

Lemma ends_load_config (path : pystr) : ends anywhere raised (load_config c path).
Proof. pose proof ends_yaml_safe_load. unfold load_config. ends_go. Qed.

Lemma ends_load_labels (v : pyval) : ends anywhere raised (load_labels v).
Proof. unfold load_labels. ends_go. Qed.

Lemma ends_discovery (folder : pystr) :
  ends anywhere raised (call_get_all_image_paths c folder).
Proof.
  intros st r st'. unfold call_get_all_image_paths. intros [= <- <-].
  destruct (get_all_image_paths c _ _ folder) as [x|e] eqn:E; [exact I|].
  left. destruct Hc as [_ [H _]]. exact (H _ _ _ _ E).
Qed.

Lemma ends_init (a : init_args) : ends anywhere raised (call_DetectAndClassify c a).
Proof.
  intros st r st'. unfold call_DetectAndClassify.
  destruct (DetectAndClassify c _ _ a) as [fs' [e|]] eqn:E; intros [= <- <-];
    [|exact I].
  left. destruct Hc as [_ [_ [H _]]]. exact (H _ _ _ _ _ E).
Qed.

Lemma ends_predict (a : predict_args) : ends anywhere raised (call_predict c a).
Proof.
  intros st r st'. unfold call_predict.
  destruct (predict c _ _ a) as [fs' [e|]] eqn:E; intros [= <- <-]; [|exact I].
  left. destruct Hc as [_ [_ [_ H]]]. exact (H _ _ _ _ _ E).
Qed.

Lemma ends_resolve (v : pyval) (folder : PurePath) :
  ends anywhere raised (resolve_output_stem v folder).
Proof. unfold resolve_output_stem. ends_go. Qed.

Lemma ends_no_images {A} (ok : state -> Prop) :
  ends ok raised
    (logger_warning
       [Lit (py "No images found! Supported formats: .jpg, .jpeg, .png")];;
     @sys_exit A 0).
Proof.
  intros [fs cwd tr] r st'. msimpl. intros [= <- <-]. right.
  split; [reflexivity|]. cbn [st_trace]. apply list.last_snoc.
Qed.

Lemma ends_main_try (args : Args) :
  ends (fun st => last (st_trace st) = Some log_done) raised (main_try c args).
Proof.
  pose proof ends_load_config. pose proof ends_load_labels.
  pose proof ends_discovery. pose proof ends_init. pose proof ends_predict.
  pose proof ends_resolve.
  unfold main_try.
  repeat first
    [ progress intros
    | progress cbv zeta
    | apply ends_no_images
    | apply ends_raise; reflexivity
    | apply ends_log
    | eapply ends_bind; [solve [eauto with ends] | ]
    | eapply ends_bind; [apply ends_lift; solve [eauto with ends] | ]
    | match goal with
      | |- ends _ _ (if ?b then _ else _) => destruct b
      | |- ends _ _ (match ?x with _ => _ end) => destruct x
      end ].
Qed.

End Outcomes.

(** X13: with collaborators that raise nothing but [Exception]s, a run
    ends in one of three ways, and its last log record tells which: it
    returns normally after "Done!"; it raises [SystemExit(0)] right after
    the warning that no images were found; or it raises [SystemExit(1)]
    right after the record that reports an exception.  So the exit status
    is 0 or 1, and 1 is never given without an error record. *)
Theorem run_outcomes (c : collab) (args : Args) (st : state) :
  well_behaved c ->
  match fst (main c args st) with
  | Ok _ => last (st_trace (snd (main c args st))) = Some log_done
  | Raise e =>
      (e = Exn (SystemExit 0) None
       /\ last (st_trace (snd (main c args st))) = Some log_no_images)
      \/ (e = Exn (SystemExit 1) None
          /\ exists e0,
               is_Exception (exn_class e0) = true
               /\ last (st_trace (snd (main c args st))) = Some (report e0))
  end
  /\ (exit_status (fst (main c args st)) = 0
      \/ exit_status (fst (main c args st)) = 1)%Z.
Proof.
  intros Hc. unfold main.
  destruct (main_try c args st) as [[[]|e] [fs1 cwd1 tr1]] eqn:E;
    pose proof (ends_main_try c Hc args st _ _ E) as H; cbn beta iota in H.
  - split; [exact H|now left].
  - rewrite main_except_final. cbn [fst snd st_trace].
    unfold final, reported. destruct H as [He|[-> Hlast]].
    + rewrite He. split; [|now right]. right. split; [reflexivity|].
      exists e. split; [exact He|]. apply list.last_snoc.
    + cbn [exn_class is_Exception]. split; [|now left]. left.
      split; [reflexivity|]. now rewrite app_nil_r.
Qed.

Lemma run_outcomes_witness :
  exit_status
    (fst (main (Demo.world (Ok (PyDict Demo.config)) []) (Demo.args None) Demo.st))
  = 0%Z
  \/ exit_status
       (fst (main (Demo.world (Ok (PyDict Demo.config)) []) (Demo.args None)
               Demo.st))
     = 1%Z.
Proof.
  apply (run_outcomes (Demo.world (Ok (PyDict Demo.config)) []) (Demo.args None)
           Demo.st).
  repeat split; intros; discriminate.
Defined.

(** ** What a run does to the files *)

Lemma grows_refl (fs : fsys) : grows fs fs.
Proof. split; [reflexivity|]. intros k n H. now left. Qed.

Lemma grows_trans (fs1 fs2 fs3 : fsys) :
  grows fs1 fs2 -> grows fs2 fs3 -> grows fs1 fs3.
Proof.
  intros [H1 H1'] [H2 H2']. split; [now transitivity fs2|].
  intros k n H. destruct (H2' k n H) as [H3|H3]; [now apply H1'|now right].
Qed.

Lemma os_mkdir_grows (cwd : list pystr) (fs fs' : fsys) (p : PurePath) :
  OS.mkdir cwd fs p = inl fs' -> grows fs fs'.
Proof.
  destruct p as [r ps]. destruct ps as [|x ps0 _] using rev_ind.
  - intros H. now apply os_mkdir_nil in H.
  - intros H. apply os_mkdir_inl in H.
    destruct H as [dir [_ [_ [_ [_ [Hnone ->]]]]]].
    split; [now apply insert_subseteq|].
    intros k n. destruct (decide (k = dir ++ [x])) as [->|Hk].
    + rewrite lookup_insert_eq. intros [= <-]. now right.
    + rewrite lookup_insert_ne by congruence. now left.
Qed.

Lemma mkdir_once_grows (cwd : list pystr) (fs fs' : fsys) (p : PurePath)
    (exist_ok : bool) (oe : option exn) :
  mkdir_once cwd fs p exist_ok = (fs', oe) -> grows fs fs'.
Proof.
  unfold mkdir_once. destruct (OS.mkdir cwd fs p) as [fs1|k] eqn:E.
  - intros [= <- _]. exact (os_mkdir_grows _ _ _ _ E).
  - destruct k;
      try (intros H; apply mkdir_failed_same in H; subst fs'; apply grows_refl);
      intros [= <- _]; apply grows_refl.
Qed.

Lemma mkdir_parents_grows (cwd : list pystr) (r : pystr) (rparts : list pystr) :
  forall (exist_ok : bool) (fs fs' : fsys) (oe : option exn),
    mkdir_parents cwd r rparts exist_ok fs = (fs', oe) -> grows fs fs'.
Proof.
  induction rparts as [|x rparent IH]; intros exist_ok fs fs' oe;
    rewrite mkdir_parents_eq; cbv zeta;
    destruct (OS.mkdir cwd fs _) as [fs1|k] eqn:E;
    try (intros [= <- _]; exact (os_mkdir_grows _ _ _ _ E)).
  - destruct k;
      try (intros H; apply mkdir_failed_same in H; subst fs'; apply grows_refl);
      intros [= <- _]; apply grows_refl.
  - destruct k;
      try (intros H; apply mkdir_failed_same in H; subst fs'; apply grows_refl).
    destruct (mkdir_parents cwd r rparent true fs) as [fs1 [e1|]] eqn:E1.
    + intros [= <- _]. exact (IH _ _ _ _ E1).
    + intros H. apply (grows_trans fs fs1 fs'); [exact (IH _ _ _ _ E1)|].
      exact (mkdir_once_grows _ _ _ _ _ _ H).
Qed.

Lemma follows_refl (st : state) : follows st st.
Proof. split; [apply grows_refl|]. exists []. now rewrite app_nil_r. Qed.

Lemma follows_trans (st1 st2 st3 : state) :
  follows st1 st2 -> follows st2 st3 -> follows st1 st3.
Proof.
  intros [H1 [n1 E1]] [H2 [n2 E2]]. split; [now apply (grows_trans _ (st_fs st2))|].
  exists (n1 ++ n2). now rewrite E2, E1, app_assoc.
Qed.

Lemma follows_event (fs fs' : fsys) (cwd : list pystr) (tr : list event)
    (ev : event) :
  grows fs fs' -> follows (State fs cwd tr) (State fs' cwd (tr ++ [ev])).
Proof. intros H. split; [exact H|]. now exists [ev]. Qed.

Lemma appended_extends (render : list event -> option pystr) :
  appended render ->
  forall (new tr : list event) (t : pystr),
    render tr = Some t -> exists more, render (tr ++ new) = Some (t ++ more).
Proof.
  intros Happ. induction new as [|ev new IH]; intros tr t H.
  - exists []. now rewrite !app_nil_r.
  - destruct (Happ tr ev t H) as [entry H1].
    destruct (IH _ _ H1) as [more H2].
    exists (entry ++ more).
    change (ev :: new) with ([ev] ++ new). now rewrite !app_assoc.
Qed.

Lemma follows_log_file (st st' : state) (k : list pystr)
    (render : list event -> option pystr) (t : pystr) :
  follows st st' ->
  st_fs st !! k = Some (File (Logged render)) ->
  appended render ->
  render (st_trace st) = Some t ->
  st_fs st' !! k = Some (File (Logged render))
  /\ exists more, render (st_trace st') = Some (t ++ more).
Proof.
  intros [[Hsub _] [new ->]] Hk Happ Ht.
  split; [exact (lookup_weaken _ _ _ _ Hk Hsub)|].
  now apply appended_extends.
Qed.

Create HintDb keeps.

Lemma keeps_bind {A B} (m : M A) (f : A -> M B) :
  keeps m -> (forall x, keeps (f x)) -> keeps (m ≫= f).
Proof.
  intros Hm Hf st r st'. unfold mbind, M_bind.
  destruct (m st) as [[x|e] st1] eqn:E.
  - intros E2. apply (follows_trans _ st1); [exact (Hm _ _ _ E)|].
    exact (Hf x _ _ _ E2).
  - intros [= <- <-]. exact (Hm _ _ _ E).
Qed.

Lemma keeps_silent {A} (m : M A) : (forall st, snd (m st) = st) -> keeps m.
Proof.
  intros H st r st' E. specialize (H st). rewrite E in H. cbn in H. subst st'.
  apply follows_refl.
Qed.

Lemma keeps_ret {A} (x : A) : keeps (mret x).
Proof. now apply keeps_silent. Qed.

Lemma keeps_lift {A} (r : result A) : keeps (lift r).
Proof. now apply keeps_silent. Qed.

Lemma keeps_raise {A} (e : exn) : keeps (@raise A e).
Proof. now apply keeps_silent. Qed.

Lemma keeps_sys_exit {A} (code : Z) : keeps (@sys_exit A code).
Proof. now apply keeps_silent. Qed.

Lemma keeps_Path_exists (p : PurePath) : keeps (Path_exists p).
Proof. now apply keeps_silent. Qed.

Lemma keeps_Path_is_dir (p : PurePath) : keeps (Path_is_dir p).
Proof. now apply keeps_silent. Qed.

Lemma keeps_discovery (c : collab) (folder : pystr) :
  keeps (call_get_all_image_paths c folder).
Proof. now apply keeps_silent. Qed.

Lemma keeps_load_config (c : collab) (path : pystr) : keeps (load_config c path).
Proof. apply keeps_silent. apply load_config_read_only. Qed.

Lemma keeps_load_labels (v : pyval) : keeps (load_labels v).
Proof. apply keeps_silent. apply load_labels_read_only. Qed.

Lemma keeps_emit (ev : event) : keeps (emit ev).
Proof.
  intros [fs cwd tr] r st'. unfold emit. intros [= <- <-].
  apply follows_event, grows_refl.
Qed.

Lemma keeps_logger_info (msg : list frag) : keeps (logger_info msg).
Proof. apply keeps_emit. Qed.

Lemma keeps_logger_warning (msg : list frag) : keeps (logger_warning msg).
Proof. apply keeps_emit. Qed.

Lemma keeps_logger_error (msg : list frag) : keeps (logger_error msg).
Proof. apply keeps_emit. Qed.

Lemma keeps_logger_exception (msg : list frag) : keeps (logger_exception msg).
Proof. apply keeps_emit. Qed.

Lemma keeps_Path_mkdir (p : PurePath) (exist_ok : bool) :
  keeps (Path_mkdir p true exist_ok).
Proof.
  intros [fs cwd tr] r st'. unfold Path_mkdir.
  cbv beta iota zeta delta [st_fs st_cwd st_trace].
  destruct (mkdir_parents _ _ _ _ _) as [fs' oe] eqn:E.
  destruct oe; intros [= <- <-]; apply follows_event;
    exact (mkdir_parents_grows _ _ _ _ _ _ _ E).
Qed.

#[export] Hint Resolve keeps_ret keeps_lift keeps_raise keeps_sys_exit
  keeps_Path_exists keeps_Path_is_dir keeps_discovery keeps_load_config
  keeps_load_labels keeps_logger_info keeps_logger_warning keeps_logger_error
  keeps_logger_exception keeps_Path_mkdir : keeps.

Ltac keeps_go :=
  repeat first
    [ progress intros
    | progress cbv zeta
    | solve [auto with keeps]
    | apply keeps_bind; [solve [auto with keeps] | ]
    | match goal with
      | |- keeps (if ?b then _ else _) => destruct b
      | |- keeps (match ?x with _ => _ end) => destruct x
      end ].

Lemma keeps_resolve (v : pyval) (folder : PurePath) :
  keeps (resolve_output_stem v folder).
Proof. unfold resolve_output_stem. keeps_go. Qed.

Section Passive.
Variable c : collab.
Hypothesis Hc : passive c.

Lemma keeps_init (a : init_args) : keeps (call_DetectAndClassify c a).
Proof.
  intros [fs cwd tr] r st'. unfold call_DetectAndClassify.
  cbv beta iota zeta delta [st_fs st_cwd st_trace].
  destruct Hc as [H _]. specialize (H cwd fs a).
  destruct (DetectAndClassify c cwd fs a) as [fs' oe]. cbn in H. subst fs'.
  destruct oe; intros [= <- <-]; apply follows_event, grows_refl.
Qed.

Lemma keeps_predict (a : predict_args) : keeps (call_predict c a).
Proof.
  intros [fs cwd tr] r st'. unfold call_predict.
  cbv beta iota zeta delta [st_fs st_cwd st_trace].
  destruct Hc as [_ H]. specialize (H cwd fs a).
  destruct (predict c cwd fs a) as [fs' oe]. cbn in H. subst fs'.
  destruct oe; intros [= <- <-]; apply follows_event, grows_refl.
Qed.

Lemma keeps_main_try (args : Args) : keeps (main_try c args).
Proof.
  pose proof keeps_init. pose proof keeps_predict. pose proof keeps_resolve.
  unfold main_try. keeps_go.
Qed.

Lemma keeps_main_except (e : exn) : keeps (main_except e).
Proof. unfold main_except. keeps_go. Qed.

Lemma main_follows (args : Args) (st : state) :
  follows st (snd (main c args st)).
Proof.
  unfold main.
  destruct (main_try c args st) as [[[]|e] st1] eqn:E;
    pose proof (keeps_main_try args st _ _ E) as H1.
  - exact H1.
  - destruct (main_except e st1) as [r st2] eqn:E2.
    apply (follows_trans _ st1); [exact H1|].
    exact (keeps_main_except e st1 _ _ E2).
Qed.

End Passive.

(** X14: apart from what the pipeline itself writes, a run never removes
    or replaces an entry of the file system and adds nothing but
    directories.  However the run ends, every path that led to a file or a
    directory still leads to the same one, and whatever path is new leads
    to a directory.  What the run writes are its log records: the records
    logged before are still there, in order, with those of the run after
    them, so a log file, which the handler appends to, is still the log
    file and reads as before with more text at its end; the text of every
    other file is what it was. *)
Theorem run_only_adds_directories (c : collab) (args : Args) (st : state) :
  passive c ->
  grows (st_fs st) (st_fs (snd (main c args st)))
  /\ (exists new, st_trace (snd (main c args st)) = st_trace st ++ new)
  /\ (forall k t,
        st_fs st !! k = Some (File (Text t)) ->
        st_fs (snd (main c args st)) !! k = Some (File (Text t)))
  /\ (forall k render t,
        st_fs st !! k = Some (File (Logged render)) ->
        appended render ->
        content (Logged render) (st_trace st) = Some t ->
        st_fs (snd (main c args st)) !! k = Some (File (Logged render))
        /\ exists more,
             content (Logged render) (st_trace (snd (main c args st)))
             = Some (t ++ more)).
Proof.
  intros Hc. pose proof (main_follows c Hc args st) as H.
  split; [exact (proj1 H)|]. split; [exact (proj2 H)|]. split.
  - intros k t Hk. destruct H as [[Hsub _] _].
    exact (lookup_weaken _ _ _ _ Hk Hsub).
  - intros k render t Hk Happ Ht. exact (follows_log_file _ _ _ _ _ H Hk Happ Ht).
Qed.

Lemma run_only_adds_directories_witness :
  grows Demo.fs
    (st_fs (snd (main (Demo.world (Ok (PyDict Demo.config)) [py "imgs/a.jpg"])
                   (Demo.args (Some (py "out/run1.csv"))) Demo.st)))
  /\ Demo.fs !! [py "home"; py "inference_20240309_070500.log"]
     = Some (File (Logged Demo.log_text))
  /\ st_fs (snd (main (Demo.world (Ok (PyDict Demo.config)) [py "imgs/a.jpg"])
                   (Demo.args (Some (py "out/run1.csv"))) Demo.st))
     !! [py "home"; py "inference_20240309_070500.log"]
     = Some (File (Logged Demo.log_text)).
Proof.
  assert (Hp : passive (Demo.world (Ok (PyDict Demo.config)) [py "imgs/a.jpg"]))
    by (split; reflexivity).
  assert (Hlog : Demo.fs !! [py "home"; py "inference_20240309_070500.log"]
                 = Some (File (Logged Demo.log_text)))
    by (vm_compute; reflexivity).
  destruct (run_only_adds_directories
              (Demo.world (Ok (PyDict Demo.config)) [py "imgs/a.jpg"])
              (Demo.args (Some (py "out/run1.csv"))) Demo.st Hp)
    as [Hgrows [_ [_ Hfile]]].
  split; [exact Hgrows|]. split; [exact Hlog|].
  apply (Hfile _ Demo.log_text [] Hlog); [|reflexivity].
  intros tr ev t. unfold Demo.log_text. intros [= <-].
  rewrite map_app, concat_app. eauto.
Defined.

(** ** A label file with a byte-order mark *)

Lemma file_lines_from_head (t : pystr) :
  forall cur, cur <> [] ->
    exists more lines, file_lines_from cur t = (cur ++ more) :: lines.
Proof.
  induction t as [|ch t IH]; intros cur Hcur; cbn [file_lines_from].
  - destruct cur; [contradiction|]. exists [], []. now rewrite app_nil_r.
  - destruct (ch =? LF); [eauto|].
    destruct (ch =? CR).
    + destruct t as [|d t']; [eauto|]. destruct (d =? LF); eauto.
    + destruct (IH (cur ++ [ch])) as [more [lines H]]; [now destruct cur|].
      exists (ch :: more), lines. now rewrite H, <- app_assoc.
Qed.

(** X15: the label file is decoded as plain UTF-8, so a byte-order mark
    at its start stays in the text: it becomes the first character of the
    first label, and it keeps the first line from being recognised as
    blank or as a comment.  Such a file always loads, and its first line,
    whatever it is, is the first label. *)
Theorem byte_order_mark_kept
    (path : pystr) (st : state) (k : list pystr) (t : pystr) :
  OS.stat (st_cwd st) (st_fs st) (parse path) = OS.Found k (File (Text (BOM :: t))) ->
  exists line lines,
    file_lines (BOM :: t) = (BOM :: line) :: lines
    /\ load_labels (PyStr path) st
       = (Ok ((BOM :: rstrip line)
              :: List.filter is_label (List.map strip lines)), st).
Proof.
  intros Hstat.
  destruct (file_lines_from_head t [BOM]) as [line [lines H]]; [discriminate|].
  exists line, lines.
  assert (Hlines : file_lines (BOM :: t) = (BOM :: line) :: lines) by exact H.
  split; [exact Hlines|].
  rewrite (load_labels_text path st k _ Hstat), Hlines.
  cbn [List.map List.filter].
  assert (Hstrip : strip (BOM :: line) = BOM :: rstrip line).
  { unfold strip. cbn [lstrip]. change (isspace BOM) with false. cbv iota.
    now apply rstrip_cons_keep. }
  rewrite Hstrip. reflexivity.
Qed.

Lemma byte_order_mark_kept_witness :
  exists line lines,
    file_lines Cases.bom_text = (BOM :: line) :: lines
    /\ load_labels (str_lit "bom.txt") (State Cases.fs Demo.cwd [])
       = (Ok ((BOM :: rstrip line)
              :: List.filter is_label (List.map strip lines)),
          State Cases.fs Demo.cwd []).
Proof.
  apply (byte_order_mark_kept (py "bom.txt") (State Cases.fs Demo.cwd [])
           [py "home"; py "bom.txt"]).
  vm_compute. reflexivity.
Defined.

(** ** An output path that is in the way *)

Lemma os_mkdir_on_file (cwd : list pystr) (fs : fsys) (p : PurePath)
    (k : list pystr) (dta : file_data) :
  OS.stat cwd fs p = OS.Found k (File dta) ->
  OS.mkdir cwd fs p = inr FileExistsError.
Proof.
  apply os_mkdir_existing.
Qed.

(** X16: when the requested output name has a directory part and that
    directory is an existing regular file, [mkdir] fails although
    [exist_ok] is set: resolving the name raises a [FileExistsError] (an
    "Unexpected error" for [main]), and the file system is untouched. *)
Theorem output_parent_is_a_file
    (requested : pystr) (folder : PurePath) (fs : fsys) (cwd : list pystr)
    (tr : list event) (k : list pystr) (dta : file_data) :
  explicit_path requested ->
  OS.stat cwd fs (parent (parse requested)) = OS.Found k (File dta) ->
  resolve_output_stem (PyStr requested) folder (State fs cwd tr)
  = (Raise (Exn FileExistsError None),
     State fs cwd (tr ++ [EvMkdir (parent (parse requested)) true true]))
  /\ classify (Exn FileExistsError None) = UnexpectedError.
Proof.
  intros [Hparts Hdir] Hstat. split; [|reflexivity].
  pose proof (parse_valid requested) as Hv.
  assert (Hname : name (parse requested) <> []).
  { intros E. now apply (name_nil _ Hv) in E. }
  assert (Hnotdot : str (parent (parse requested)) <> [DOT]).
  { intros E. apply (str_dot _ (parent_valid _ Hv)) in E.
    destruct E as [Er Ep]. cbn [parent root parts] in Er, Ep.
    destruct Hdir as [Hr|Hl]; [contradiction|].
    destruct (parts (parse requested)) as [|a [|b l]];
      cbn [length] in Hl; try lia. discriminate Ep. }
  rewrite resolve_output_stem_eq. cbv zeta.
  rewrite (pystr_eqb_neq _ _ Hname), (pystr_eqb_neq _ _ Hnotdot).
  unfold Path_mkdir. cbv beta iota zeta delta [st_fs st_cwd st_trace].
  rewrite mkdir_parents_eq. cbv zeta. rewrite rev_involutive.
  replace (MkPath (root (parent (parse requested)))
             (parts (parent (parse requested))))
    with (parent (parse requested)) by now destruct (parent (parse requested)).
  rewrite (os_mkdir_on_file _ _ _ _ _ Hstat).
  unfold mkdir_failed, is_dir. rewrite Hstat. reflexivity.
Qed.

Lemma output_parent_is_a_file_witness :
  resolve_output_stem (str_lit "imgs/notes.txt/run") (parse (py "imgs")) Demo.st
  = (Raise (Exn FileExistsError None),
     State Demo.fs Demo.cwd [EvMkdir (parse (py "imgs/notes.txt")) true true])
  /\ classify (Exn FileExistsError None) = UnexpectedError.
Proof.
  apply (output_parent_is_a_file (py "imgs/notes.txt/run") (parse (py "imgs"))
           Demo.fs Demo.cwd [] [py "home"; py "imgs"; py "notes.txt"]
           (Text (py "hello"))).
  - split; vm_compute; [discriminate|right; lia].
  - vm_compute. reflexivity.
Defined.

(** ** The properties at work in the example worlds *)

Lemma demo_config_loads (doc : gmap pystr pyval) (imgs : list pystr)
    (output : option pystr) :
  missing_fields doc = [] ->
  config_loads (Demo.world (Ok (PyDict doc)) imgs) Demo.cwd Demo.fs
    (Demo.args output) doc.
Proof.
  intros H. exists [py "home"; py "config.yaml"], (py "detector_path: md.pt").
  split; [vm_compute; reflexivity|]. split; [reflexivity|exact H].
Qed.

Lemma cases_ready (init_error predict_error : option exn) (output : option pystr) :
  ready (Cases.world init_error predict_error) Demo.cwd Demo.fs
    (Demo.args output) Demo.config Cases.labels Cases.images.
Proof.
  split; [|split; [|split; [|split]]].
  - exists [py "home"; py "config.yaml"], (py "detector_path: md.pt").
    split; [vm_compute; reflexivity|]. split; [reflexivity|].
    vm_compute. reflexivity.
  - exists (py "labels.txt"), [py "home"; py "labels.txt"], Demo.labels_text.
    repeat split; vm_compute; (reflexivity || discriminate).
  - exists [py "home"; py "imgs"]. vm_compute. reflexivity.
  - reflexivity.
  - discriminate.
Qed.

Lemma directory_in_place_of_file_witness :
  main (Demo.world (Ok (PyDict Demo.config)) []) (Cases.args_with_config "imgs")
    Demo.st
  = (Raise (Exn (SystemExit 1) None),
     State Demo.fs Demo.cwd
       [log_loading_config (Cases.args_with_config "imgs");
        EvLog ERROR true [Lit (py "Unexpected error: ");
                          ExcText (Exn IsADirectoryError None)]])
  /\ main (Demo.world (Ok (PyDict (Cases.config_with_label_path (str_lit "imgs"))))
             [])
       (Demo.args None) Demo.st
     = (Raise (Exn (SystemExit 1) None),
        State Demo.fs Demo.cwd
          [log_loading_config (Demo.args None);
           log_loading_labels (str_lit "imgs");
           EvLog ERROR true [Lit (py "Unexpected error: ");
                             ExcText (Exn IsADirectoryError None)]]).
Proof.
  split.
  - apply (proj1 (directory_in_place_of_file
                    (Demo.world (Ok (PyDict Demo.config)) [])
                    (Cases.args_with_config "imgs") Demo.cwd Demo.fs [])
             [py "home"; py "imgs"]).
    vm_compute. reflexivity.
  - apply (proj2 (directory_in_place_of_file
                    (Demo.world
                       (Ok (PyDict (Cases.config_with_label_path (str_lit "imgs"))))
                       [])
                    (Demo.args None) Demo.cwd Demo.fs [])
             (Cases.config_with_label_path (str_lit "imgs")) (py "imgs")
             [py "home"; py "imgs"]).
    + apply demo_config_loads. vm_compute. reflexivity.
    + vm_compute. reflexivity.
    + vm_compute. reflexivity.
Defined.


Lemma non_mapping_document_rejected_witness :
  exists e,
    main (Demo.world (Ok PyNone) []) (Demo.args None) Demo.st
    = (Raise (Exn (SystemExit 1) None),
       State Demo.fs Demo.cwd [log_loading_config (Demo.args None); report e])
    /\ (exn_class e = TypeError \/ exn_class e = ValueError)
    /\ exn_class e = TypeError.
Proof.
  apply (non_mapping_document_rejected (Demo.world (Ok PyNone) [])
           (Demo.args None) Demo.cwd Demo.fs []
           [py "home"; py "config.yaml"] (py "detector_path: md.pt") PyNone).
  - vm_compute. reflexivity.
  - reflexivity.
  - exact I.
Defined.

Lemma label_path_not_a_string_witness :
  main (Demo.world (Ok (PyDict (Cases.config_with_label_path (PyInt 5)))) [])
    (Demo.args None) Demo.st
  = (Raise (Exn (SystemExit 1) None),
     State Demo.fs Demo.cwd
       [log_loading_config (Demo.args None); log_loading_labels (PyInt 5);
        EvLog ERROR true [Lit (py "Unexpected error: ");
                          ExcText (Exn TypeError None)]]).
Proof.
  apply (label_path_not_a_string
           (Demo.world (Ok (PyDict (Cases.config_with_label_path (PyInt 5)))) [])
           (Demo.args None) Demo.cwd Demo.fs []
           (Cases.config_with_label_path (PyInt 5)) (PyInt 5)).
  - apply demo_config_loads. vm_compute. reflexivity.
  - vm_compute. reflexivity.
  - exact I.
Defined.

Lemma constructor_call_witness :
  exists rest,
    st_trace (snd (main (Cases.world None None) (Demo.args None) Demo.st))
    = before_init (Demo.args None) Demo.config (py "labels.txt") Cases.labels
        Cases.images Cases.built (str_lit "from_config")
      ++ EvInit Cases.built :: rest.
Proof.
  apply (constructor_call (Cases.world None None) (Demo.args None) Demo.cwd
           Demo.fs [] Demo.config Cases.labels Cases.images
           (str_lit "md.pt") (str_lit "awc.pth") (str_lit "from_config")
           (py "labels.txt")).
  - apply cases_ready.
  - vm_compute. reflexivity.
  - vm_compute. reflexivity.
  - vm_compute. reflexivity.
  - vm_compute. reflexivity.
Defined.

Lemma constructor_failure_witness :
  main (Cases.world (Some (Exn OtherException None)) None) (Demo.args None)
    Demo.st
  = (Raise (Exn (SystemExit 1) None),
     State Demo.fs Demo.cwd
       (before_init (Demo.args None) Demo.config (py "labels.txt") Cases.labels
          Cases.images Cases.built (str_lit "from_config")
        ++ [EvInit Cases.built; report (Exn OtherException None)])).
Proof.
  exact (constructor_failure (Cases.world (Some (Exn OtherException None)) None)
           (Demo.args None) Demo.cwd Demo.fs [] Demo.config Cases.labels
           Cases.images (str_lit "md.pt") (str_lit "awc.pth")
           (str_lit "from_config") (py "labels.txt") (cases_ready _ None None)
           ltac:(vm_compute; reflexivity) ltac:(vm_compute; reflexivity)
           ltac:(vm_compute; reflexivity) ltac:(vm_compute; reflexivity)
           Demo.fs (Exn OtherException None) eq_refl).
Defined.

Lemma successful_run_witness :
  main (Cases.world None None) (Demo.args None) Demo.st
  = (Ok tt,
     State Demo.fs Demo.cwd
       (before_init (Demo.args None) Demo.config (py "labels.txt") Cases.labels
          Cases.images Cases.built (str_lit "from_config")
        ++ [EvInit Cases.built] ++ log_starting
        ++ [EvPredict (PredictArgs Cases.images (PyInt 4) (PyInt 1)
                         (py "imgs/from_config") true)]
        ++ log_saved (py "imgs/from_config"))).
Proof.
  exact (successful_run (Cases.world None None) (Demo.args None) Demo.cwd
           Demo.fs [] Demo.config Cases.labels Cases.images
           (str_lit "md.pt") (str_lit "awc.pth") (str_lit "from_config")
           (py "labels.txt") (cases_ready None None None)
           ltac:(vm_compute; reflexivity) ltac:(vm_compute; reflexivity)
           ltac:(vm_compute; reflexivity) ltac:(vm_compute; reflexivity)
           Demo.fs Demo.fs Demo.fs [] (py "imgs/from_config")
           eq_refl ltac:(vm_compute; reflexivity) eq_refl).
Defined.

Lemma predict_failure_witness :
  main (Cases.world None (Some (Exn OtherException None))) (Demo.args None)
    Demo.st
  = (Raise (Exn (SystemExit 1) None),
     State Demo.fs Demo.cwd
       (before_init (Demo.args None) Demo.config (py "labels.txt") Cases.labels
          Cases.images Cases.built (str_lit "from_config")
        ++ [EvInit Cases.built] ++ log_starting
        ++ [EvPredict (PredictArgs Cases.images (PyInt 4) (PyInt 1)
                         (py "imgs/from_config") true);
            report (Exn OtherException None)])).
Proof.
  exact (predict_failure (Cases.world None (Some (Exn OtherException None)))
           (Demo.args None) Demo.cwd
           Demo.fs [] Demo.config Cases.labels Cases.images
           (str_lit "md.pt") (str_lit "awc.pth") (str_lit "from_config")
           (py "labels.txt") (cases_ready None _ None)
           ltac:(vm_compute; reflexivity) ltac:(vm_compute; reflexivity)
           ltac:(vm_compute; reflexivity) ltac:(vm_compute; reflexivity)
           Demo.fs Demo.fs Demo.fs [] (py "imgs/from_config")
           (Exn OtherException None) eq_refl
           ltac:(vm_compute; reflexivity) eq_refl).
Defined.

Lemma unusable_output_name_witness :
  main (Cases.world None None) (Demo.args (Some (py "."))) Demo.st
  = (Raise (Exn (SystemExit 1) None),
     State Demo.fs Demo.cwd
       (before_init (Demo.args (Some (py "."))) Demo.config (py "labels.txt")
          Cases.labels Cases.images Cases.built (str_lit ".")
        ++ [EvInit Cases.built] ++ log_starting
        ++ [report (Exn ValueError None)])).
Proof.
  apply (unusable_output_name (Cases.world None None) (Demo.args (Some (py ".")))
           Demo.cwd Demo.fs [] Demo.config Cases.labels Cases.images
           (str_lit "md.pt") (str_lit "awc.pth") (str_lit ".")
           (py "labels.txt") (cases_ready None None _)
           ltac:(vm_compute; reflexivity) ltac:(vm_compute; reflexivity)
           ltac:(vm_compute; reflexivity) ltac:(vm_compute; reflexivity)
           Demo.fs eq_refl (Exn ValueError None)).
  left. exists (py "."). repeat split.
Defined.

(** ** The default log file *)

Lemma zero_padded_length (width : nat) : forall n, length (zero_padded width n) = width.
Proof.
  induction width as [|w IH]; intros n; cbn [zero_padded]; [reflexivity|].
  rewrite length_app, IH. cbn [length]. lia.
Qed.

Lemma zero_padded_digits (width : nat) :
  forall n, Forall (fun ch => 48 <= ch <= 57) (zero_padded width n).
Proof.
  induction width as [|w IH]; intros n; cbn [zero_padded]; [constructor|].
  apply Forall_app. split; [apply IH|]. constructor; [|constructor].
  unfold digit. pose proof (N.mod_upper_bound n 10 ltac:(discriminate)) as Hlt.
  revert Hlt. generalize (n mod 10). intros x Hlt. lia.
Qed.

Lemma zero_padded_inj (width : nat) :
  forall n m,
    n < 10 ^ N.of_nat width -> m < 10 ^ N.of_nat width ->
    zero_padded width n = zero_padded width m -> n = m.
Proof.
  induction width as [|w IH]; intros n m Hn Hm.
  - cbn in Hn, Hm. lia.
  - cbn [zero_padded]. intros H. apply app_inj_tail in H. destruct H as [H1 H2].
    unfold digit in H2.
    assert (Hpow : 10 ^ N.of_nat (S w) = 10 * 10 ^ N.of_nat w).
    { rewrite Nat2N.inj_succ, N.pow_succ_r'. reflexivity. }
    rewrite Hpow in Hn, Hm.
    assert (Hq : n / 10 = m / 10).
    { apply IH; [| |exact H1]; apply N.Div0.div_lt_upper_bound; assumption. }
    rewrite (N.div_mod n 10), (N.div_mod m 10) by discriminate.
    rewrite Hq. f_equal. revert H2. generalize (n mod 10), (m mod 10). lia.
Qed.

Lemma stamp_length (t : datetime) : length (strftime_stamp t) = 15%nat.
Proof.
  unfold strftime_stamp. rewrite !length_app, !zero_padded_length. reflexivity.
Qed.

Lemma stamp_digits (t : datetime) :
  Forall (fun ch => ch <> SLASH /\ ch <> DOT) (strftime_stamp t).
Proof.
  assert (H : forall w n, Forall (fun ch => ch <> SLASH /\ ch <> DOT)
                            (zero_padded w n)).
  { intros w n. eapply List.Forall_impl; [|apply zero_padded_digits].
    unfold SLASH, DOT. cbv beta. lia. }
  unfold strftime_stamp. repeat (apply Forall_app; split; try apply H).
  constructor; [|constructor]. split; discriminate.
Qed.

Lemma stamp_inj (t1 t2 : datetime) :
  four_digit_year t1 -> four_digit_year t2 ->
  strftime_stamp t1 = strftime_stamp t2 -> t1 = t2.
Proof.
  intros [Hy1 [Hm1 [Hd1 [Hh1 [Hmi1 Hs1]]]]] [Hy2 [Hm2 [Hd2 [Hh2 [Hmi2 Hs2]]]]].
  destruct t1 as [y1 m1 d1 h1 mi1 s1], t2 as [y2 m2 d2 h2 mi2 s2].
  cbn [dt_year dt_month dt_day dt_hour dt_minute dt_second] in *.
  unfold strftime_stamp.
  cbn [dt_year dt_month dt_day dt_hour dt_minute dt_second].
  intros H.
  apply app_inj_1 in H; [|now rewrite !zero_padded_length].
  destruct H as [Hy H].
  apply app_inj_1 in H; [|now rewrite !zero_padded_length].
  destruct H as [Hm H].
  apply app_inj_1 in H; [|now rewrite !zero_padded_length].
  destruct H as [Hd H].
  apply app_inj_1 in H; [|reflexivity]. destruct H as [_ H].
  apply app_inj_1 in H; [|now rewrite !zero_padded_length].
  destruct H as [Hh H].
  apply app_inj_1 in H; [|now rewrite !zero_padded_length].
  destruct H as [Hmi Hs].
  apply (zero_padded_inj 4) in Hy; [|cbn; lia|cbn; lia].
  apply (zero_padded_inj 2) in Hm; [|cbn; lia|cbn; lia].
  apply (zero_padded_inj 2) in Hd; [|cbn; lia|cbn; lia].
  apply (zero_padded_inj 2) in Hh; [|cbn; lia|cbn; lia].
  apply (zero_padded_inj 2) in Hmi; [|cbn; lia|cbn; lia].
  apply (zero_padded_inj 2) in Hs; [|cbn; lia|cbn; lia].
  congruence.
Qed.

(** X17: called without a file name, [setup_logging] logs to
    [inference_YYYYmmdd_HHMMSS.log]: 29 characters without directory part,
    so the file is made in the working directory, and the name tells the
    second of the call, so two calls share a log file only when they fall
    into the same second. *)
Theorem default_log_file (t1 t2 : datetime) :
  four_digit_year t1 -> four_digit_year t2 ->
  (log_file_of None t1 = log_file_of None t2 -> t1 = t2)
  /\ length (log_file_of None t1) = 29%nat
  /\ parse (log_file_of None t1) = MkPath [] [log_file_of None t1].
Proof.
  intros H1 H2. unfold log_file_of. split; [|split].
  - intros H. apply app_inv_head in H. apply app_inv_tail in H.
    now apply stamp_inj.
  - rewrite !length_app, stamp_length. reflexivity.
  - apply parse_bare; [|discriminate|discriminate].
    intros Hin. apply in_app_or in Hin. destruct Hin as [Hin|Hin].
    + cbn in Hin. intuition discriminate.
    + apply in_app_or in Hin. destruct Hin as [Hin|Hin].
      * pose proof (stamp_digits t1) as Hd. rewrite List.Forall_forall in Hd.
        now destruct (Hd _ Hin).
      * cbn in Hin. intuition discriminate.
Qed.

Lemma default_log_file_witness :
  (log_file_of None (DateTime 2024 3 9 7 5 0)
   = log_file_of None (DateTime 2024 3 9 7 5 1) ->
   DateTime 2024 3 9 7 5 0 = DateTime 2024 3 9 7 5 1)
  /\ length (log_file_of None (DateTime 2024 3 9 7 5 0)) = 29%nat
  /\ parse (log_file_of None (DateTime 2024 3 9 7 5 0))
     = MkPath [] [log_file_of None (DateTime 2024 3 9 7 5 0)].
Proof.
  apply (default_log_file (DateTime 2024 3 9 7 5 0) (DateTime 2024 3 9 7 5 1));
    unfold four_digit_year; cbn; lia.
Defined.

(** The name for 9 March 2024, 07:05:00. *)
Example log_file_of_a_morning :
  log_file_of None (DateTime 2024 3 9 7 5 0) = py "inference_20240309_070500.log"
  /\ log_file_of (Some (py "run.log")) (DateTime 2024 3 9 7 5 0) = py "run.log".
Proof. split; reflexivity. Qed.
